(** * The deep-research agent loop of [backend/src/agent.py]

    A shallow embedding of the research loop: the data model
    ([SearchIntent], [SearchResult], [ResearchContext], [SearchPlan]),
    the search wrapper [get_search_results], the finding extraction and the
    orchestration loop [run_deep_research_agent], followed by the properties
    proved about them.

    The language model, the search provider, the process environment and the
    clock are outside the program: they are the fields of a [Platform]
    record over an abstract [World], threaded through every call. A Python
    [str] is a sequence of code points, a Python [int] is a [Z], a Python
    [float] is a binary64 primitive float. *)

From Stdlib Require Import String Ascii ZArith NArith List Bool Lia Floats.
Import ListNotations.

Set Implicit Arguments.

(* ================================================================== *)
(** * Python strings *)
(* ================================================================== *)

(** A Python [str]: its code points, in order. *)
Definition str : Type := list N.

(** An ASCII literal of the source as a [str]. *)
Definition lit (s : string) : str :=
  List.map N_of_ascii (list_ascii_of_string s).

(** ['\n'] *)
Definition newline : N := 10%N.

(** ['🔍'], U+1F50D, the marker tested by [line.startswith]. *)
Definition magnifier : str := [128269%N].

(** [s[:n]] for a non-negative [n]. *)
Definition take (n : nat) (s : str) : str := firstn n s.

(** [s.startswith(prefix)] *)
Fixpoint startswith (prefix s : str) : bool :=
  match prefix, s with
  | [], _ => true
  | _ :: _, [] => false
  | p :: prefix', c :: s' => N.eqb p c && startswith prefix' s'
  end.

(** [sub in s] *)
Fixpoint contains (sub s : str) : bool :=
  startswith sub s ||
  match s with
  | [] => false
  | _ :: s' => contains sub s'
  end.

(** [s.split(sep)] for a one-character separator: never the empty list, the
    empty string gives one empty piece. *)
Fixpoint split (sep : N) (s : str) : list str :=
  match s with
  | [] => [[]]
  | c :: s' =>
      if N.eqb c sep then [] :: split sep s'
      else match split sep s' with
           | [] => [[c]]
           | piece :: pieces => (c :: piece) :: pieces
           end
  end.

(** [sep.join(pieces)] *)
Fixpoint join (sep : str) (pieces : list str) : str :=
  match pieces with
  | [] => []
  | [piece] => piece
  | piece :: rest => piece ++ sep ++ join sep rest
  end.

Section Strip.

(** [str.isspace] on one code point, from the runtime's Unicode tables. *)
Variable isspace : N -> bool.

Fixpoint lstrip (s : str) : str :=
  match s with
  | [] => []
  | c :: s' => if isspace c then lstrip s' else s
  end.

Definition rstrip (s : str) : str := rev (lstrip (rev s)).

(** [s.strip()] *)
Definition strip (s : str) : str := rstrip (lstrip s).

End Strip.

(** Truthiness of a string or of a list: non-empty. *)
Definition truthy {A : Type} (l : list A) : bool :=
  match l with [] => false | _ :: _ => true end.

(** The white space of Unicode as CPython classifies it. *)
Definition unicode_isspace (c : N) : bool :=
  ((9 <=? c) && (c <=? 13) || (28 <=? c) && (c <=? 32) ||
   (c =? 133) || (c =? 160) || (c =? 5760) ||
   (8192 <=? c) && (c <=? 8202) || (c =? 8232) || (c =? 8233) ||
   (c =? 8239) || (c =? 8287) || (c =? 12288))%N.

(** [str.lower] restricted to what ASCII decides: [A-Z] to [a-z], every
    other code point kept. Used to run the model on ASCII text. *)
Definition ascii_lower (s : str) : str :=
  List.map (fun c => if ((65 <=? c) && (c <=? 90))%N then (c + 32)%N else c) s.

(* ================================================================== *)
(** * Python floats *)
(* ================================================================== *)

(** [float(i)] for an [int]: the nearest binary64, ties to even. *)
Definition float_of_int (z : Z) : float :=
  SF2Prim (binary_normalize prec emax z 0 false).

(** The literal [0.1]: the binary64 nearest to one tenth. *)
Definition tenth : float := 0x1.999999999999ap-4%float.

(** [max(a, b)] of the builtin on two floats: [b] when [b > a], else [a]. *)
Definition py_max (a b : float) : float :=
  if PrimFloat.ltb a b then b else a.

(** The position-based score of [get_search_results]:
    [relevance = 1.0 - (i * 0.1)] and then [max(0.1, relevance)]. *)
Definition relevance (i : nat) : float :=
  (1 - float_of_int (Z.of_nat i) * tenth)%float.

Definition position_score (i : nat) : float :=
  py_max tenth (relevance i).

(* ================================================================== *)
(** * Data model *)
(* ================================================================== *)

Inductive SearchIntent : Type :=
| INITIAL_EXPLORATION
| DEEP_DIVE
| FACT_CHECKING
| RELATED_TOPICS
| SYNTHESIS.

(** The [.value] of an intent. *)
Definition intent_value (i : SearchIntent) : str :=
  match i with
  | INITIAL_EXPLORATION => lit "initial_exploration"
  | DEEP_DIVE => lit "deep_dive"
  | FACT_CHECKING => lit "fact_checking"
  | RELATED_TOPICS => lit "related_topics"
  | SYNTHESIS => lit "synthesis"
  end.

Record SearchResult : Type := {
  title : str;
  url : str;
  content : str;
  relevance_score : float;
  search_intent : SearchIntent;
  timestamp : Z
}.

(** [r.search_intent = intent] *)
Definition set_search_intent (r : SearchResult) (intent : SearchIntent)
  : SearchResult :=
  {| title := title r; url := url r; content := content r;
     relevance_score := relevance_score r; search_intent := intent;
     timestamp := timestamp r |}.

Record ResearchContext : Type := {
  query : str;
  search_history : list SearchResult;
  key_findings : list str;
  unanswered_questions : list str;
  search_iterations : Z
}.

(** [ResearchContext(query=question)]: every other field at its default. *)
Definition new_ResearchContext (question : str) : ResearchContext :=
  {| query := question; search_history := []; key_findings := [];
     unanswered_questions := []; search_iterations := 0 |}.

Record SearchPlan : Type := {
  intent : SearchIntent;
  plan_query : str;
  reasoning : str
}.

(* ================================================================== *)
(** * Effects: exceptions over a threaded state *)
(* ================================================================== *)

(** What [except Exception] catches. *)
Inductive Exception : Type :=
| ValidationError (field : str)
| ExternalError (message : str).

Inductive Outcome (A : Type) : Type :=
| Ok (a : A)
| Raise (e : Exception).

Arguments Ok {A} a.
Arguments Raise {A} e.

(** A computation over a state [St]: it returns or raises, and the state it
    leaves is kept either way, as mutations of Python objects are. *)
Definition M (St A : Type) : Type := St -> Outcome A * St.

Definition ret {St A : Type} (a : A) : M St A := fun s => (Ok a, s).

Definition raise {St A : Type} (e : Exception) : M St A := fun s => (Raise e, s).

Definition bind {St A B : Type} (m : M St A) (k : A -> M St B) : M St B :=
  fun s =>
    match m s with
    | (Ok a, s') => k a s'
    | (Raise e, s') => (Raise e, s')
    end.

(** [try: body  except Exception as e: handler e] *)
Definition try_except {St A : Type} (body : M St A) (handler : Exception -> M St A)
  : M St A :=
  fun s =>
    match body s with
    | (Ok a, s') => (Ok a, s')
    | (Raise e, s') => handler e s'
    end.

Declare Scope py_scope.
Delimit Scope py_scope with py.
Notation "x <- m ;; k" := (bind m (fun x => k))
  (at level 61, m at next level, right associativity) : py_scope.
Notation "m ;; k" := (bind m (fun _ => k))
  (at level 61, right associativity) : py_scope.
Open Scope py_scope.

(** [for x in xs: body x] *)
Fixpoint for_each {St X : Type} (xs : list X) (body : X -> M St unit) : M St unit :=
  match xs with
  | [] => ret tt
  | x :: xs' => body x ;; for_each xs' body
  end.

(** [for i, x in enumerate(xs): body i x], counting from [i]. *)
Fixpoint for_enumerate {St X : Type} (i : nat) (xs : list X)
    (body : nat -> X -> M St unit) : M St unit :=
  match xs with
  | [] => ret tt
  | x :: xs' => body i x ;; for_enumerate (S i) xs' body
  end.

(* ================================================================== *)
(** * The outside of the program *)
(* ================================================================== *)

(** One item of [results.results] of the provider's answer: the fields the
    program reads. The provider types [title] as optional. *)
Record ExaResult : Type := {
  res_title : option str;
  res_url : str;
  res_text : str
}.

(** A tool object of an executor response. [tool.call()] of the first runs
    [get_search_results] on the arguments the model chose: the only tool
    the program registers, and the only one the library builds for it.
    The second is a tool object whose [tool.call()] raises, the case the
    [try] around [tool.call()] is written for; [get_search_results] itself
    never raises, so a response to this program holds none. *)
Inductive Tool : Type :=
| SearchTool (query : str) (num_results : Z) (use_autoprompt : bool)
| FaultyTool (e : Exception).

(** The response of [execute_search]. Reading [.tools] builds the tool
    objects from the tool calls of the model's answer and raises when the
    arguments of one do not validate; it gives [None], here the empty
    list, when the answer holds no tool call. [.content] is the
    narrative. *)
Record CallResponse : Type := {
  tools : Outcome (list Tool);
  response_content : str
}.

Record Platform (World : Type) : Type := {
  (** Unicode tables of the interpreter *)
  isspace : N -> bool;
  lower : str -> str;
  (** [os.getenv], on the environment as [load_dotenv()] left it, and
      [datetime.now] *)
  os_getenv : World -> str -> option str;
  datetime_now : World -> Z;
  (** [exa_py.Exa(api_key=...)]: the client is built, or the key is
      refused; nothing is sent to the provider. A client is known by the
      key it was built with. *)
  exa_Exa : World -> option str -> Outcome unit;
  (** [exa.search_and_contents(...)] of the client built with the key *)
  exa_search_and_contents :
    option str -> str -> Z -> bool -> World -> Outcome (list ExaResult) * World;
  (** the three [llm.call]s, each on the prompt rendered from the context *)
  llm_plan_searches :
    ResearchContext -> World -> Outcome (list SearchPlan) * World;
  llm_execute_search :
    SearchPlan -> ResearchContext -> World -> Outcome CallResponse * World;
  llm_synthesize_research :
    ResearchContext -> World -> Outcome str * World
}.

(** The lines the program prints. *)
Inductive Message : Type :=
| ErrorInSearch (e : Exception)
| StartingDeepResearch (question : str)
| Separator
| ResearchIteration (n : Z)
| GeneratedPlans (n : nat)
| ExecutingSearch (i : nat) (intent : SearchIntent)
| QueryLine (q : str)
| ReasoningLine (r : str)
| FoundResults (n : nat)
| SearchError (e : Exception)
| PlanningError (e : Exception)
| SufficientInformation
| Synthesizing
| DebugSynthesize (query : str) (total_searches : Z) (key_findings : str)
    (history_length all_results_length : nat)
| ResearchComplete
| TotalIterations (n : Z)
| TotalSearches (n : nat)
| KeyFindings (n : nat).

(** What a run does that can be observed from outside, in order. *)
Inductive Event : Type :=
| Printed (m : Message)
| PlannerCalled (ctx : ResearchContext)
| ExecutorCalled (plan : SearchPlan) (ctx : ResearchContext)
| ProviderCalled (api_key : option str) (query : str) (num_results : Z)
    (use_autoprompt : bool)
| SynthesizerCalled (ctx : ResearchContext).

(** How one pass through the body of the [while] loop ends. *)
Inductive LoopControl : Type :=
| Continue
| BreakOnError
| BreakSufficient.

(** How the [while] loop ends; [OutOfFuel] is the model's only. *)
Inductive LoopExit : Type :=
| ConditionFalse
| StoppedOnError
| StoppedSufficient
| OutOfFuel.

(** The dictionary [run_deep_research_agent] returns. *)
Record RunResult : Type := {
  final_report : str;
  research_context : ResearchContext;
  iterations : Z
}.

(* ================================================================== *)
(** * The program *)
(* ================================================================== *)

Section Agent.

Variable World : Type.
Variable P : Platform World.

(** The state of a run: the one [ResearchContext] object every stage
    holds a reference to, the outside world, and what was observed. *)
Record State : Type := {
  context : ResearchContext;
  world : World;
  trace : list Event
}.

Definition get_context : M State ResearchContext :=
  fun s => (Ok (context s), s).

Definition put_context (ctx : ResearchContext) : M State unit :=
  fun s => (Ok tt, {| context := ctx; world := world s; trace := trace s |}).

Definition emit (ev : Event) : M State unit :=
  fun s => (Ok tt, {| context := context s; world := world s;
                      trace := trace s ++ [ev] |}).

(** [print(...)] *)
Definition print (m : Message) : M State unit := emit (Printed m).

(** A call that leaves the program: observed, then answered by the world. *)
Definition external {A : Type} (ev : Event)
    (call : World -> Outcome A * World) : M State A :=
  fun s =>
    let (r, w) := call (world s) in
    (r, {| context := context s; world := w; trace := trace s ++ [ev] |}).

(** ** SearchResult construction *)

(** [SearchResult(title=..., url=..., content=..., relevance_score=...,
    search_intent=...)]: [title] must be a string, the score must pass
    [ge=0.0, le=1.0], and [timestamp] defaults to [datetime.now()]. *)
Definition new_SearchResult (title : option str) (url content : str)
    (relevance_score : float) (search_intent : SearchIntent)
  : M State SearchResult :=
  match title with
  | None => raise (ValidationError (lit "title"))
  | Some title =>
      if (PrimFloat.leb 0 relevance_score && PrimFloat.leb relevance_score 1)%bool
      then fun s =>
        (Ok {| title := title; url := url; content := content;
               relevance_score := relevance_score;
               search_intent := search_intent;
               timestamp := datetime_now P (world s) |}, s)
      else raise (ValidationError (lit "relevance_score"))
  end.

(** ** get_search_results *)

(** The [for i, result in enumerate(results.results)] loop, from position
    [i] on, appending to [structured_results]. *)
Fixpoint structure_results (i : nat) (results : list ExaResult)
    (structured_results : list SearchResult) : M State (list SearchResult) :=
  match results with
  | [] => ret structured_results
  | result :: rest =>
      let relevance := (1 - float_of_int (Z.of_nat i) * tenth)%float in
      r <- new_SearchResult (res_title result) (res_url result)
             (take 2000 (res_text result))
             (py_max tenth relevance)
             INITIAL_EXPLORATION ;;
      structure_results (S i) rest (structured_results ++ [r])
  end.

Definition get_search_results (query : str) (num_results : Z)
    (use_autoprompt : bool) : M State (list SearchResult) :=
  try_except
    (api_key <- (fun s => (Ok (os_getenv P (world s) (lit "EXA_API_KEY")), s)) ;;
     (fun s => (exa_Exa P (world s) api_key, s)) ;;
     results <- external
                  (ProviderCalled api_key query num_results use_autoprompt)
                  (exa_search_and_contents P api_key query num_results
                     use_autoprompt) ;;
     structure_results 0 results [])
    (fun e => print (ErrorInSearch e) ;; ret []).

(** ** The three model calls *)

Definition plan_searches : M State (list SearchPlan) :=
  ctx <- get_context ;;
  external (PlannerCalled ctx) (llm_plan_searches P ctx).

Definition execute_search (search_plan : SearchPlan) : M State CallResponse :=
  ctx <- get_context ;;
  external (ExecutorCalled search_plan ctx) (llm_execute_search P search_plan ctx).

(** One entry of [all_results_text]. *)
Definition result_text (r : SearchResult) : str :=
  lit "[" ++ intent_value (search_intent r) ++ lit "] Source: " ++ title r
    ++ lit " (" ++ url r ++ lit ")" ++ [newline] ++ take 500 (content r)
    ++ lit "...".

Definition synthesize_research : M State str :=
  ctx <- get_context ;;
  let all_results_text :=
    join [newline; newline] (List.map result_text (search_history ctx)) in
  let total_searches := search_iterations ctx in
  let findings := join [newline] (key_findings ctx) in
  print (DebugSynthesize (query ctx) total_searches findings
           (length (search_history ctx)) (length all_results_text)) ;;
  external (SynthesizerCalled ctx) (llm_synthesize_research P ctx).

(** ** The body of the loop *)

(** [tool.call()] *)
Definition tool_call (tool : Tool) : M State (list SearchResult) :=
  match tool with
  | SearchTool query num_results use_autoprompt =>
      get_search_results query num_results use_autoprompt
  | FaultyTool e => raise e
  end.

(** [research_context.search_history.append(r)] *)
Definition append_search_history (r : SearchResult) : M State unit :=
  ctx <- get_context ;;
  put_context
    {| query := query ctx; search_history := search_history ctx ++ [r];
       key_findings := key_findings ctx;
       unanswered_questions := unanswered_questions ctx;
       search_iterations := search_iterations ctx |}.

(** [research_context.key_findings.append(finding)] *)
Definition append_key_finding (finding : str) : M State unit :=
  ctx <- get_context ;;
  put_context
    {| query := query ctx; search_history := search_history ctx;
       key_findings := key_findings ctx ++ [finding];
       unanswered_questions := unanswered_questions ctx;
       search_iterations := search_iterations ctx |}.

(** [research_context.search_iterations += 1] *)
Definition increment_search_iterations : M State unit :=
  ctx <- get_context ;;
  put_context
    {| query := query ctx; search_history := search_history ctx;
       key_findings := key_findings ctx;
       unanswered_questions := unanswered_questions ctx;
       search_iterations := search_iterations ctx + 1 |}.

(** The [try] around one [tool.call()] and what follows it. *)
Definition process_tool (plan : SearchPlan) (tool : Tool) : M State unit :=
  try_except
    (results <- tool_call tool ;;
     for_each results (fun r =>
       append_search_history (set_search_intent r (intent plan))) ;;
     print (FoundResults (length results)))
    (fun e => print (SearchError e)).

(** [for line in analysis_lines: ...] *)
Definition extract_key_findings (analysis_lines : list str) : M State unit :=
  for_each analysis_lines (fun line =>
    if truthy (strip (isspace P) line) && negb (startswith magnifier line)
    then
      if contains (lit "finding") (lower P line) ||
         contains (lit "discovered") (lower P line)
      then append_key_finding (strip (isspace P) line)
      else ret tt
    else ret tt).

(** Reading a property of a response: its value, or what building it
    raises. *)
Definition access {A : Type} (property : Outcome A) : M State A :=
  fun s => (property, s).

(** [if search_result.tools: for tool in search_result.tools: ...]: the
    tools are read twice, both times outside the [try] around
    [tool.call()]. *)
Definition process_tools (plan : SearchPlan) (search_result : CallResponse)
  : M State unit :=
  tested <- access (tools search_result) ;;
  if truthy tested
  then
    iterated <- access (tools search_result) ;;
    for_each iterated (process_tool plan)
  else ret tt.

(** [if search_result.content: ...], the extraction of key findings from
    the analysis. *)
Definition extract_from_analysis (content : str) : M State unit :=
  if truthy content
  then extract_key_findings (split newline content)
  else ret tt.

(** The body of [for i, plan in enumerate(search_plans[:2])]. *)
Definition execute_plan (i : nat) (plan : SearchPlan) : M State unit :=
  print (ExecutingSearch (i + 1) (intent plan)) ;;
  print (QueryLine (plan_query plan)) ;;
  print (ReasoningLine (reasoning plan)) ;;
  search_result <- execute_search plan ;;
  process_tools plan search_result ;;
  extract_from_analysis (response_content search_result).

(** The body of the outer [try]. *)
Definition plan_and_execute : M State unit :=
  search_plans <- plan_searches ;;
  print (GeneratedPlans (length search_plans)) ;;
  for_enumerate 0 (firstn 2 search_plans) execute_plan.

(** The stopping rule at the end of an iteration. *)
Definition enough_information (ctx : ResearchContext) : bool :=
  (5 <=? length (key_findings ctx))%nat && (3 <=? search_iterations ctx)%Z.

(** One pass through the body of the [while] loop. *)
Definition research_iteration : M State LoopControl :=
  increment_search_iterations ;;
  ctx <- get_context ;;
  print (ResearchIteration (search_iterations ctx)) ;;
  failed <- try_except
              (plan_and_execute ;; ret false)
              (fun e => print (PlanningError e) ;; ret true) ;;
  if failed : bool then ret BreakOnError
  else
    ctx <- get_context ;;
    if enough_information ctx
    then print SufficientInformation ;; ret BreakSufficient
    else ret Continue.

(** [while research_context.search_iterations < max_iterations: ...] *)
Fixpoint research_loop (fuel : nat) (max_iterations : Z)
  : M State LoopExit :=
  ctx <- get_context ;;
  if (search_iterations ctx <? max_iterations)%Z then
    match fuel with
    | O => ret OutOfFuel
    | S fuel' =>
        control <- research_iteration ;;
        match control with
        | Continue => research_loop fuel' max_iterations
        | BreakOnError => ret StoppedOnError
        | BreakSufficient => ret StoppedSufficient
        end
    end
  else ret ConditionFalse.

(** The iterations a loop up to [max_iterations] can still make. *)
Definition iterations_left (max_iterations : Z) (ctx : ResearchContext) : nat :=
  Z.to_nat (max_iterations - search_iterations ctx).

Definition run_deep_research_agent (question : str) (max_iterations : Z)
  : M State RunResult :=
  put_context (new_ResearchContext question) ;;
  print (StartingDeepResearch question) ;;
  print Separator ;;
  research_loop (Z.to_nat max_iterations) max_iterations ;;
  print Synthesizing ;;
  report <- synthesize_research ;;
  print Separator ;;
  print ResearchComplete ;;
  ctx <- get_context ;;
  print (TotalIterations (search_iterations ctx)) ;;
  print (TotalSearches (length (search_history ctx))) ;;
  print (KeyFindings (length (key_findings ctx))) ;;
  ret {| final_report := report; research_context := ctx;
         iterations := search_iterations ctx |}.

(** A run starts with nothing observed; the context object is created by
    [run_deep_research_agent] itself. *)
Definition start (w : World) : State :=
  {| context := new_ResearchContext []; world := w; trace := [] |}.

End Agent.

Arguments start {World} w.

(* ================================================================== *)
(** * A scripted platform, to run the program on concrete inputs *)
(* ================================================================== *)

Fixpoint str_eqb (a b : str) : bool :=
  match a, b with
  | [], [] => true
  | x :: a', y :: b' => N.eqb x y && str_eqb a' b'
  | _, _ => false
  end.

(** What the outside answers: the environment, the plans of each iteration,
    the executor's response to a plan, the provider's answer to a query and
    the synthesizer's report. *)
Record Script : Type := {
  environ : list (str * str);
  planner : Z -> Outcome (list SearchPlan);
  executor : SearchPlan -> Outcome CallResponse;
  provider : str -> Outcome (list ExaResult);
  synthesizer : Outcome str
}.

Fixpoint lookup_env (env : list (str * str)) (name : str) : option str :=
  match env with
  | [] => None
  | (k, v) :: env' => if str_eqb k name then Some v else lookup_env env' name
  end.

(** The world of a script is the number of calls made so far, which is also
    what its clock shows. The provider's client refuses a missing key when
    it is built. *)
Definition scripted (sc : Script) : Platform nat := {|
  isspace := unicode_isspace;
  lower := ascii_lower;
  os_getenv := fun _ name => lookup_env (environ sc) name;
  datetime_now := fun w => Z.of_nat w;
  exa_Exa := fun _ api_key =>
    match api_key with
    | None => Raise (ExternalError (lit "API key must be provided"))
    | Some _ => Ok tt
    end;
  exa_search_and_contents := fun _ query _ _ w => (provider sc query, S w);
  llm_plan_searches := fun ctx w => (planner sc (search_iterations ctx), S w);
  llm_execute_search := fun plan _ w => (executor sc plan, S w);
  llm_synthesize_research := fun _ w => (synthesizer sc, S w)
|}.

Definition with_key : list (str * str) := [(lit "EXA_API_KEY", lit "k")].

Definition item (t u x : string) : ExaResult :=
  {| res_title := Some (lit t); res_url := lit u; res_text := lit x |}.

Definition plan_a : SearchPlan :=
  {| intent := DEEP_DIVE; plan_query := lit "a"; reasoning := lit "first" |}.

Definition plan_b : SearchPlan :=
  {| intent := FACT_CHECKING; plan_query := lit "b"; reasoning := lit "second" |}.

Definition plan_c : SearchPlan :=
  {| intent := RELATED_TOPICS; plan_query := lit "c"; reasoning := lit "third" |}.

(** A response with one search and a narrative of two finding lines. *)
Definition two_findings : CallResponse :=
  {| tools := Ok [SearchTool (lit "q") 10 true];
     response_content :=
       lit "Key finding: x" ++ [newline] ++ lit "  We discovered y  " |}.

(** Every service answers: three plans each round, one search and two
    finding lines per plan, two items per search. *)
Definition healthy : Script := {|
  environ := with_key;
  planner := fun _ => Ok [plan_a; plan_b; plan_c];
  executor := fun _ => Ok two_findings;
  provider := fun _ => Ok [item "T1" "u1" "x1"; item "T2" "u2" "x2"];
  synthesizer := Ok (lit "report")
|}.


(** The planner's model call fails on every round. *)
Definition planner_down : Script := {|
  environ := with_key;
  planner := fun _ => Raise (ExternalError (lit "model unavailable"));
  executor := fun _ => Ok two_findings;
  provider := fun _ => Ok [item "T1" "u1" "x1"];
  synthesizer := Ok (lit "report")
|}.

(** No [EXA_API_KEY] in the environment. *)
Definition no_search_key : Script := {|
  environ := [];
  planner := fun _ => Ok [plan_a];
  executor := fun _ => Ok two_findings;
  provider := fun _ => Ok [item "T1" "u1" "x1"];
  synthesizer := Ok (lit "report")
|}.

(** No credential of the language model: its three calls all fail. *)
Definition no_model_key : Script := {|
  environ := with_key;
  planner := fun _ => Raise (ExternalError (lit "api key missing"));
  executor := fun _ => Raise (ExternalError (lit "api key missing"));
  provider := fun _ => Ok [item "T1" "u1" "x1"];
  synthesizer := Raise (ExternalError (lit "api key missing"))
|}.

(** The search provider fails on every query. *)
Definition provider_down : Script := {|
  environ := with_key;
  planner := fun _ => Ok [plan_a; plan_b];
  executor := fun _ => Ok two_findings;
  provider := fun _ => Raise (ExternalError (lit "network"));
  synthesizer := Ok (lit "report")
|}.





(** A line that begins with the marker only once it is trimmed. *)
Definition indented_marker_line : str :=
  [32%N; 32%N] ++ magnifier ++ lit " finding".

(** The provider returns twelve items. *)
Definition twelve_items : Script := {|
  environ := with_key;
  planner := fun _ => Ok [plan_a];
  executor := fun _ => Ok two_findings;
  provider := fun _ => Ok (List.repeat (item "T" "u" "x") 12);
  synthesizer := Ok (lit "report")
|}.

(* ================================================================== *)
(** * Specification-side definitions *)
(* ================================================================== *)

(** A stored finding is clean when it is non-empty and neither its first nor
    its last code point is white space. *)
Definition trimmed (isspace : N -> bool) (s : str) : Prop :=
  s <> [] /\
  (forall c, hd_error s = Some c -> isspace c = false) /\
  (forall c, hd_error (rev s) = Some c -> isspace c = false).

(** The selection of finding lines as the claim words it, every test made on
    the trimmed line: non-empty, not beginning with the marker, containing
    one of the two words whatever the case. *)
Definition claimed_finding_line (isspace : N -> bool) (lower : str -> str)
    (line : str) : bool :=
  let t := strip isspace line in
  truthy t && negb (startswith magnifier t) &&
  (contains (lit "finding") (lower t) || contains (lit "discovered") (lower t)).

(** The selection with the marker and the two words looked for in the line
    as [split] gave it, before trimming. *)
Definition selected_finding_line (isspace : N -> bool) (lower : str -> str)
    (line : str) : bool :=
  truthy (strip isspace line) && negb (startswith magnifier line) &&
  (contains (lit "finding") (lower line) ||
   contains (lit "discovered") (lower line)).

(** The findings of a narrative under a selection: the selected lines, in
    order, each one trimmed. *)
Definition findings_of (isspace : N -> bool) (select : str -> bool)
    (text : str) : list str :=
  List.map (strip isspace) (filter select (split newline text)).

(** The plans handed to the executor, in the order of the calls. *)
Definition executed_plans (tr : list Event) : list SearchPlan :=
  flat_map (fun ev => match ev with
                      | ExecutorCalled plan _ => [plan]
                      | _ => []
                      end) tr.

(** The number of planning rounds: calls of the planner. *)
Definition planning_rounds (tr : list Event) : nat :=
  List.length (filter (fun ev => match ev with
                            | PlannerCalled _ => true
                            | _ => false
                            end) tr).

(** The contexts the synthesizer was called on. *)
Definition synthesized_contexts (tr : list Event) : list ResearchContext :=
  flat_map (fun ev => match ev with
                      | SynthesizerCalled ctx => [ctx]
                      | _ => []
                      end) tr.

(** The context with some findings appended. *)
Definition with_findings (ctx : ResearchContext) (found : list str)
  : ResearchContext :=
  {| query := query ctx; search_history := search_history ctx;
     key_findings := key_findings ctx ++ found;
     unanswered_questions := unanswered_questions ctx;
     search_iterations := search_iterations ctx |}.

(** The context with some results appended to the history. *)
Definition with_results (ctx : ResearchContext) (rs : list SearchResult)
  : ResearchContext :=
  {| query := query ctx; search_history := search_history ctx ++ rs;
     key_findings := key_findings ctx;
     unanswered_questions := unanswered_questions ctx;
     search_iterations := search_iterations ctx |}.

(** Events that neither touch the context nor call the language model:
    printed lines and calls of the search provider. *)
Definition quiet_event (ev : Event) : Prop :=
  match ev with
  | Printed _ | ProviderCalled _ _ _ _ => True
  | _ => False
  end.

Definition quiet (evs : list Event) : Prop := Forall quiet_event evs.

(** A structured result is what the loop builds at position [i] from the
    provider's item. *)
Definition structured_at (i : nat) (result : ExaResult) (r : SearchResult)
  : Prop :=
  res_title result = Some (title r) /\ url r = res_url result /\
  content r = take 2000 (res_text result) /\
  relevance_score r = position_score i /\
  search_intent r = INITIAL_EXPLORATION.

(** [Forall2] with the position counted from [i]. *)
Inductive structured_from : nat -> list ExaResult -> list SearchResult -> Prop :=
| structured_nil i : structured_from i [] []
| structured_cons i result results r rs :
    structured_at i result r ->
    structured_from (S i) results rs ->
    structured_from i (result :: results) (r :: rs).

(** What a stretch of a run adds to the state: iterations counted, results
    appended (grouped by the plan whose execution appended them), findings
    appended, and events observed. *)
Record Growth : Type := {
  rounds : nat;
  segments : list (SearchPlan * list SearchResult);
  found : list str;
  seen : list Event
}.

Definition no_growth : Growth :=
  {| rounds := 0; segments := []; found := []; seen := [] |}.

Definition growth_app (g h : Growth) : Growth :=
  {| rounds := rounds g + rounds h;
     segments := segments g ++ segments h;
     found := found g ++ found h;
     seen := seen g ++ seen h |}.

Definition results_of (segs : list (SearchPlan * list SearchResult))
  : list SearchResult :=
  concat (List.map snd segs).

Definition grown (ctx : ResearchContext) (g : Growth) : ResearchContext :=
  {| query := query ctx;
     search_history := search_history ctx ++ results_of (segments g);
     key_findings := key_findings ctx ++ found g;
     unanswered_questions := unanswered_questions ctx;
     search_iterations := search_iterations ctx + Z.of_nat (rounds g) |}.

(** Every result of a segment carries the intent of the segment's plan. *)
Definition segment_ok (seg : SearchPlan * list SearchResult) : Prop :=
  Forall (fun r => search_intent r = intent (fst seg)) (snd seg).

(** A growth is sound when its segments are those of the plans handed to the
    executor, in order, each with the plan's intent on its results, its
    findings are clean, and the synthesizer was not called. *)
Definition sound (isspace : N -> bool) (g : Growth) : Prop :=
  executed_plans (seen g) = List.map fst (segments g) /\
  Forall segment_ok (segments g) /\
  Forall (trimmed isspace) (found g) /\
  synthesized_contexts (seen g) = [].

Section Observations.

Variable World : Type.

(** The state with the world replaced and some events observed. *)
Definition observed (s : State World) (w : World) (evs : list Event) : State World :=
  {| context := context s; world := w; trace := trace s ++ evs |}.

(** The state with a new context and world and some events observed. *)
Definition moved (s : State World) (ctx : ResearchContext) (w : World)
    (evs : list Event) : State World :=
  {| context := ctx; world := w; trace := trace s ++ evs |}.

(** [s'] is [s] after the growth [g], in some world. *)
Definition grows (g : Growth) (s s' : State World) : Prop :=
  exists w, s' = moved s (grown (context s) g) w (seen g).

(** The state when the body of the [while] loop is entered from [s]:
    the counter incremented and the iteration announced. *)
Definition entered (s : State World) : State World :=
  let ctx :=
    {| query := query (context s);
       search_history := search_history (context s);
       key_findings := key_findings (context s);
       unanswered_questions := unanswered_questions (context s);
       search_iterations := search_iterations (context s) + 1 |} in
  moved s ctx (world s) [Printed (ResearchIteration (search_iterations ctx))].

(** Entering the body counts one round. *)
Definition entering (s : State World) : Growth :=
  {| rounds := 1; segments := []; found := [];
     seen := [Printed (ResearchIteration (search_iterations (context s) + 1))] |}.

(** The state in which the [while] loop is reached. *)
Definition ready (question : str) (w : World) : State World :=
  {| context := new_ResearchContext question; world := w;
     trace := [Printed (StartingDeepResearch question); Printed Separator] |}.

End Observations.

(** The lines printed before a plan is handed to the executor, and the
    call itself. *)
Definition plan_events (i : nat) (plan : SearchPlan) (ctx : ResearchContext)
  : list Event :=
  [Printed (ExecutingSearch (i + 1) (intent plan));
   Printed (QueryLine (plan_query plan));
   Printed (ReasoningLine (reasoning plan));
   ExecutorCalled plan ctx].

(** Events alone, as a growth. *)
Definition just_seen (evs : list Event) : Growth :=
  {| rounds := 0; segments := []; found := []; seen := evs |}.

(** The line [synthesize_research] prints about a context. *)
Definition debug_line (ctx : ResearchContext) : Message :=
  DebugSynthesize (query ctx) (search_iterations ctx)
    (join [newline] (key_findings ctx))
    (List.length (search_history ctx))
    (List.length (join [newline; newline]
                    (List.map result_text (search_history ctx)))).

(** What is observed from the end of the loop to the synthesizer's call. *)
Definition synthesis_events (ctx : ResearchContext) : list Event :=
  [Printed Synthesizing; Printed (debug_line ctx); SynthesizerCalled ctx].

(** What is printed once the report is there. *)
Definition closing_events (ctx : ResearchContext) : list Event :=
  [Printed Separator; Printed ResearchComplete;
   Printed (TotalIterations (search_iterations ctx));
   Printed (TotalSearches (List.length (search_history ctx)));
   Printed (KeyFindings (List.length (key_findings ctx)))].

(** The context of a run once its first iteration has been counted. *)
Definition first_context (question : str) : ResearchContext :=
  {| query := question; search_history := []; key_findings := [];
     unanswered_questions := []; search_iterations := 1 |}.

(** A float in the normal range with the given sign and exponent at least
    [lo], or an infinity of that sign, or not a number. *)
Definition normal (s : bool) (lo : Z) (x : spec_float) : Prop :=
  match x with
  | S754_finite s' m e =>
      s' = s /\ Zpos (digits2_pos m) = 53%Z /\ (lo <= e <= emax - prec)%Z
  | S754_infinity s' => s' = s
  | S754_nan => True
  | S754_zero _ => False
  end.

(** Zero, negative, or not a number. *)
Definition not_positive (x : spec_float) : Prop :=
  match x with
  | S754_finite s _ _ | S754_infinity s => s = true
  | _ => True
  end.

(* ================================================================== *)
(** * The prompt of the planner *)
(* ================================================================== *)

(** [l[-n:]] for a positive [n]: the last [n] items, or all of them. *)
Definition last_items {A : Type} (n : nat) (l : list A) : list A :=
  skipn (List.length l - n) l.

(** The [computed_fields] of [plan_searches]. *)
Record PlannerFields : Type := {
  pf_current_date : str;
  pf_original_query : str;
  pf_iterations : Z;
  pf_key_findings : str;
  pf_unanswered_questions : str;
  pf_search_history_summary : str
}.

Section PlannerPrompt.

(** How an f-string renders a member of [SearchIntent] (the interpreter's
    version decides between the value and the qualified name), and
    [datetime.now().strftime("%Y-%m-%d")]. *)
Variable format_intent : SearchIntent -> str.
Variable current_date : str.

(** One line of [history_summary]. *)
Definition summary_line (r : SearchResult) : str :=
  lit "- [" ++ format_intent (search_intent r) ++ lit "] " ++ title r
    ++ lit ": " ++ take 200 (content r) ++ lit "...".

Definition history_summary (research_context : ResearchContext) : str :=
  join [newline]
    (List.map summary_line (last_items 5 (search_history research_context))).

(** The body of [plan_searches]. *)
Definition plan_searches_fields (research_context : ResearchContext)
  : PlannerFields :=
  {| pf_current_date := current_date;
     pf_original_query := query research_context;
     pf_iterations := search_iterations research_context;
     pf_key_findings :=
       if truthy (key_findings research_context)
       then join [newline] (key_findings research_context)
       else lit "None yet";
     pf_unanswered_questions :=
       if truthy (unanswered_questions research_context)
       then join [newline] (unanswered_questions research_context)
       else lit "None identified";
     pf_search_history_summary := history_summary research_context |}.

End PlannerPrompt.

(** The [computed_fields] of [execute_search]. *)
Record ExecutorFields : Type := {
  ef_current_date : str;
  ef_original_query : str;
  ef_search_intent : str;
  ef_iteration : Z;
  ef_key_findings : str;
  ef_search_query : str;
  ef_search_reasoning : str
}.

(** The body of [execute_search]. *)
Definition execute_search_fields (current_date : str)
    (search_plan : SearchPlan) (research_context : ResearchContext)
  : ExecutorFields :=
  {| ef_current_date := current_date;
     ef_original_query := query research_context;
     ef_search_intent := intent_value (intent search_plan);
     ef_iteration := search_iterations research_context;
     ef_key_findings :=
       if truthy (key_findings research_context)
       then join [newline] (key_findings research_context)
       else lit "None yet";
     ef_search_query := plan_query search_plan;
     ef_search_reasoning := reasoning search_plan |}.

(** The [computed_fields] of [synthesize_research]. *)
Record SynthesisFields : Type := {
  sf_query : str;
  sf_total_searches : Z;
  sf_key_findings : str;
  sf_all_results : str
}.

(** The body of [synthesize_research], its printed lines apart: the key
    findings are joined without a fallback for the empty list. *)
Definition synthesize_research_fields (research_context : ResearchContext)
  : SynthesisFields :=
  {| sf_query := query research_context;
     sf_total_searches := search_iterations research_context;
     sf_key_findings := join [newline] (key_findings research_context);
     sf_all_results :=
       join [newline; newline]
         (List.map result_text (search_history research_context)) |}.


(* ================================================================== *)
(** * Further observations of a run *)
(* ================================================================== *)

(** The count of a ["Found n results"] line; 0 for any other event. *)
Definition found_count (ev : Event) : nat :=
  match ev with
  | Printed (FoundResults n) => n
  | _ => 0
  end.

(** The sum of the counts of the ["Found n results"] lines. *)
Definition found_total (tr : list Event) : nat :=
  list_sum (List.map found_count tr).

(** The number of calls of the search provider. *)
Definition provider_calls (tr : list Event) : nat :=
  List.length (filter (fun ev => match ev with
                                 | ProviderCalled _ _ _ _ => true
                                 | _ => false
                                 end) tr).

(** What [get_search_results] guarantees of a result, whatever its intent:
    a content of at most 2000 code points and a score from 0.1 to 1. *)
Definition well_formed_result (r : SearchResult) : Prop :=
  (List.length (content r) <= 2000)%nat /\
  PrimFloat.leb tenth (relevance_score r) = true /\
  PrimFloat.leb (relevance_score r) 1 = true.

(** A string without a line break. *)
Definition single_line (s : str) : Prop := ~ In newline s.

(** The context after [k] more iterations, with results and findings
    appended. *)
Definition advanced (ctx : ResearchContext) (rs : list SearchResult)
    (fs : list str) (k : nat) : ResearchContext :=
  {| query := query ctx; search_history := search_history ctx ++ rs;
     key_findings := key_findings ctx ++ fs;
     unanswered_questions := unanswered_questions ctx;
     search_iterations := search_iterations ctx + Z.of_nat k |}.

(** A context of a run on the question [q]: the query is [q], no
    unanswered question was recorded, every result of the history is well
    formed and every finding is a single line. *)
Definition settled (q : str) (ctx : ResearchContext) : Prop :=
  query ctx = q /\ unanswered_questions ctx = [] /\
  Forall well_formed_result (search_history ctx) /\
  Forall single_line (key_findings ctx).

(** A call of one of the three model functions is on a settled context;
    other events are not concerned. *)
Definition asked_about (q : str) (ev : Event) : Prop :=
  match ev with
  | PlannerCalled ctx | ExecutorCalled _ ctx | SynthesizerCalled ctx =>
      settled q ctx
  | Printed _ | ProviderCalled _ _ _ _ => True
  end.

Section Advancing.

Variable World : Type.

(** [s'] is [s] with well-formed results and single-line findings
    appended, the counter moved forward, and events observed whose
    ["Found"] lines count the appended results and whose model calls are
    on settled contexts when the context of [s] is settled. *)
Definition advances (s s' : State World) : Prop :=
  exists rs fs evs k w,
    s' = moved s (advanced (context s) rs fs k) w evs /\
    Forall well_formed_result rs /\
    Forall single_line fs /\
    found_total evs = List.length rs /\
    (forall q, settled q (context s) -> Forall (asked_about q) evs).

End Advancing.

(** A call of one of the three model functions is on a context whose
    counter stands at [n]. *)
Definition called_at (n : Z) (ev : Event) : Prop :=
  match ev with
  | PlannerCalled ctx | ExecutorCalled _ ctx | SynthesizerCalled ctx =>
      search_iterations ctx = n
  | Printed _ | ProviderCalled _ _ _ _ => True
  end.

(** The counters the planner was shown, in the order of its calls. *)
Definition planner_counters (tr : list Event) : list Z :=
  flat_map (fun ev => match ev with
                      | PlannerCalled ctx => [search_iterations ctx]
                      | _ => []
                      end) tr.

(** [n; n + 1; ...], [k] numbers. *)
Fixpoint count_from (n : Z) (k : nat) : list Z :=
  match k with
  | O => []
  | S k' => n :: count_from (n + 1) k'
  end.

Section Steadiness.

Variable World : Type.

(** [s'] is [s] with the counter where it was and events observed whose
    model calls are all on contexts with that counter. *)
Definition steady (s s' : State World) : Prop :=
  exists evs,
    trace s' = trace s ++ evs /\
    search_iterations (context s') = search_iterations (context s) /\
    Forall (called_at (search_iterations (context s))) evs.

End Steadiness.

(** A computation keeps a relation between the state it starts from and
    the state it leaves, whether it returns or raises. *)
Definition keeps {St A : Type} (R : St -> St -> Prop) (m : M St A) : Prop :=
  forall s, R s (snd (m s)).



(* ================================================================== *)
(** * Reasoning about computations *)
(* ================================================================== *)

Section Running.

Variable St : Type.

(** Running a sequence once its first part is known. *)
Lemma run_bind {A B : Type} (m : M St A) (k : A -> M St B) (s s' : St)
    (a : A) :
  m s = (Ok a, s') -> bind m k s = k a s'.
Proof. intros H. unfold bind. now rewrite H. Qed.

Lemma run_bind_raise {A B : Type} (m : M St A) (k : A -> M St B)
    (s s' : St) (e : Exception) :
  m s = (Raise e, s') -> bind m k s = (Raise e, s').
Proof. intros H. unfold bind. now rewrite H. Qed.

End Running.

(* ================================================================== *)
(** * Facts about [strip] *)
(* ================================================================== *)

Section StripFacts.

Variable isspace : N -> bool.

Lemma lstrip_head (s : str) (c : N) (rest : str) :
  lstrip isspace s = c :: rest -> isspace c = false.
Proof.
  induction s as [| x s IH]; simpl; [discriminate |].
  destruct (isspace x) eqn:Hx; [exact IH |].
  intros H. injection H as <- _. exact Hx.
Qed.

(** What [lstrip] keeps is a suffix of its argument. *)
Lemma lstrip_suffix (s : str) :
  exists dropped, s = dropped ++ lstrip isspace s.
Proof.
  induction s as [| x s [dropped IH]]; simpl.
  - now exists [].
  - destruct (isspace x).
    + exists (x :: dropped). simpl. now f_equal.
    + now exists [].
Qed.

(** What [rstrip] keeps is a prefix of its argument. *)
Lemma rstrip_prefix (s : str) :
  exists dropped, s = rstrip isspace s ++ dropped.
Proof.
  unfold rstrip. destruct (lstrip_suffix (rev s)) as [dropped H].
  exists (rev dropped).
  rewrite <- rev_app_distr, <- H. symmetry. apply rev_involutive.
Qed.

Lemma rstrip_last (s : str) (c : N) :
  hd_error (rev (rstrip isspace s)) = Some c -> isspace c = false.
Proof.
  unfold rstrip. rewrite rev_involutive.
  destruct (lstrip isspace (rev s)) as [| x rest] eqn:H; simpl; [discriminate |].
  intros Hc. injection Hc as <-. exact (lstrip_head _ H).
Qed.

Lemma strip_first (s : str) (c : N) :
  hd_error (strip isspace s) = Some c -> isspace c = false.
Proof.
  unfold strip. destruct (rstrip_prefix (lstrip isspace s)) as [dropped H].
  destruct (rstrip isspace (lstrip isspace s)) as [| x rest]; simpl;
    [discriminate |].
  intros Hc. injection Hc as <-.
  simpl in H. exact (lstrip_head _ H).
Qed.

Lemma strip_last (s : str) (c : N) :
  hd_error (rev (strip isspace s)) = Some c -> isspace c = false.
Proof. apply rstrip_last. Qed.

(** A line whose trimmed form is truthy has a clean trimmed form. *)
Lemma strip_trimmed (s : str) :
  truthy (strip isspace s) = true -> trimmed isspace (strip isspace s).
Proof.
  intros H. repeat split.
  - intros E. rewrite E in H. discriminate.
  - apply strip_first.
  - apply strip_last.
Qed.

(** [strip] returns a clean string unchanged. *)
Lemma lstrip_clean (s : str) :
  (forall c, hd_error s = Some c -> isspace c = false) ->
  lstrip isspace s = s.
Proof.
  destruct s as [| x s]; simpl; [reflexivity |].
  intros H. now rewrite (H x eq_refl).
Qed.

Lemma strip_idempotent_on_trimmed (s : str) :
  trimmed isspace s -> strip isspace s = s.
Proof.
  intros (_ & Hfirst & Hlast). unfold strip, rstrip.
  rewrite (lstrip_clean _ Hfirst), (lstrip_clean _ Hlast).
  apply rev_involutive.
Qed.

End StripFacts.

(* ================================================================== *)
(** * The search wrapper *)
(* ================================================================== *)

Lemma quiet_app (a b : list Event) : quiet a -> quiet b -> quiet (a ++ b).
Proof. intros Ha Hb. apply Forall_app. now split. Qed.

Lemma quiet_executed_plans (evs : list Event) :
  quiet evs -> executed_plans evs = [].
Proof.
  induction 1 as [| ev evs Hev _ IH]; [reflexivity |].
  unfold executed_plans in *. simpl. rewrite IH.
  destruct ev; simpl in *; try reflexivity; contradiction.
Qed.

Lemma quiet_planning_rounds (evs : list Event) :
  quiet evs -> planning_rounds evs = 0%nat.
Proof.
  induction 1 as [| ev evs Hev _ IH]; [reflexivity |].
  unfold planning_rounds in *. simpl.
  destruct ev; simpl in *; try exact IH; contradiction.
Qed.

Lemma quiet_synthesized_contexts (evs : list Event) :
  quiet evs -> synthesized_contexts evs = [].
Proof.
  induction 1 as [| ev evs Hev _ IH]; [reflexivity |].
  unfold synthesized_contexts in *. simpl. rewrite IH.
  destruct ev; simpl in *; try reflexivity; contradiction.
Qed.

Section SearchFacts.

Variable World : Type.
Variable P : Platform World.

Lemma observed_nothing (s : State World) : observed s (world s) [] = s.
Proof. destruct s. unfold observed. simpl. now rewrite app_nil_r. Qed.

Lemma observed_observed (s : State World) (w w' : World) (evs evs' : list Event) :
  observed (observed s w evs) w' evs' = observed s w' (evs ++ evs').
Proof. unfold observed. simpl. now rewrite app_assoc. Qed.

Lemma new_SearchResult_state (t : option str) (u c : str) (score : float)
    (i : SearchIntent) (s : State World) :
  snd (new_SearchResult P t u c score i s) = s.
Proof.
  unfold new_SearchResult. destruct t; [| reflexivity].
  now destruct (PrimFloat.leb 0 score && PrimFloat.leb score 1)%bool.
Qed.

Lemma new_SearchResult_fields (t : option str) (u c : str) (score : float)
    (i : SearchIntent) (s : State World) (r : SearchResult) :
  fst (new_SearchResult P t u c score i s) = Ok r ->
  t = Some (title r) /\ url r = u /\ content r = c /\
  relevance_score r = score /\ search_intent r = i /\
  (PrimFloat.leb 0 score && PrimFloat.leb score 1)%bool = true.
Proof.
  unfold new_SearchResult. destruct t; [| discriminate].
  destruct (PrimFloat.leb 0 score && PrimFloat.leb score 1)%bool;
    [| discriminate].
  simpl. intros H. injection H as <-. simpl. repeat split; reflexivity.
Qed.

Lemma structure_results_state (results : list ExaResult) :
  forall i acc (s : State World), snd (structure_results P i results acc s) = s.
Proof.
  induction results as [| result rest IH]; intros i acc s; [reflexivity |].
  simpl. unfold bind.
  pose proof (new_SearchResult_state (res_title result) (res_url result)
                (take 2000 (res_text result))
                (py_max tenth (1 - float_of_int (Z.of_nat i) * tenth))
                INITIAL_EXPLORATION s) as Hs.
  destruct (new_SearchResult P _ _ _ _ _ s) as [[r | e] s']; simpl in Hs;
    subst s'; [apply IH | reflexivity].
Qed.

Lemma structure_results_ok (results : list ExaResult) :
  forall i acc (s : State World) out,
    fst (structure_results P i results acc s) = Ok out ->
    exists rs, out = acc ++ rs /\ structured_from i results rs.
Proof.
  induction results as [| result rest IH]; intros i acc s out.
  - simpl. intros H. injection H as <-. exists []. split.
    + now rewrite app_nil_r.
    + constructor.
  - simpl. unfold bind.
    pose proof (new_SearchResult_state (res_title result) (res_url result)
                  (take 2000 (res_text result))
                  (py_max tenth (1 - float_of_int (Z.of_nat i) * tenth))
                  INITIAL_EXPLORATION s) as Hs.
    pose proof (@new_SearchResult_fields (res_title result) (res_url result)
                  (take 2000 (res_text result))
                  (py_max tenth (1 - float_of_int (Z.of_nat i) * tenth))
                  INITIAL_EXPLORATION s) as Hf.
    destruct (new_SearchResult P _ _ _ _ _ s) as [[r | e] s']; simpl in *;
      [| discriminate].
    subst s'. intros H. destruct (IH _ _ _ _ H) as (rs & -> & Hrs).
    exists (r :: rs). split.
    + now rewrite <- app_assoc.
    + constructor; [| exact Hrs].
      destruct (Hf r eq_refl) as (Ht & Hu & Hc & Hscore & Hi & _).
      repeat split; auto.
Qed.

Lemma structured_from_length (results : list ExaResult) (rs : list SearchResult)
    (i : nat) :
  structured_from i results rs -> List.length rs = List.length results.
Proof. induction 1; simpl; congruence. Qed.

Lemma structured_from_nth (results : list ExaResult) (rs : list SearchResult)
    (i : nat) :
  structured_from i results rs ->
  forall j r, nth_error rs j = Some r ->
    exists result, nth_error results j = Some result /\
                   structured_at (i + j) result r.
Proof.
  induction 1 as [| i result results r rs Hat _ IH]; intros j x Hj.
  - destruct j; discriminate.
  - destruct j as [| j]; simpl in Hj.
    + injection Hj as <-. exists result. rewrite Nat.add_0_r. now split.
    + destruct (IH _ _ Hj) as (result' & Hn & Hat').
      exists result'. split; [exact Hn |].
      now rewrite Nat.add_succ_r.
Qed.

(** What [get_search_results] does, case by case on the client's
    construction and on the provider. *)
Lemma get_search_results_cases (q : str) (n : Z) (a : bool) (s : State World) :
  let api_key := os_getenv P (world s) (lit "EXA_API_KEY") in
  let call := ProviderCalled api_key q n a in
  match exa_Exa P (world s) api_key with
  | Raise e =>
      get_search_results P q n a s =
      (Ok [], observed s (world s) [Printed (ErrorInSearch e)])
  | Ok _ =>
      match exa_search_and_contents P api_key q n a (world s) with
      | (Raise e, w) =>
          get_search_results P q n a s =
          (Ok [], observed s w [call; Printed (ErrorInSearch e)])
      | (Ok results, w) =>
          (exists rs, structured_from 0 results rs /\
             get_search_results P q n a s = (Ok rs, observed s w [call])) \/
          (exists e,
             get_search_results P q n a s =
             (Ok [], observed s w [call; Printed (ErrorInSearch e)]))
      end
  end.
Proof.
  intros api_key call.
  unfold get_search_results, try_except, bind, external. simpl.
  fold api_key. fold call.
  destruct (exa_Exa P (world s) api_key) as [[] | e0].
  - destruct (exa_search_and_contents P api_key q n a (world s))
      as [[results | e] w] eqn:Hexa.
    + set (s1 := {| context := context s; world := w;
                    trace := trace s ++ [call] |}).
      pose proof (structure_results_state results 0 [] s1) as Hs.
      pose proof (@structure_results_ok results 0 [] s1) as Hok.
      destruct (structure_results P 0 results [] s1) as [[out | e] s2];
        simpl in *; subst s2.
      * left. destruct (Hok out eq_refl) as (rs & -> & Hrs).
        exists rs. now split.
      * right. exists e. unfold print, emit, ret, observed, s1. simpl.
        now rewrite <- app_assoc.
    + unfold print, emit, ret, observed. simpl. now rewrite <- app_assoc.
  - reflexivity.
Qed.

(** The shape common to all cases: a list is returned, the context is
    untouched, and only quiet events are observed. *)
Lemma get_search_results_quiet (q : str) (n : Z) (a : bool) (s : State World) :
  exists rs w evs,
    get_search_results P q n a s = (Ok rs, observed s w evs) /\
    quiet evs /\
    Forall (fun r => search_intent r = INITIAL_EXPLORATION) rs.
Proof.
  pose proof (get_search_results_cases q n a s) as H. simpl in H.
  destruct (exa_Exa P (world s) _) as [[] | e0].
  - destruct (exa_search_and_contents P _ q n a (world s))
      as [[results | e] w].
    + destruct H as [(rs & Hrs & ->) | (e & ->)].
      * exists rs, w. eexists. split; [reflexivity |]. split.
        -- repeat constructor.
        -- clear -Hrs. induction Hrs as [| i result results r rs Hat _ IH];
             constructor; [apply Hat | exact IH].
      * exists [], w. eexists. split; [reflexivity |]. split.
        -- repeat constructor.
        -- constructor.
    + rewrite H. exists [], w. eexists. split; [reflexivity |]. split.
      * repeat constructor.
      * constructor.
  - rewrite H. exists [], (world s). eexists. split; [reflexivity |]. split.
    + repeat constructor.
    + constructor.
Qed.

End SearchFacts.

(* ================================================================== *)
(** * One plan *)
(* ================================================================== *)

Lemma with_results_nil (ctx : ResearchContext) : with_results ctx [] = ctx.
Proof. destruct ctx. unfold with_results. simpl. now rewrite app_nil_r. Qed.

Lemma with_findings_nil (ctx : ResearchContext) : with_findings ctx [] = ctx.
Proof. destruct ctx. unfold with_findings. simpl. now rewrite app_nil_r. Qed.

Lemma with_results_app (ctx : ResearchContext) (a b : list SearchResult) :
  with_results (with_results ctx a) b = with_results ctx (a ++ b).
Proof. unfold with_results. simpl. now rewrite app_assoc. Qed.

Lemma with_findings_app (ctx : ResearchContext) (a b : list str) :
  with_findings (with_findings ctx a) b = with_findings ctx (a ++ b).
Proof. unfold with_findings. simpl. now rewrite app_assoc. Qed.

Section PlanFacts.

Variable World : Type.
Variable P : Platform World.

Lemma moved_nowhere (s : State World) : moved s (context s) (world s) [] = s.
Proof. destruct s. unfold moved. simpl. now rewrite app_nil_r. Qed.

Lemma moved_moved (s : State World) ctx w evs ctx' w' evs' :
  moved (moved s ctx w evs) ctx' w' evs' = moved s ctx' w' (evs ++ evs').
Proof. unfold moved. simpl. now rewrite app_assoc. Qed.

Lemma observed_moved (s : State World) (w : World) (evs : list Event) :
  observed s w evs = moved s (context s) w evs.
Proof. reflexivity. Qed.

(** The inner [for r in results] loop appends every result, in order, with
    the plan's intent. *)
Lemma append_results (i : SearchIntent) (rs : list SearchResult) :
  forall s : State World,
    for_each rs (fun r => append_search_history (set_search_intent r i)) s =
    (Ok tt,
     moved s (with_results (context s)
                (List.map (fun r => set_search_intent r i) rs))
           (world s) []).
Proof.
  induction rs as [| r rs IH]; intros s.
  - simpl. unfold ret. now rewrite with_results_nil, moved_nowhere.
  - simpl. unfold bind at 1. unfold append_search_history at 1.
    unfold bind, get_context, put_context. rewrite IH. f_equal.
    unfold moved. simpl. f_equal.
    unfold with_results. simpl. now rewrite <- app_assoc.
Qed.

Lemma process_tool_faulty (plan : SearchPlan) (e : Exception)
    (s : State World) :
  process_tool P plan (FaultyTool e) s =
  (Ok tt, observed s (world s) [Printed (SearchError e)]).
Proof. reflexivity. Qed.

Lemma process_tool_search (plan : SearchPlan) (q : str) (n : Z) (a : bool)
    (s s1 : State World) (rs : list SearchResult) :
  get_search_results P q n a s = (Ok rs, s1) ->
  process_tool P plan (SearchTool q n a) s =
  (Ok tt,
   moved s1 (with_results (context s1)
               (List.map (fun r => set_search_intent r (intent plan)) rs))
         (world s1) [Printed (FoundResults (List.length rs))]).
Proof.
  intros H. unfold process_tool, try_except, bind, tool_call.
  rewrite H, append_results. unfold print, emit, moved. simpl.
  now rewrite app_nil_r.
Qed.

(** What one tool call leaves: results carrying the plan's intent appended
    to the history, quiet events, and no exception. *)
Lemma process_tool_summary (plan : SearchPlan) (tool : Tool)
    (s : State World) :
  exists rs w evs,
    process_tool P plan tool s =
    (Ok tt, moved s (with_results (context s) rs) w evs) /\
    quiet evs /\
    Forall (fun r => search_intent r = intent plan) rs.
Proof.
  destruct tool as [q n a | e].
  - destruct (get_search_results_quiet P q n a s)
      as (rs & w & evs & Hget & Hq & _).
    rewrite (process_tool_search plan _ _ _ _ Hget).
    exists (List.map (fun r => set_search_intent r (intent plan)) rs), w.
    exists (evs ++ [Printed (FoundResults (List.length rs))]).
    split; [| split].
    + rewrite observed_moved, moved_moved. reflexivity.
    + apply quiet_app; [exact Hq | repeat constructor].
    + apply Forall_map, Forall_forall. reflexivity.
  - rewrite process_tool_faulty. exists [], (world s). eexists.
    split; [| split].
    + rewrite with_results_nil. reflexivity.
    + repeat constructor.
    + constructor.
Qed.

Lemma for_each_process_tool (plan : SearchPlan) (tools : list Tool) :
  forall s : State World,
  exists rs w evs,
    for_each tools (process_tool P plan) s =
    (Ok tt, moved s (with_results (context s) rs) w evs) /\
    quiet evs /\
    Forall (fun r => search_intent r = intent plan) rs.
Proof.
  induction tools as [| tool tools IH]; intros s.
  - exists [], (world s), []. split; [| split]; try constructor.
    simpl. unfold ret. now rewrite with_results_nil, moved_nowhere.
  - simpl. unfold bind.
    destruct (process_tool_summary plan tool s)
      as (rs & w & evs & -> & Hq & Hrs).
    destruct (IH (moved s (with_results (context s) rs) w evs))
      as (rs' & w' & evs' & -> & Hq' & Hrs').
    exists (rs ++ rs'), w', (evs ++ evs'). split; [| split].
    + rewrite moved_moved. simpl. now rewrite with_results_app.
    + now apply quiet_app.
    + apply Forall_app. now split.
Qed.

(** Tools that cannot be built: the exception leaves [process_tools] with
    nothing done. *)
Lemma process_tools_unbuilt (plan : SearchPlan) (search_result : CallResponse)
    (e : Exception) (s : State World) :
  tools search_result = Raise e ->
  process_tools P plan search_result s = (Raise e, s).
Proof. intros H. unfold process_tools, bind, access. now rewrite H. Qed.

(** Tools that were built: each is called in turn. *)
Lemma process_tools_built (plan : SearchPlan) (search_result : CallResponse)
    (built : list Tool) (s : State World) :
  tools search_result = Ok built ->
  process_tools P plan search_result s = for_each built (process_tool P plan) s.
Proof.
  intros H. unfold process_tools, bind, access. rewrite H.
  destruct built as [| tool rest]; reflexivity.
Qed.

Lemma process_tools_summary (plan : SearchPlan) (search_result : CallResponse)
    (built : list Tool) (s : State World) :
  tools search_result = Ok built ->
  exists rs w evs,
    process_tools P plan search_result s =
    (Ok tt, moved s (with_results (context s) rs) w evs) /\
    quiet evs /\
    Forall (fun r => search_intent r = intent plan) rs.
Proof.
  intros H. rewrite (process_tools_built plan _ s H).
  apply for_each_process_tool.
Qed.

Lemma extract_key_findings_cons (line : str) (lines : list str) :
  extract_key_findings P (line :: lines) =
  ((if truthy (strip (isspace P) line) && negb (startswith magnifier line)
    then
      if contains (lit "finding") (lower P line) ||
         contains (lit "discovered") (lower P line)
      then append_key_finding (strip (isspace P) line)
      else ret tt
    else ret tt) ;;
   extract_key_findings P lines).
Proof. reflexivity. Qed.

(** The extraction loop appends the selected lines, trimmed, in order. *)
Lemma extract_key_findings_eq (lines : list str) :
  forall s : State World,
    extract_key_findings P lines s =
    (Ok tt,
     moved s (with_findings (context s)
                (List.map (strip (isspace P))
                   (filter (selected_finding_line (isspace P) (lower P))
                      lines)))
           (world s) []).
Proof.
  induction lines as [| line lines IH]; intros s.
  - simpl. unfold ret. now rewrite with_findings_nil, moved_nowhere.
  - rewrite extract_key_findings_cons. unfold bind at 1.
    simpl filter. unfold selected_finding_line at 1.
    destruct (truthy (strip (isspace P) line) &&
              negb (startswith magnifier line)); simpl.
    + destruct (contains (lit "finding") (lower P line) ||
                contains (lit "discovered") (lower P line)); simpl.
      * unfold append_key_finding, bind, get_context, put_context.
        rewrite IH. f_equal. unfold moved. simpl. f_equal.
        unfold with_findings. simpl. now rewrite <- app_assoc.
      * apply IH.
    + apply IH.
Qed.

Lemma extract_from_analysis_eq (text : str) (s : State World) :
  extract_from_analysis P text s =
  (Ok tt,
   moved s (with_findings (context s)
              (findings_of (isspace P)
                 (selected_finding_line (isspace P) (lower P)) text))
         (world s) []).
Proof.
  unfold extract_from_analysis, findings_of.
  destruct text as [| c text]; [| apply extract_key_findings_eq].
  simpl. unfold ret, selected_finding_line.
  replace (truthy (strip (isspace P) [])) with false by reflexivity.
  simpl. now rewrite with_findings_nil, moved_nowhere.
Qed.

End PlanFacts.

(* ================================================================== *)
(** * What a stretch of the run adds *)
(* ================================================================== *)

Lemma executed_plans_app (a b : list Event) :
  executed_plans (a ++ b) = executed_plans a ++ executed_plans b.
Proof. apply flat_map_app. Qed.

Lemma synthesized_contexts_app (a b : list Event) :
  synthesized_contexts (a ++ b) =
  synthesized_contexts a ++ synthesized_contexts b.
Proof. apply flat_map_app. Qed.

Lemma planning_rounds_app (a b : list Event) :
  planning_rounds (a ++ b) = (planning_rounds a + planning_rounds b)%nat.
Proof. unfold planning_rounds. now rewrite filter_app, length_app. Qed.

Lemma sound_no_growth (isspace : N -> bool) : sound isspace no_growth.
Proof. repeat split; constructor. Qed.

Lemma sound_app (isspace : N -> bool) (g h : Growth) :
  sound isspace g -> sound isspace h -> sound isspace (growth_app g h).
Proof.
  intros (Hp & Hs & Hf & Hy) (Hp' & Hs' & Hf' & Hy'). repeat split; simpl.
  - now rewrite executed_plans_app, map_app, Hp, Hp'.
  - apply Forall_app. now split.
  - apply Forall_app. now split.
  - now rewrite synthesized_contexts_app, Hy, Hy'.
Qed.

Lemma grown_no_growth (ctx : ResearchContext) : grown ctx no_growth = ctx.
Proof.
  destruct ctx. unfold grown. simpl. rewrite !app_nil_r. f_equal. lia.
Qed.

Lemma grown_app (ctx : ResearchContext) (g h : Growth) :
  grown (grown ctx g) h = grown ctx (growth_app g h).
Proof.
  unfold grown, results_of. simpl. f_equal.
  - now rewrite map_app, concat_app, app_assoc.
  - now rewrite app_assoc.
  - lia.
Qed.

Lemma findings_of_trimmed (isspace : N -> bool) (lower : str -> str)
    (text : str) :
  Forall (trimmed isspace)
    (findings_of isspace (selected_finding_line isspace lower) text).
Proof.
  unfold findings_of. apply Forall_map, Forall_forall. intros line Hin.
  apply filter_In in Hin. destruct Hin as [_ Hsel].
  apply strip_trimmed. unfold selected_finding_line in Hsel.
  apply andb_true_iff in Hsel. destruct Hsel as [Hsel _].
  apply andb_true_iff in Hsel. tauto.
Qed.

(* ================================================================== *)
(** * The loop *)
(* ================================================================== *)

Section LoopFacts.

Variable World : Type.
Variable P : Platform World.

Lemma grows_refl (s : State World) : grows no_growth s s.
Proof.
  exists (world s). rewrite grown_no_growth. symmetry. apply moved_nowhere.
Qed.

Lemma grows_trans (g h : Growth) (s s1 s2 : State World) :
  grows g s s1 -> grows h s1 s2 -> grows (growth_app g h) s s2.
Proof.
  intros [w ->] [w' ->]. exists w'.
  rewrite moved_moved. simpl. now rewrite grown_app.
Qed.

(** One plan, case by case on the executor's answer and on the tools of
    the response. *)
Lemma execute_plan_cases (i : nat) (plan : SearchPlan) (s : State World) :
  match llm_execute_search P plan (context s) (world s) with
  | (Raise e, w) =>
      execute_plan P i plan s =
      (Raise e, observed s w (plan_events i plan (context s)))
  | (Ok response, w) =>
      match tools response with
      | Raise e =>
          execute_plan P i plan s =
          (Raise e, observed s w (plan_events i plan (context s)))
      | Ok _ =>
          exists rs w' evs,
            execute_plan P i plan s =
            (Ok tt,
             moved s
               (with_findings (with_results (context s) rs)
                  (findings_of (isspace P)
                     (selected_finding_line (isspace P) (lower P))
                     (response_content response)))
               w' (plan_events i plan (context s) ++ evs)) /\
            quiet evs /\
            Forall (fun r => search_intent r = intent plan) rs
      end
  end.
Proof.
  destruct (llm_execute_search P plan (context s) (world s))
    as [[response | e] w] eqn:Hllm.
  - set (s4 := observed s w (plan_events i plan (context s))).
    destruct (tools response) as [built | e] eqn:Hbuilt.
    + destruct (process_tools_summary P plan response s4 Hbuilt)
        as (rs & w' & evs & Htools & Hq & Hrs).
      exists rs, w', evs. split; [| now split].
      cbv beta iota delta [execute_plan bind print emit execute_search
        external get_context].
      cbn [context world trace]. rewrite Hllm.
      unfold s4, observed, plan_events in Htools. simpl in Htools.
      rewrite <- !app_assoc. simpl.
      rewrite Htools, extract_from_analysis_eq.
      unfold moved. simpl. now rewrite <- !app_assoc, app_nil_r.
    + pose proof (process_tools_unbuilt P plan response s4 Hbuilt) as Htools.
      cbv beta iota delta [execute_plan bind print emit execute_search
        external get_context].
      cbn [context world trace]. rewrite Hllm.
      unfold s4, observed, plan_events in Htools. simpl in Htools.
      rewrite <- !app_assoc. simpl.
      rewrite Htools. unfold observed, plan_events. reflexivity.
  - cbv beta iota delta [execute_plan bind print emit execute_search
      external get_context].
    cbn [context world trace]. rewrite Hllm.
    unfold observed, plan_events. simpl. now rewrite <- !app_assoc.
Qed.

(** A plan that raised, at the executor's call or at the tools of its
    response: nothing but the plan's lines and the call was observed. *)
Lemma grows_plan_raised (i : nat) (plan : SearchPlan) (s : State World)
    (w : World) :
  let g := {| rounds := 0; segments := [(plan, [])]; found := [];
              seen := plan_events i plan (context s) |} in
  grows g s (observed s w (plan_events i plan (context s))) /\
  sound (isspace P) g /\ rounds g = 0%nat /\
  planning_rounds (seen g) = 0%nat /\
  (exists rs, segments g = [(plan, rs)]).
Proof.
  intros g. split; [| split; [| split; [| split]]].
  - exists w. unfold observed, moved, grown, results_of. simpl.
    rewrite !app_nil_r, Z.add_0_r. now destruct (context s).
  - repeat split; simpl; repeat constructor.
  - reflexivity.
  - reflexivity.
  - now exists [].
Qed.

(** The growth of one plan is one segment. *)
Lemma execute_plan_grows (i : nat) (plan : SearchPlan) (s : State World) :
  exists o g s',
    execute_plan P i plan s = (o, s') /\ grows g s s' /\
    sound (isspace P) g /\ rounds g = 0%nat /\
    planning_rounds (seen g) = 0%nat /\
    (exists rs, segments g = [(plan, rs)]).
Proof.
  pose proof (execute_plan_cases i plan s) as H.
  destruct (llm_execute_search P plan (context s) (world s))
    as [[response | e] w].
  - destruct (tools response) as [built | e].
    + destruct H as (rs & w' & evs & Heq & Hq & Hrs).
      exists (Ok tt).
      exists {| rounds := 0; segments := [(plan, rs)];
                found := findings_of (isspace P)
                           (selected_finding_line (isspace P) (lower P))
                           (response_content response);
                seen := plan_events i plan (context s) ++ evs |}.
      eexists. split; [exact Heq |]. split; [| split; [| split; [| split]]].
      * exists w'.
        unfold moved, grown, results_of, with_findings, with_results.
        simpl. rewrite app_nil_r, Z.add_0_r. reflexivity.
      * unfold sound. cbn [seen segments found]. repeat split.
        -- rewrite executed_plans_app, (quiet_executed_plans Hq). reflexivity.
        -- constructor; [exact Hrs | constructor].
        -- apply findings_of_trimmed.
        -- rewrite synthesized_contexts_app, (quiet_synthesized_contexts Hq).
           reflexivity.
      * reflexivity.
      * cbn [seen]. rewrite planning_rounds_app, (quiet_planning_rounds Hq).
        reflexivity.
      * now exists rs.
    + exists (Raise e). eexists. eexists. split; [exact H |].
      exact (grows_plan_raised i plan s w).
  - exists (Raise e). eexists. eexists. split; [exact H |].
    exact (grows_plan_raised i plan s w).
Qed.

(** The plans of a round, one after the other, until one raises. *)
Lemma for_enumerate_grows (plans : list SearchPlan) :
  forall (i : nat) (s : State World),
  exists o g s',
    for_enumerate i plans (execute_plan P) s = (o, s') /\ grows g s s' /\
    sound (isspace P) g /\ rounds g = 0%nat /\
    planning_rounds (seen g) = 0%nat /\
    (List.length (segments g) <= List.length plans)%nat.
Proof.
  induction plans as [| plan plans IH]; intros i s.
  - exists (Ok tt), no_growth, s. simpl.
    split; [reflexivity |]. split; [apply grows_refl |].
    split; [apply sound_no_growth |]. repeat split; lia.
  - simpl. unfold bind.
    destruct (execute_plan_grows i plan s)
      as (o & g & s1 & -> & Hg & Hsound & Hr & Hp & rs & Hseg).
    destruct o as [[] | e].
    + destruct (IH (S i) s1) as (o' & h & s2 & -> & Hh & Hsound' & Hr' & Hp' & Hl).
      exists o', (growth_app g h), s2. split; [reflexivity |].
      split; [now apply grows_trans with s1 |].
      split; [now apply sound_app |]. simpl.
      rewrite planning_rounds_app, Hr, Hr', Hp, Hp', Hseg. simpl.
      split; [reflexivity |]. split; [reflexivity | lia].
    + exists (Raise e), g, s1. rewrite Hseg. simpl.
      split; [reflexivity |]. split; [exact Hg |]. split; [exact Hsound |].
      split; [exact Hr |]. split; [exact Hp | lia].
Qed.

(** One iteration in terms of its [try] block. *)
Lemma research_iteration_cases (s : State World) :
  match plan_and_execute P (entered s) with
  | (Ok _, s') =>
      research_iteration P s =
      if enough_information (context s')
      then (Ok BreakSufficient,
            observed s' (world s') [Printed SufficientInformation])
      else (Ok Continue, s')
  | (Raise e, s') =>
      research_iteration P s =
      (Ok BreakOnError, observed s' (world s') [Printed (PlanningError e)])
  end.
Proof.
  unfold research_iteration, bind, increment_search_iterations, get_context,
    put_context, print, emit, try_except. simpl.
  change {| context := _; world := world s; trace := trace s ++ _ |}
    with (entered s).
  destruct (plan_and_execute P (entered s)) as [[[] | e] s']; simpl.
  - unfold ret. destruct (enough_information (context s')); reflexivity.
  - reflexivity.
Qed.

(** The [try] block in terms of the planner's answer. *)
Lemma plan_and_execute_cases (s : State World) :
  match llm_plan_searches P (context s) (world s) with
  | (Raise e, w) =>
      plan_and_execute P s = (Raise e, observed s w [PlannerCalled (context s)])
  | (Ok search_plans, w) =>
      plan_and_execute P s =
      for_enumerate 0 (firstn 2 search_plans) (execute_plan P)
        (observed s w [PlannerCalled (context s);
                       Printed (GeneratedPlans (List.length search_plans))])
  end.
Proof.
  cbv beta iota delta [plan_and_execute bind plan_searches external
    get_context print emit].
  destruct (llm_plan_searches P (context s) (world s))
    as [[search_plans | e] w]; cbn [context world trace].
  - unfold observed. now rewrite <- app_assoc.
  - reflexivity.
Qed.

Lemma grows_observed (s : State World) (w : World) (evs : list Event) :
  grows (just_seen evs) s (observed s w evs).
Proof.
  exists w. unfold observed, moved, grown, results_of. simpl.
  rewrite !app_nil_r, Z.add_0_r. now destruct (context s).
Qed.

Lemma sound_just_seen (evs : list Event) :
  executed_plans evs = [] -> synthesized_contexts evs = [] ->
  sound (isspace P) (just_seen evs).
Proof. intros Hp Hy. repeat split; simpl; auto. Qed.

Lemma grows_entered (s : State World) : grows (entering s) s (entered s).
Proof.
  exists (world s). unfold entered, moved, grown, results_of. simpl.
  now rewrite !app_nil_r.
Qed.

(** The [try] block of an iteration grows the state soundly, with one call
    of the planner and at most two plans executed. *)
Lemma plan_and_execute_grows (s : State World) :
  exists o g s',
    plan_and_execute P s = (o, s') /\ grows g s s' /\
    sound (isspace P) g /\ rounds g = 0%nat /\
    planning_rounds (seen g) = 1%nat /\
    (List.length (segments g) <= 2)%nat.
Proof.
  pose proof (plan_and_execute_cases s) as H.
  destruct (llm_plan_searches P (context s) (world s))
    as [[search_plans | e] w].
  - set (evs := [PlannerCalled (context s);
                 Printed (GeneratedPlans (List.length search_plans))]) in *.
    destruct (for_enumerate_grows (firstn 2 search_plans) 0 (observed s w evs))
      as (o & h & s' & Hrun & Hh & Hsound & Hr & Hp & Hl).
    exists o, (growth_app (just_seen evs) h), s'.
    split; [now rewrite H |].
    split; [apply grows_trans with (observed s w evs);
            [apply grows_observed | exact Hh] |].
    split; [apply sound_app; [now apply sound_just_seen | exact Hsound] |].
    cbn [rounds seen segments growth_app just_seen].
    rewrite planning_rounds_app, Hr, Hp.
    split; [reflexivity |]. split; [reflexivity |].
    rewrite length_firstn in Hl. simpl. lia.
  - exists (Raise e), (just_seen [PlannerCalled (context s)]).
    eexists. split; [exact H |].
    split; [apply grows_observed |].
    split; [now apply sound_just_seen |].
    simpl. repeat split; lia.
Qed.

(** One pass through the body of the [while] loop. *)
Lemma research_iteration_grows (s : State World) :
  exists control g s',
    research_iteration P s = (Ok control, s') /\ grows g s s' /\
    sound (isspace P) g /\ rounds g = 1%nat /\
    planning_rounds (seen g) = 1%nat /\
    (List.length (segments g) <= 2)%nat /\
    (control = BreakSufficient -> enough_information (context s') = true) /\
    (control = Continue -> enough_information (context s') = false).
Proof.
  pose proof (research_iteration_cases s) as H.
  destruct (plan_and_execute_grows (entered s))
    as (o & g & s1 & Hrun & Hg & Hsound & Hr & Hp & Hl).
  rewrite Hrun in H.
  assert (Hg1 : grows (growth_app (entering s) g) s s1)
    by (apply grows_trans with (entered s); [apply grows_entered | exact Hg]).
  assert (Hsound1 : sound (isspace P) (growth_app (entering s) g))
    by (apply sound_app; [now apply sound_just_seen | exact Hsound]).
  destruct o as [[] | e].
  - destruct (enough_information (context s1)) eqn:Henough.
    + exists BreakSufficient.
      exists (growth_app (growth_app (entering s) g)
                (just_seen [Printed SufficientInformation])).
      eexists. split; [exact H |].
      split; [apply grows_trans with s1; [exact Hg1 | apply grows_observed] |].
      split; [apply sound_app; [exact Hsound1 | now apply sound_just_seen] |].
      cbn [rounds seen segments growth_app just_seen entering].
      rewrite !planning_rounds_app, Hr, Hp, !app_nil_r. cbn [app].
      repeat split; try reflexivity; try lia; try discriminate;
        intros; exact Henough.
    + exists Continue, (growth_app (entering s) g), s1.
      split; [exact H |]. split; [exact Hg1 |]. split; [exact Hsound1 |].
      cbn [rounds seen segments growth_app entering].
      rewrite !planning_rounds_app, Hr, Hp. cbn [app].
      repeat split; try reflexivity; try lia; try discriminate;
        intros; exact Henough.
  - exists BreakOnError.
    exists (growth_app (growth_app (entering s) g)
              (just_seen [Printed (PlanningError e)])).
    eexists. split; [exact H |].
    split; [apply grows_trans with s1; [exact Hg1 | apply grows_observed] |].
    split; [apply sound_app; [exact Hsound1 | now apply sound_just_seen] |].
    cbn [rounds seen segments growth_app just_seen entering].
    rewrite !planning_rounds_app, Hr, Hp, !app_nil_r. cbn [app].
    repeat split; try reflexivity; try lia; try discriminate.
Qed.

(** The [while] loop, unrolled once. *)
Lemma research_loop_unroll (fuel : nat) (max_iterations : Z)
    (s : State World) :
  research_loop P fuel max_iterations s =
  if (search_iterations (context s) <? max_iterations)%Z then
    match fuel with
    | O => (Ok OutOfFuel, s)
    | S fuel' =>
        match research_iteration P s with
        | (Ok Continue, s') => research_loop P fuel' max_iterations s'
        | (Ok BreakOnError, s') => (Ok StoppedOnError, s')
        | (Ok BreakSufficient, s') => (Ok StoppedSufficient, s')
        | (Raise e, s') => (Raise e, s')
        end
    end
  else (Ok ConditionFalse, s).
Proof.
  destruct fuel as [| fuel']; simpl; unfold bind at 1; unfold get_context;
    destruct (search_iterations (context s) <? max_iterations)%Z;
    try reflexivity.
  unfold bind.
  destruct (research_iteration P s) as [[[] | e] s']; reflexivity.
Qed.

(** What the whole loop does: it returns, the state grows soundly, one
    planner call per counted iteration, and the way it ended says where
    the counter stands. *)
Lemma research_loop_grows (max_iterations : Z) (fuel : nat) :
  forall s : State World,
  exists exit g s',
    research_loop P fuel max_iterations s = (Ok exit, s') /\
    grows g s s' /\ sound (isspace P) g /\
    planning_rounds (seen g) = rounds g /\
    (rounds g <= fuel)%nat /\
    (rounds g <= iterations_left max_iterations (context s))%nat /\
    (exit = ConditionFalse ->
     (max_iterations <= search_iterations (context s'))%Z) /\
    (exit = StoppedSufficient ->
     enough_information (context s') = true /\ (0 < rounds g)%nat) /\
    (exit = StoppedOnError -> (0 < rounds g)%nat) /\
    (exit = OutOfFuel ->
     (fuel < iterations_left max_iterations (context s))%nat).
Proof.
  induction fuel as [| fuel IH]; intros s; rewrite research_loop_unroll;
    unfold iterations_left;
    destruct (search_iterations (context s) <? max_iterations)%Z eqn:Hlt.
  - apply Z.ltb_lt in Hlt.
    exists OutOfFuel, no_growth, s.
    split; [reflexivity |]. split; [apply grows_refl |].
    split; [apply sound_no_growth |]. simpl.
    repeat split; try discriminate; try lia.
  - apply Z.ltb_ge in Hlt.
    exists ConditionFalse, no_growth, s.
    split; [reflexivity |]. split; [apply grows_refl |].
    split; [apply sound_no_growth |]. simpl.
    repeat split; try discriminate; try lia.
  - apply Z.ltb_lt in Hlt.
    destruct (research_iteration_grows s)
      as (control & g & s1 & -> & Hg & Hsound & Hr & Hp & _ & Hsuff & _).
    assert (Hiter : search_iterations (context s1) =
                    (search_iterations (context s) + 1)%Z).
    { destruct Hg as [w ->]. simpl. rewrite Hr. reflexivity. }
    destruct control.
    + destruct (IH s1)
        as (exit & h & s2 & -> & Hh & Hsound' & Hp' & Hf & Hleft & Hc & Hs & He & Ho).
      unfold iterations_left in *. rewrite Hiter in *.
      exists exit, (growth_app g h), s2.
      split; [reflexivity |].
      split; [now apply grows_trans with s1 |].
      split; [now apply sound_app |].
      cbn [rounds seen growth_app].
      rewrite planning_rounds_app, Hp, Hp', Hr.
      split; [reflexivity |]. split; [lia |]. split; [lia |].
      split; [exact Hc |].
      split; [intros E; split; [now apply Hs | lia] |].
      split; [lia |]. intros E. specialize (Ho E). lia.
    + exists StoppedOnError, g, s1.
      split; [reflexivity |]. split; [exact Hg |]. split; [exact Hsound |].
      rewrite Hp, Hr.
      repeat split; try discriminate; try lia.
    + exists StoppedSufficient, g, s1.
      split; [reflexivity |]. split; [exact Hg |]. split; [exact Hsound |].
      rewrite Hp, Hr.
      repeat split; try discriminate; try lia. now apply Hsuff.
  - apply Z.ltb_ge in Hlt.
    exists ConditionFalse, no_growth, s.
    split; [reflexivity |]. split; [apply grows_refl |].
    split; [apply sound_no_growth |]. simpl.
    repeat split; try discriminate; try lia.
Qed.

(** The fuel is the model's only: any amount that covers the iterations the
    loop can still make gives the same run. *)
Lemma research_loop_fuel (max_iterations : Z) (fuel : nat) :
  forall (fuel' : nat) (s : State World),
    (iterations_left max_iterations (context s) <= fuel)%nat ->
    (iterations_left max_iterations (context s) <= fuel')%nat ->
    research_loop P fuel max_iterations s =
    research_loop P fuel' max_iterations s.
Proof.
  induction fuel as [| fuel IH]; intros fuel' s Hfuel Hfuel';
    rewrite (research_loop_unroll fuel'), research_loop_unroll;
    unfold iterations_left in *;
    destruct (search_iterations (context s) <? max_iterations)%Z eqn:Hlt;
    try reflexivity; apply Z.ltb_lt in Hlt; [lia |].
  destruct fuel' as [| fuel']; [lia |].
  destruct (research_iteration_grows s)
    as (control & g & s1 & -> & [w Hs1] & _ & Hr & _).
  destruct control; try reflexivity.
  apply IH; rewrite Hs1; cbn [moved context grown search_iterations];
    rewrite Hr; lia.
Qed.

End LoopFacts.

(* ================================================================== *)
(** * The whole run *)
(* ================================================================== *)

Section RunFacts.

Variable World : Type.
Variable P : Platform World.

(** The run in terms of its loop and of the synthesizer's answer. *)
Lemma run_cases (question : str) (max_iterations : Z) (w : World)
    (exit : LoopExit) (s : State World) :
  research_loop P (Z.to_nat max_iterations) max_iterations (ready question w)
  = (Ok exit, s) ->
  match llm_synthesize_research P (context s) (world s) with
  | (Ok report, w') =>
      run_deep_research_agent P question max_iterations (start w) =
      (Ok {| final_report := report; research_context := context s;
             iterations := search_iterations (context s) |},
       observed s w' (synthesis_events (context s) ++
                      closing_events (context s)))
  | (Raise e, w') =>
      run_deep_research_agent P question max_iterations (start w) =
      (Raise e, observed s w' (synthesis_events (context s)))
  end.
Proof.
  intros Hloop.
  unfold run_deep_research_agent.
  erewrite run_bind by reflexivity.
  erewrite run_bind by reflexivity.
  erewrite run_bind by reflexivity.
  erewrite run_bind by exact Hloop.
  erewrite run_bind by reflexivity.
  unfold synthesize_research.
  destruct (llm_synthesize_research P (context s) (world s))
    as [[report | e] w'] eqn:Hllm.
  - erewrite run_bind.
    2:{ erewrite run_bind by reflexivity.
        erewrite run_bind by reflexivity.
        unfold external. cbn [context world trace]. rewrite Hllm.
        reflexivity. }
    erewrite run_bind by reflexivity.
    erewrite run_bind by reflexivity.
    erewrite run_bind by reflexivity.
    erewrite run_bind by reflexivity.
    erewrite run_bind by reflexivity.
    erewrite run_bind by reflexivity.
    unfold ret, observed, synthesis_events, closing_events, debug_line.
    cbn [context world trace]. rewrite <- !app_assoc. reflexivity.
  - erewrite run_bind_raise.
    2:{ erewrite run_bind by reflexivity.
        erewrite run_bind by reflexivity.
        unfold external. cbn [context world trace]. rewrite Hllm.
        reflexivity. }
    unfold observed, synthesis_events, debug_line.
    cbn [context world trace]. rewrite <- !app_assoc. reflexivity.
Qed.

(** Every run: the loop returns without running out of fuel, the state it
    leaves grew soundly from the start of the loop, and the rest of the
    run observes the synthesis and, with a report, the closing lines. *)
Lemma run_summary (question : str) (max_iterations : Z) (w : World) :
  exists exit g s w' tail,
    research_loop P (Z.to_nat max_iterations) max_iterations
      (ready question w) = (Ok exit, s) /\
    exit <> OutOfFuel /\
    grows g (ready question w) s /\ sound (isspace P) g /\
    planning_rounds (seen g) = rounds g /\
    (Z.of_nat (rounds g) <= Z.max 0 max_iterations)%Z /\
    snd (run_deep_research_agent P question max_iterations (start w)) =
      observed s w' (synthesis_events (context s) ++ tail) /\
    quiet tail /\
    match fst (run_deep_research_agent P question max_iterations (start w))
    with
    | Ok res =>
        research_context res = context s /\
        iterations res = search_iterations (context s)
    | Raise _ => True
    end.
Proof.
  destruct (research_loop_grows P max_iterations (Z.to_nat max_iterations)
              (ready question w))
    as (exit & g & s & Hloop & Hg & Hsound & Hp & Hfuel & Hleft & _ & _ & _ & Ho).
  pose proof (run_cases question max_iterations w Hloop) as Hrun.
  unfold iterations_left in *. cbn [ready context new_ResearchContext
                                    search_iterations] in *.
  rewrite Z.sub_0_r in *.
  exists exit, g, s.
  destruct (llm_synthesize_research P (context s) (world s))
    as [[report | e] w'].
  - exists w', (closing_events (context s)). rewrite Hrun.
    split; [exact Hloop |].
    split; [intros E; specialize (Ho E); lia |].
    split; [exact Hg |]. split; [exact Hsound |]. split; [exact Hp |].
    split; [lia |]. split; [reflexivity |].
    split; [repeat constructor |]. simpl. now split.
  - exists w', []. rewrite Hrun, app_nil_r.
    split; [exact Hloop |].
    split; [intros E; specialize (Ho E); lia |].
    split; [exact Hg |]. split; [exact Hsound |]. split; [exact Hp |].
    split; [lia |]. split; [reflexivity |].
    split; [constructor | exact I].
Qed.

End RunFacts.

(** An iteration whose planner raises: the loop stops there, with nothing
    but the counter changed in the context. *)
Lemma research_loop_planner_raises (World : Type) (P : Platform World)
    (fuel : nat) (max_iterations : Z) (s : State World) (e : Exception)
    (w : World) :
  (search_iterations (context s) < max_iterations)%Z ->
  llm_plan_searches P (context (entered s)) (world s) = (Raise e, w) ->
  research_loop P (S fuel) max_iterations s =
  (Ok StoppedOnError,
   observed (entered s) w
     [PlannerCalled (context (entered s)); Printed (PlanningError e)]).
Proof.
  intros Hlt Hplan. rewrite research_loop_unroll.
  apply Z.ltb_lt in Hlt. rewrite Hlt.
  pose proof (research_iteration_cases P s) as Hiter.
  pose proof (plan_and_execute_cases P (entered s)) as Hbody.
  change (world (entered s)) with (world s) in Hbody.
  rewrite Hplan in Hbody. rewrite Hbody in Hiter. rewrite Hiter.
  unfold observed. cbn [context world trace]. now rewrite <- app_assoc.
Qed.

(* ================================================================== *)
(** * Binary64 arithmetic of the position score *)
(* ================================================================== *)

Section ScoreFacts.

Local Open Scope Z_scope.
Local Unset Implicit Arguments.

Lemma digits2_pos_lower (p : positive) :
  2 ^ (Zpos (digits2_pos p) - 1) <= Zpos p.
Proof.
  induction p as [p IH | p IH |]; simpl digits2_pos.
  - rewrite Pos2Z.inj_succ. replace (Z.succ (Zpos (digits2_pos p)) - 1) with (Z.succ (Zpos (digits2_pos p) - 1)) by lia.
    rewrite Z.pow_succ_r by lia. lia.
  - rewrite Pos2Z.inj_succ. replace (Z.succ (Zpos (digits2_pos p)) - 1) with (Z.succ (Zpos (digits2_pos p) - 1)) by lia.
    rewrite Z.pow_succ_r by lia. lia.
  - simpl. lia.
Qed.

Lemma digits2_pos_upper (p : positive) :
  Zpos p < 2 ^ Zpos (digits2_pos p).
Proof.
  induction p as [p IH | p IH |]; simpl digits2_pos.
  - rewrite Pos2Z.inj_succ, Z.pow_succ_r by lia. lia.
  - rewrite Pos2Z.inj_succ, Z.pow_succ_r by lia. lia.
  - simpl. lia.
Qed.

Lemma digits2_pos_shift (k p : positive) :
  digits2_pos (Pos.iter xO p k) = (digits2_pos p + k)%positive.
Proof.
  revert p. induction k as [k IH | k IH |]; intros p; simpl.
  - rewrite !IH. lia.
  - rewrite !IH. lia.
  - lia.
Qed.

Lemma shift_grows (k p : positive) : (p <= Pos.iter xO p k)%positive.
Proof.
  revert p. induction k as [k IH | k IH |]; intros p; simpl.
  - pose proof (IH p) as IH1. pose proof (IH (Pos.iter xO p k)) as IH2. lia.
  - pose proof (IH p) as IH1. pose proof (IH (Pos.iter xO p k)) as IH2. lia.
  - lia.
Qed.

Lemma digits2_pos_succ (p : positive) :
  digits2_pos (Pos.succ p) = digits2_pos p \/
  digits2_pos (Pos.succ p) = Pos.succ (digits2_pos p).
Proof.
  induction p as [p IH | p IH |]; simpl.
  - destruct IH as [-> | ->]; auto.
  - now left.
  - now right.
Qed.

Lemma shr_1_digits (s : shr_record) :
  0 <= shr_m s ->
  0 <= shr_m (shr_1 s) /\
  Zdigits2 (shr_m (shr_1 s)) = Z.max 0 (Zdigits2 (shr_m s) - 1).
Proof.
  destruct s as [m r t]. cbn [shr_m]. intros Hm.
  destruct m as [| p | p]; [cbn; lia | | lia].
  destruct p; cbn [shr_1 shr_m Zdigits2 digits2_pos];
    rewrite ?Pos2Z.inj_succ; lia.
Qed.

Lemma iter_shr_1_digits (k : positive) :
  forall s, 0 <= shr_m s ->
  0 <= shr_m (iter_pos shr_1 k s) /\
  Zdigits2 (shr_m (iter_pos shr_1 k s)) = Z.max 0 (Zdigits2 (shr_m s) - Zpos k).
Proof.
  induction k as [k IH | k IH |]; intros s Hs; simpl.
  - destruct (shr_1_digits s Hs) as [H1 E1].
    destruct (IH _ H1) as [H2 E2]. destruct (IH _ H2) as [H3 E3].
    split; [exact H3 |]. rewrite E3, E2, E1. lia.
  - destruct (IH _ Hs) as [H2 E2]. destruct (IH _ H2) as [H3 E3].
    split; [exact H3 |]. rewrite E3, E2. lia.
  - now apply shr_1_digits.
Qed.

Lemma shr_record_of_loc_m (m : Z) (l : location) :
  shr_m (shr_record_of_loc m l) = m.
Proof. destruct l as [| []]; reflexivity. Qed.

Lemma shr_digits (mrs : shr_record) (e n : Z) :
  0 <= shr_m mrs -> 0 <= n ->
  snd (shr mrs e n) = e + n /\
  0 <= shr_m (fst (shr mrs e n)) /\
  Zdigits2 (shr_m (fst (shr mrs e n))) = Z.max 0 (Zdigits2 (shr_m mrs) - n).
Proof.
  intros Hm Hn. destruct n as [| k | k]; [| | lia].
  - simpl. split; [lia |]. split; [exact Hm |].
    destruct (shr_m mrs); simpl; lia.
  - cbn [shr fst snd]. split; [reflexivity |]. now apply iter_shr_1_digits.
Qed.

Lemma shr_fexp_digits (m e : Z) (l : location) :
  0 < m -> 53 <= Zdigits2 m -> emin <= e + (Zdigits2 m - 53) ->
  snd (shr_fexp prec emax m e l) = e + (Zdigits2 m - 53) /\
  0 <= shr_m (fst (shr_fexp prec emax m e l)) /\
  Zdigits2 (shr_m (fst (shr_fexp prec emax m e l))) = 53.
Proof.
  intros Hm Hd He. unfold shr_fexp, fexp.
  replace (Z.max (Zdigits2 m + e - prec) (SpecFloat.emin prec emax) - e)
    with (Zdigits2 m - 53) by (unfold prec, emax, SpecFloat.emin in *; lia).
  destruct (shr_digits (shr_record_of_loc m l) e (Zdigits2 m - 53))
    as (H1 & H2 & H3).
  - rewrite shr_record_of_loc_m. lia.
  - lia.
  - rewrite shr_record_of_loc_m in H3. split; [exact H1 |].
    split; [exact H2 |]. rewrite H3. lia.
Qed.

Lemma round_nearest_even_digits (p : positive) (l : location) :
  Zpos (digits2_pos p) = 53 ->
  exists p', round_nearest_even (Zpos p) l = Zpos p' /\
             (Zpos (digits2_pos p') = 53 \/ Zpos (digits2_pos p') = 54).
Proof.
  intros Hd.
  assert (Hsucc : exists p', Zpos p + 1 = Zpos p' /\
            (Zpos (digits2_pos p') = 53 \/ Zpos (digits2_pos p') = 54)).
  { exists (Pos.succ p). split; [lia |].
    destruct (digits2_pos_succ p) as [-> | ->]; [now left | right; lia]. }
  assert (Hsame : exists p', Zpos p = Zpos p' /\
            (Zpos (digits2_pos p') = 53 \/ Zpos (digits2_pos p') = 54))
    by (exists p; auto).
  destruct l as [| []]; cbn [round_nearest_even]; auto.
  destruct (Z.even (Zpos p)); auto.
Qed.

Lemma binary_round_aux_normal (s : bool) (m : positive) (e : Z) (l : location) :
  53 <= Zpos (digits2_pos m) ->
  emin <= e + (Zpos (digits2_pos m) - 53) ->
  normal s (e + (Zpos (digits2_pos m) - 53))
    (binary_round_aux prec emax s (Zpos m) e l).
Proof.
  intros Hd He. unfold binary_round_aux.
  destruct (shr_fexp_digits (Zpos m) e l) as (He1 & Hq & Hdq);
    [lia | exact Hd | exact He |].
  destruct (shr_fexp prec emax (Zpos m) e l) as [mrs' e1].
  cbn [fst snd] in *. subst e1.
  destruct (shr_m mrs') as [| q | q] eqn:Hmq; [discriminate | | lia].
  destruct (round_nearest_even_digits q (loc_of_shr_record mrs') Hdq)
    as (q' & -> & Hdq').
  cbn [Zdigits2] in He.
  destruct (shr_fexp_digits (Zpos q') (e + (Zpos (digits2_pos m) - 53)) loc_Exact)
    as (He2 & Hr & Hdr); [lia | cbn [Zdigits2]; lia | cbn [Zdigits2]; lia |].
  destruct (shr_fexp prec emax (Zpos q') _ loc_Exact) as [mrs'' e2].
  cbn [fst snd Zdigits2] in *. subst e2.
  destruct (shr_m mrs'') as [| r | r]; [discriminate | | exact I].
  destruct (Z.leb_spec (e + (Zpos (digits2_pos m) - 53) +
                        (Zpos (digits2_pos q') - 53)) (emax - prec)).
  - cbn [normal]. cbn [Zdigits2] in Hdr. repeat split; lia.
  - reflexivity.
Qed.

Lemma normal_weaken (s : bool) (lo lo' : Z) (x : spec_float) :
  lo' <= lo -> normal s lo x -> normal s lo' x.
Proof.
  intros Hlo. destruct x as [| | | s' m e]; simpl; auto.
  intros (Hs & Hd & He). repeat split; auto; lia.
Qed.

Lemma normal_valid (s : bool) (lo : Z) (x : spec_float) :
  emin <= lo -> normal s lo x -> valid_binary x = true.
Proof.
  intros Hlo. destruct x as [| | | s' m e]; simpl; auto.
  intros (_ & Hd & He).
  unfold bounded, canonical_mantissa, fexp. rewrite Hd.
  apply andb_true_iff. split.
  - apply Z.eqb_eq. unfold prec, emax, SpecFloat.emin in *. lia.
  - apply Z.leb_le. unfold prec, emax. lia.
Qed.

(** [float(i)] for [i >= 16]. *)
Lemma binary_normalize_normal (p : positive) :
  16 <= Zpos p ->
  normal false (-48) (binary_normalize prec emax (Zpos p) 0 false).
Proof.
  intros Hp.
  assert (Hd : 5 <= Zpos (digits2_pos p)).
  { pose proof (digits2_pos_upper p) as Hu.
    destruct (Z.le_gt_cases 5 (Zpos (digits2_pos p))) as [H | H]; [exact H |].
    assert (2 ^ Zpos (digits2_pos p) <= 2 ^ 4)
      by (apply Z.pow_le_mono_r; lia).
    change (2 ^ 4) with 16 in *. lia. }
  unfold binary_normalize, binary_round, fexp.
  replace (Z.max (Zpos (digits2_pos p) + 0 - prec) (SpecFloat.emin prec emax))
    with (Zpos (digits2_pos p) - 53)
    by (unfold prec, emax, SpecFloat.emin; lia).
  unfold shl_align.
  destruct (Zpos (digits2_pos p) - 53 - 0) as [| k | k] eqn:Hk.
  - apply normal_weaken with (0 + (Zpos (digits2_pos p) - 53)); [lia |].
    apply binary_round_aux_normal; unfold prec, emax, SpecFloat.emin; lia.
  - apply normal_weaken with (0 + (Zpos (digits2_pos p) - 53)); [lia |].
    apply binary_round_aux_normal; unfold prec, emax, SpecFloat.emin; lia.
  - assert (Hshift : Zpos (digits2_pos (Pos.iter xO p k)) = 53)
      by (rewrite digits2_pos_shift; lia).
    apply normal_weaken
      with (Zpos (digits2_pos p) - 53 +
            (Zpos (digits2_pos (Pos.iter xO p k)) - 53)); [lia |].
    apply binary_round_aux_normal; unfold prec, emax, SpecFloat.emin; lia.
Qed.

Lemma Prim2SF_tenth :
  Prim2SF tenth = S754_finite false 7205759403792794 (-56).
Proof. vm_compute. reflexivity. Qed.

Lemma Prim2SF_one :
  Prim2SF 1 = S754_finite false 4503599627370496 (-52).
Proof. vm_compute. reflexivity. Qed.

(** [x * 0.1] for a normal [x >= 16] is at least 1. *)
Lemma mul_tenth_normal (x : spec_float) :
  normal false (-48) x ->
  normal false (-52) (SF64mul x (Prim2SF tenth)).
Proof.
  rewrite Prim2SF_tenth.
  destruct x as [| s | | s m e]; simpl; auto.
  - intros ->. reflexivity.
  - intros (-> & Hd & He).
    set (t := 7205759403792794%positive).
    assert (Hprod : 105 <= Zpos (digits2_pos (m * t))).
    { pose proof (digits2_pos_lower m) as Hm. rewrite Hd in Hm.
      pose proof (digits2_pos_upper (m * t)) as Hu.
      destruct (Z.le_gt_cases 105 (Zpos (digits2_pos (m * t)))) as [H | H];
        [exact H |].
      assert (2 ^ Zpos (digits2_pos (m * t)) <= 2 ^ 104)
        by (apply Z.pow_le_mono_r; lia).
      assert (2 ^ 52 * 2 ^ 52 <= Zpos m * Zpos t)
        by (apply Z.mul_le_mono_nonneg; unfold t; lia).
      rewrite <- Z.pow_add_r in * by lia. change (52 + 52) with 104 in *.
      rewrite Pos2Z.inj_mul in Hu. lia. }
    apply normal_weaken
      with (e + -56 + (Zpos (digits2_pos (m * t)) - 53)); [lia |].
    apply binary_round_aux_normal; unfold prec, emax, SpecFloat.emin; lia.
Qed.

Lemma binary_round_aux_negative (m e : Z) (l : location) :
  not_positive (binary_round_aux prec emax true m e l).
Proof.
  unfold binary_round_aux.
  destruct (shr_fexp prec emax m e l) as [mrs' e'].
  destruct (shr_fexp prec emax _ e' loc_Exact) as [mrs'' e''].
  destruct (shr_m mrs''); try exact I.
  destruct (e'' <=? emax - prec); reflexivity.
Qed.

(** [1.0 - y] for a normal [y >= 1] is not positive. *)
Lemma one_minus_normal (y : spec_float) :
  normal false (-52) y ->
  not_positive (SF64sub (Prim2SF 1) y).
Proof.
  rewrite Prim2SF_one.
  destruct y as [| s | | s m e]; cbn [normal]; try contradiction.
  - intros ->. reflexivity.
  - intros _. exact I.
  - intros (-> & Hd & He). unfold SF64sub, SFsub. cbv zeta.
    rewrite Z.min_l by lia. cbn [cond_Zopp].
    pose proof (digits2_pos_lower m) as Hm. rewrite Hd in Hm.
    change (2 ^ (53 - 1)) with 4503599627370496 in Hm.
    assert (Hfst : Zpos m <= Zpos (fst (shl_align m e (-52)))).
    { unfold shl_align. destruct (-52 - e) as [| k | k]; cbn [fst]; try lia.
      pose proof (shift_grows k m). lia. }
    replace (fst (shl_align 4503599627370496 (-52) (-52)))
      with 4503599627370496%positive by reflexivity.
    set (D := Zpos 4503599627370496 - Zpos (fst (shl_align m e (-52)))).
    assert (HD : D <= 0) by (unfold D; lia).
    destruct D as [| k | k]; [exact I | lia |].
    unfold binary_normalize, binary_round.
    destruct (shl_align k (-52) _) as [mz ez].
    apply binary_round_aux_negative.
Qed.

Lemma not_positive_below_tenth (x : spec_float) :
  not_positive x -> SFltb (Prim2SF tenth) x = false.
Proof.
  rewrite Prim2SF_tenth.
  destruct x as [| s | | s m e]; simpl; try reflexivity; intros ->; reflexivity.
Qed.

(** From position 16 on the score is the floor. *)
Lemma position_score_floor (i : nat) :
  (16 <= i)%nat -> position_score i = tenth.
Proof.
  intros Hi. unfold position_score, py_max, relevance.
  rewrite ltb_spec, sub_spec, mul_spec. unfold float_of_int.
  destruct (Z.of_nat i) as [| p | p] eqn:Hz; try lia.
  assert (Hn := binary_normalize_normal p ltac:(lia)).
  rewrite Prim2SF_SF2Prim
    by (apply normal_valid with false (-48);
        [unfold prec, emax, SpecFloat.emin; lia | exact Hn]).
  now rewrite (not_positive_below_tenth _
                 (one_minus_normal _ (mul_tenth_normal _ Hn))).
Qed.

Lemma SFltb_SFleb (x y : spec_float) : SFltb x y = true -> SFleb x y = true.
Proof.
  unfold SFltb, SFleb. destruct (SFcompare x y) as [[] |]; auto.
Qed.

(** The result of [max(0.1, x)] is never below [0.1]. *)
Lemma py_max_floor (x : float) : PrimFloat.leb tenth (py_max tenth x) = true.
Proof.
  unfold py_max. destruct (PrimFloat.ltb tenth x) eqn:H.
  - rewrite leb_spec. apply SFltb_SFleb. now rewrite <- ltb_spec.
  - vm_compute. reflexivity.
Qed.

(** The first sixteen scores, compared two by two, and each in [[0, 1]]. *)
Lemma first_scores_checked :
  forallb (fun j =>
    (PrimFloat.leb 0 (position_score j) && PrimFloat.leb (position_score j) 1) &&
    forallb (fun i => PrimFloat.leb (position_score j) (position_score i))
      (seq 0 (S j)))
    (seq 0 16) = true.
Proof. vm_compute. reflexivity. Qed.

Lemma first_scores (i j : nat) :
  (i <= j < 16)%nat ->
  PrimFloat.leb (position_score j) (position_score i) = true /\
  (PrimFloat.leb 0 (position_score j) && PrimFloat.leb (position_score j) 1
   = true)%bool.
Proof.
  intros Hij. pose proof first_scores_checked as H.
  rewrite forallb_forall in H. specialize (H j).
  rewrite in_seq in H. specialize (H ltac:(lia)).
  apply andb_true_iff in H. destruct H as [Hrange Hall].
  split; [| exact Hrange].
  rewrite forallb_forall in Hall. apply Hall. rewrite in_seq. lia.
Qed.

(** Every score passes the validation of [relevance_score]. *)
Lemma position_score_in_range (i : nat) :
  (PrimFloat.leb 0 (position_score i) && PrimFloat.leb (position_score i) 1
   = true)%bool.
Proof.
  destruct (Nat.lt_ge_cases i 16) as [H | H].
  - apply (first_scores i i). lia.
  - rewrite (position_score_floor i H). vm_compute. reflexivity.
Qed.

(** Scores do not increase with the position. *)
Lemma position_score_antitone (i j : nat) :
  (i <= j)%nat ->
  PrimFloat.leb (position_score j) (position_score i) = true.
Proof.
  intros Hij. destruct (Nat.lt_ge_cases j 16) as [H | H].
  - apply first_scores. lia.
  - rewrite (position_score_floor j H). apply py_max_floor.
Qed.

End ScoreFacts.

(* ================================================================== *)
(** * The stopping rule (C1) *)
(* ================================================================== *)

Lemma enough_information_spec (ctx : ResearchContext) :
  enough_information ctx = true <->
  (5 <= List.length (key_findings ctx))%nat /\ (3 <= search_iterations ctx)%Z.
Proof.
  unfold enough_information. rewrite andb_true_iff, Nat.leb_le, Z.leb_le.
  reflexivity.
Qed.

(** C1. One pass through the loop body ends in a [break] of the stopping
    rule exactly when its [try] block did not fail and, at that point, there
    are at least 5 key findings and [search_iterations] is at least 3; the
    rule does not look at [max_iterations], so a loop entered with any
    [max_iterations] stops there. A loop that stopped by the rule has both
    conditions, hence never with the counter below 3. *)
Theorem stop_rule_fires_exactly (World : Type) (P : Platform World)
    (s : State World) :
  let out := research_iteration P s in
  let ctx' := context (snd out) in
  let both :=
    (5 <= List.length (key_findings ctx'))%nat /\
    (3 <= search_iterations ctx')%Z in
  match fst (plan_and_execute P (entered s)) with
  | Raise _ => fst out = Ok BreakOnError
  | Ok _ => (fst out = Ok BreakSufficient /\ both) \/
            (fst out = Ok Continue /\ ~ both)
  end /\
  (forall fuel max_iterations,
     (search_iterations (context s) < max_iterations)%Z ->
     fst out = Ok BreakSufficient ->
     research_loop P (S fuel) max_iterations s = (Ok StoppedSufficient, snd out)) /\
  (forall fuel max_iterations,
     let final := research_loop P fuel max_iterations s in
     let ctx := context (snd final) in
     (fst final = Ok StoppedSufficient ->
      (5 <= List.length (key_findings ctx))%nat /\
      (3 <= search_iterations ctx)%Z) /\
     ((search_iterations ctx < 3)%Z -> fst final <> Ok StoppedSufficient)).
Proof.
  cbv zeta. split; [| split].
  - pose proof (research_iteration_cases P s) as H.
    destruct (plan_and_execute P (entered s)) as [[[] | e] s1]; simpl.
    + destruct (enough_information (context s1)) eqn:Henough; rewrite H; simpl.
      * left. split; [reflexivity |]. now apply enough_information_spec.
      * right. split; [reflexivity |]. rewrite <- enough_information_spec.
        congruence.
    + now rewrite H.
  - intros fuel max_iterations Hlt Hout. rewrite research_loop_unroll.
    apply Z.ltb_lt in Hlt. rewrite Hlt.
    destruct (research_iteration P s) as [[[] | e] s1]; simpl in *;
      try discriminate. reflexivity.
  - intros fuel max_iterations.
    destruct (research_loop_grows P max_iterations fuel s)
      as (exit & g & s' & Hloop & _ & _ & _ & _ & _ & _ & Hs & _).
    rewrite Hloop. simpl.
    assert (Hboth : Ok exit = Ok StoppedSufficient ->
                    (5 <= List.length (key_findings (context s')))%nat /\
                    (3 <= search_iterations (context s'))%Z).
    { intros E. injection E as ->. apply enough_information_spec.
      now apply Hs. }
    split; [exact Hboth |].
    intros Hlow E. specialize (Hboth E). lia.
Qed.

(** With every service answering, two plans a round and two findings a plan,
    the rule fires at the end of the third of five allowed iterations, not
    at the end of the second although there are eight findings by then. *)
Lemma stop_rule_fires_exactly_witness :
  let s := ready (lit "X") 0%nat in
  let final := research_loop (scripted healthy) 5 5 s in
  fst final = Ok StoppedSufficient /\
  search_iterations (context (snd final)) = 3%Z /\
  (5 <= List.length (key_findings (context (snd final))))%nat /\
  List.length
    (key_findings (context (snd (research_loop (scripted healthy) 2 5 s))))
  = 8%nat.
Proof.
  cbv zeta.
  destruct (stop_rule_fires_exactly (scripted healthy) (ready (lit "X") 0%nat))
    as (_ & _ & Hloop).
  destruct (Hloop 5%nat 5%Z) as [Hboth _].
  assert (E : fst (research_loop (scripted healthy) 5 5 (ready (lit "X") 0%nat))
              = Ok StoppedSufficient) by (vm_compute; reflexivity).
  split; [exact E |]. split; [vm_compute; reflexivity |].
  split; [exact (proj1 (Hboth E)) | vm_compute; reflexivity].
Defined.

(* ================================================================== *)
(** * Iterations and planning rounds (C2) *)
(* ================================================================== *)

(** C2 as stated fails below zero: with [max_iterations = -1] the loop is
    not entered, no planning round is made and [iterations] is 0, which
    exceeds -1. *)
Lemma iterations_exceed_negative_max :
  let out :=
    run_deep_research_agent (scripted healthy) (lit "X") (-1) (start 0%nat) in
  exists result,
    fst out = Ok result /\ iterations result = 0%Z /\
    planning_rounds (trace (snd out)) = 0%nat /\
    ~ (iterations result <= -1)%Z.
Proof.
  cbv zeta. eexists. split; [vm_compute; reflexivity |].
  split; [reflexivity |]. split; [vm_compute; reflexivity |].
  simpl. lia.
Qed.

(** C2, amended. For every question and every [max_iterations], the run
    makes at most [max(0, max_iterations)] planning rounds, the counter
    [search_iterations] ends equal to the number of planning rounds made,
    and a run that returns gives that counter as [iterations], with the
    context it belongs to. *)
Theorem iterations_count_planning_rounds (World : Type) (P : Platform World)
    (question : str) (max_iterations : Z) (w : World) :
  let out := run_deep_research_agent P question max_iterations (start w) in
  let made := planning_rounds (trace (snd out)) in
  (Z.of_nat made <= Z.max 0 max_iterations)%Z /\
  search_iterations (context (snd out)) = Z.of_nat made /\
  match fst out with
  | Ok result =>
      iterations result = search_iterations (research_context result) /\
      research_context result = context (snd out)
  | Raise _ => True
  end.
Proof.
  cbv zeta.
  destruct (run_summary P question max_iterations w)
    as (exit & g & s & w' & tail & _ & _ & [w1 Hs] & _ & Hp & Hmax & Hsnd
        & Hq & Hfst).
  rewrite Hsnd. cbn [observed context trace].
  assert (Hmade : planning_rounds (trace s ++ synthesis_events (context s) ++ tail)
                  = rounds g).
  { rewrite Hs. cbn [moved trace ready].
    rewrite !planning_rounds_app, Hp, (quiet_planning_rounds Hq). simpl. lia. }
  rewrite Hmade. split; [exact Hmax |]. split.
  - rewrite Hs. simpl. reflexivity.
  - destruct (fst (run_deep_research_agent P question max_iterations (start w)));
      [| exact I].
    destruct Hfst as [Hctx Hiter]. rewrite Hctx. now split.
Qed.

(* ================================================================== *)
(** * Intents in the history (C3) *)
(* ================================================================== *)

Lemma results_of_In (segs : list (SearchPlan * list SearchResult))
    (r : SearchResult) :
  In r (results_of segs) ->
  Forall segment_ok segs ->
  exists plan, In plan (List.map fst segs) /\ search_intent r = intent plan.
Proof.
  unfold results_of. intros Hin Hok. apply in_concat in Hin.
  destruct Hin as (rs & Hrs & Hr). apply in_map_iff in Hrs.
  destruct Hrs as ([plan rs'] & E & Hseg). simpl in E. subst rs'.
  exists plan. split.
  - apply in_map_iff. now exists (plan, rs).
  - rewrite Forall_forall in Hok. specialize (Hok _ Hseg).
    unfold segment_ok in Hok. rewrite Forall_forall in Hok. now apply Hok.
Qed.

(** C3. Whatever one plan's execution appends to [search_history] carries
    that plan's intent. So at the end of every run the history is the
    concatenation of one segment per plan handed to the executor, in the
    order of the calls, each segment's results carrying its plan's intent:
    a result keeps the placeholder [INITIAL_EXPLORATION] of
    [get_search_results] only when that is its plan's intent. *)
Theorem history_carries_plan_intent (World : Type) (P : Platform World)
    (question : str) (max_iterations : Z) (w : World) :
  (forall (i : nat) (plan : SearchPlan) (s : State World),
     exists rs,
       search_history (context (snd (execute_plan P i plan s))) =
       search_history (context s) ++ rs /\
       Forall (fun r => search_intent r = intent plan) rs) /\
  let final :=
    snd (run_deep_research_agent P question max_iterations (start w)) in
  (exists segs,
     List.map fst segs = executed_plans (trace final) /\
     search_history (context final) = results_of segs /\
     Forall segment_ok segs) /\
  (forall r,
     In r (search_history (context final)) ->
     exists plan,
       In plan (executed_plans (trace final)) /\
       search_intent r = intent plan).
Proof.
  split.
  - intros i plan s.
    destruct (execute_plan_grows P i plan s)
      as (o & g & s' & -> & [w1 ->] & (_ & Hok & _) & _ & _ & rs & Hseg).
    exists rs. rewrite Hseg in Hok.
    cbn [snd moved context grown search_history].
    unfold results_of. rewrite Hseg. simpl. rewrite app_nil_r.
    split; [reflexivity |]. now inversion Hok.
  - cbv zeta.
    destruct (run_summary P question max_iterations w)
      as (exit & g & s & w' & tail & _ & _ & [w1 Hs] & (Hplans & Hok & _) & _
          & _ & Hsnd & Hq & _).
    rewrite Hsnd. cbn [observed context trace].
    assert (Htrace : executed_plans
                       (trace s ++ synthesis_events (context s) ++ tail)
                     = List.map fst (segments g)).
    { rewrite Hs. cbn [moved trace ready].
      rewrite !executed_plans_app, Hplans, (quiet_executed_plans Hq).
      simpl. now rewrite ?app_nil_r. }
    assert (Hhist : search_history (context s) = results_of (segments g)).
    { rewrite Hs. reflexivity. }
    rewrite Htrace, Hhist. split.
    + exists (segments g). now repeat split.
    + intros r Hin. now apply results_of_In.
Qed.

(** Two rounds with every service answering: four plans are executed and
    the eight results carry, two by two, the intents of the plans. *)
Lemma history_carries_plan_intent_witness :
  let final :=
    snd (run_deep_research_agent (scripted healthy) (lit "X") 2 (start 0%nat)) in
  List.map search_intent (search_history (context final)) =
    [DEEP_DIVE; DEEP_DIVE; FACT_CHECKING; FACT_CHECKING;
     DEEP_DIVE; DEEP_DIVE; FACT_CHECKING; FACT_CHECKING] /\
  List.map intent (executed_plans (trace final)) =
    [DEEP_DIVE; FACT_CHECKING; DEEP_DIVE; FACT_CHECKING] /\
  exists segs,
    List.map fst segs = executed_plans (trace final) /\
    search_history (context final) = results_of segs /\
    Forall segment_ok segs.
Proof.
  cbv zeta. split; [vm_compute; reflexivity |].
  split; [vm_compute; reflexivity |].
  exact (proj1 (proj2 (history_carries_plan_intent (scripted healthy) (lit "X")
                         2 0%nat))).
Defined.

(* ================================================================== *)
(** * Failures of the search provider (C4) *)
(* ================================================================== *)

Lemma structured_from_titles (i : nat) (results : list ExaResult)
    (rs : list SearchResult) :
  structured_from i results rs ->
  Forall (fun result => res_title result <> None) results.
Proof.
  induction 1 as [| i result results r rs Hat _ IH]; constructor; [| exact IH].
  destruct Hat as [Ht _]. rewrite Ht. discriminate.
Qed.

(** A plan whose executor call answered with tools that can be built is
    carried through: its tools and its narrative are processed without an
    exception. *)
Lemma execute_plan_returns (World : Type) (P : Platform World) (i : nat)
    (plan : SearchPlan) (s : State World) (response : CallResponse) (w : World)
    (built : list Tool) :
  llm_execute_search P plan (context s) (world s) = (Ok response, w) ->
  tools response = Ok built ->
  fst (execute_plan P i plan s) = Ok tt.
Proof.
  intros H Hbuilt. pose proof (execute_plan_cases P i plan s) as Hcases.
  rewrite H, Hbuilt in Hcases. destruct Hcases as (rs & w' & evs & -> & _).
  reflexivity.
Qed.

(** The [for] loop over the plans goes on after a plan that returned. *)
Lemma for_enumerate_next (World : Type) (P : Platform World) (i : nat)
    (plan : SearchPlan) (plans : list SearchPlan) (s : State World) :
  fst (execute_plan P i plan s) = Ok tt ->
  for_enumerate i (plan :: plans) (execute_plan P) s =
  for_enumerate (S i) plans (execute_plan P) (snd (execute_plan P i plan s)).
Proof.
  intros H. simpl. unfold bind.
  destruct (execute_plan P i plan s) as [[[] | e] s']; simpl in *;
    [reflexivity | discriminate].
Qed.

(** C4. [get_search_results] never raises. When the provider's call raises,
    whatever the error, it prints the error and returns the empty list, the
    context untouched; a response with an item it cannot structure (one
    without a title) ends the same way, and so does a client that cannot be
    built, before anything is sent to the provider. The tool loop then
    reports zero results and goes on, and once the executor has answered
    for a plan with tools that could be built, the loop over the plans
    continues with the next plan. *)
Theorem provider_failure_is_absorbed (World : Type) (P : Platform World) :
  (forall q n a (s : State World),
     exists rs, fst (get_search_results P q n a s) = Ok rs) /\
  (forall q n a (s : State World) e w,
     let api_key := os_getenv P (world s) (lit "EXA_API_KEY") in
     let evs := [ProviderCalled api_key q n a; Printed (ErrorInSearch e)] in
     exa_Exa P (world s) api_key = Ok tt ->
     exa_search_and_contents P api_key q n a (world s) = (Raise e, w) ->
     get_search_results P q n a s = (Ok [], observed s w evs) /\
     forall plan,
       process_tool P plan (SearchTool q n a) s =
       (Ok tt, observed s w (evs ++ [Printed (FoundResults 0)]))) /\
  (forall q n a (s : State World) results w,
     let api_key := os_getenv P (world s) (lit "EXA_API_KEY") in
     exa_Exa P (world s) api_key = Ok tt ->
     exa_search_and_contents P api_key q n a (world s) = (Ok results, w) ->
     (exists result, In result results /\ res_title result = None) ->
     exists e,
       get_search_results P q n a s =
       (Ok [], observed s w [ProviderCalled api_key q n a;
                             Printed (ErrorInSearch e)])) /\
  (forall i plan plans (s : State World) response w built,
     llm_execute_search P plan (context s) (world s) = (Ok response, w) ->
     tools response = Ok built ->
     for_enumerate i (plan :: plans) (execute_plan P) s =
     for_enumerate (S i) plans (execute_plan P) (snd (execute_plan P i plan s))) /\
  (forall q n a (s : State World) e,
     let api_key := os_getenv P (world s) (lit "EXA_API_KEY") in
     let evs := [Printed (ErrorInSearch e)] in
     exa_Exa P (world s) api_key = Raise e ->
     get_search_results P q n a s = (Ok [], observed s (world s) evs) /\
     forall plan,
       process_tool P plan (SearchTool q n a) s =
       (Ok tt, observed s (world s) (evs ++ [Printed (FoundResults 0)]))).
Proof.
  split; [| split; [| split; [| split]]].
  - intros q n a s.
    destruct (get_search_results_quiet P q n a s) as (rs & w & evs & -> & _).
    now exists rs.
  - intros q n a s e w api_key evs Hclient Hexa.
    pose proof (get_search_results_cases P q n a s) as H. cbv zeta in H.
    fold api_key in H. rewrite Hclient, Hexa in H. split; [exact H |].
    intros plan. rewrite (process_tool_search P plan _ _ _ _ H).
    unfold moved, observed, evs. cbn [context world trace List.map].
    rewrite with_results_nil, <- app_assoc. reflexivity.
  - intros q n a s results w api_key Hclient Hexa (result & Hin & Hnone).
    pose proof (get_search_results_cases P q n a s) as H. cbv zeta in H.
    fold api_key in H. rewrite Hclient, Hexa in H.
    destruct H as [(rs & Hrs & _) | H]; [| exact H].
    apply structured_from_titles in Hrs. rewrite Forall_forall in Hrs.
    now destruct (Hrs _ Hin).
  - intros i plan plans s response w built H Hbuilt.
    apply for_enumerate_next.
    exact (execute_plan_returns P i plan s H Hbuilt).
  - intros q n a s e api_key evs Hclient.
    pose proof (get_search_results_cases P q n a s) as H. cbv zeta in H.
    fold api_key in H. rewrite Hclient in H. split; [exact H |].
    intros plan. rewrite (process_tool_search P plan _ _ _ _ H).
    unfold moved, observed, evs. cbn [context world trace List.map].
    rewrite with_results_nil, <- app_assoc. reflexivity.
Qed.

(** A provider that is down: the search returns the empty list with the
    error printed, and the tool loop reports zero results. *)
Lemma provider_failure_is_absorbed_witness :
  let s := ready (lit "X") 0%nat in
  let evs := [ProviderCalled (Some (lit "k")) (lit "q") 10 true;
               Printed (ErrorInSearch (ExternalError (lit "network")))] in
  get_search_results (scripted provider_down) (lit "q") 10 true s =
    (Ok [], observed s 1%nat evs) /\
  process_tool (scripted provider_down) plan_a (SearchTool (lit "q") 10 true) s =
    (Ok tt, observed s 1%nat (evs ++ [Printed (FoundResults 0)])).
Proof.
  cbv zeta.
  destruct (proj1 (proj2 (provider_failure_is_absorbed (scripted provider_down)))
              (lit "q") 10%Z true (ready (lit "X") 0%nat)
              (ExternalError (lit "network")) 1%nat eq_refl eq_refl)
    as [Hget Htool].
  split; [exact Hget | exact (Htool plan_a)].
Defined.

(* ================================================================== *)
(** * Failures inside one plan (C5) *)
(* ================================================================== *)

(** With the executor answering every call with tools that can be built,
    a round raises at no plan, whatever the tools and the provider do. *)
Lemma for_enumerate_returns (World : Type) (P : Platform World) :
  (forall plan ctx w, exists response w' built,
     llm_execute_search P plan ctx w = (Ok response, w') /\
     tools response = Ok built) ->
  forall plans i (s : State World),
    fst (for_enumerate i plans (execute_plan P) s) = Ok tt.
Proof.
  intros Hexec plans. induction plans as [| plan plans IH]; intros i s.
  - reflexivity.
  - destruct (Hexec plan (context s) (world s))
      as (response & w' & built & H & Hbuilt).
    rewrite for_enumerate_next
      by exact (execute_plan_returns P i plan s H Hbuilt).
    apply IH.
Qed.

(** With the planner answering as well, no iteration ends in the [break]
    of the outer handler. *)
Lemma research_iteration_returns (World : Type) (P : Platform World) :
  (forall ctx w, exists plans w',
     llm_plan_searches P ctx w = (Ok plans, w')) ->
  (forall plan ctx w, exists response w' built,
     llm_execute_search P plan ctx w = (Ok response, w') /\
     tools response = Ok built) ->
  forall s : State World, fst (research_iteration P s) <> Ok BreakOnError.
Proof.
  intros Hplan Hexec s.
  pose proof (research_iteration_cases P s) as Hiter.
  pose proof (plan_and_execute_cases P (entered s)) as Hbody.
  destruct (Hplan (context (entered s)) (world (entered s)))
    as (plans & w' & Hanswer).
  rewrite Hanswer in Hbody.
  pose proof (for_enumerate_returns P Hexec (firstn 2 plans) 0
                (observed (entered s) w'
                   [PlannerCalled (context (entered s));
                    Printed (GeneratedPlans (List.length plans))])) as Hok.
  rewrite <- Hbody in Hok.
  destruct (plan_and_execute P (entered s)) as [[[] | e] s']; simpl in Hok;
    [| discriminate].
  rewrite Hiter. destruct (enough_information (context s')); discriminate.
Qed.





(* ================================================================== *)
(** * Missing credentials (C6) *)
(* ================================================================== *)

(** C6 as stated fails. Without [EXA_API_KEY] the run enters its first
    iteration, the search of that iteration prints the client's refusal,
    and the run returns its report with [iterations = 1]: no error before
    the loop, and none raised. Without the language model's credential the
    planner's call fails inside iteration 1 and the run ends in the error
    of the synthesizer's call, after the loop. *)
Lemma missing_credentials_surface_in_the_loop :
  let out :=
    run_deep_research_agent (scripted no_search_key) (lit "X") 1 (start 0%nat) in
  let out' :=
    run_deep_research_agent (scripted no_model_key) (lit "X") 2 (start 0%nat) in
  let refusal := ExternalError (lit "API key must be provided") in
  let missing := ExternalError (lit "api key missing") in
  (exists result, fst out = Ok result /\ iterations result = 1%Z) /\
  firstn 4 (trace (snd out)) =
    [Printed (StartingDeepResearch (lit "X")); Printed Separator;
     Printed (ResearchIteration 1); PlannerCalled (first_context (lit "X"))] /\
  In (Printed (ErrorInSearch refusal)) (trace (snd out)) /\
  fst out' = Raise missing /\
  firstn 5 (trace (snd out')) =
    [Printed (StartingDeepResearch (lit "X")); Printed Separator;
     Printed (ResearchIteration 1); PlannerCalled (first_context (lit "X"));
     Printed (PlanningError missing)].
Proof.
  cbv zeta. split; [eexists; split; vm_compute; reflexivity |].
  split; [vm_compute; reflexivity |]. split.
  - vm_compute. do 9 right. left. reflexivity.
  - split; vm_compute; reflexivity.
Qed.

(** C6, amended. The credentials are not checked before the loop. When
    [EXA_API_KEY] is absent and the provider's client refuses a missing
    key, every [get_search_results] call prints the refusal and returns the
    empty list, the context untouched, nothing raised and nothing sent to
    the provider. When the
    language model's calls fail from the first one, the failure appears in
    iteration 1, as a planning error, and the run ends in the exception of
    the synthesizer's call. *)
Theorem missing_credentials_are_not_checked_first (World : Type)
    (P : Platform World) :
  (forall q n a (s : State World),
     os_getenv P (world s) (lit "EXA_API_KEY") = None ->
     (forall w, exists e, exa_Exa P w None = Raise e) ->
     exists e,
       exa_Exa P (world s) None = Raise e /\
       get_search_results P q n a s =
       (Ok [], observed s (world s) [Printed (ErrorInSearch e)])) /\
  (forall question max_iterations (w : World) e w1 e' w2,
     (1 <= max_iterations)%Z ->
     llm_plan_searches P (first_context question) w = (Raise e, w1) ->
     llm_synthesize_research P (first_context question) w1 = (Raise e', w2) ->
     run_deep_research_agent P question max_iterations (start w) =
     (Raise e',
      {| context := first_context question; world := w2;
         trace := [Printed (StartingDeepResearch question); Printed Separator;
                   Printed (ResearchIteration 1);
                   PlannerCalled (first_context question);
                   Printed (PlanningError e);
                   Printed Synthesizing;
                   Printed (debug_line (first_context question));
                   SynthesizerCalled (first_context question)] |})).
Proof.
  split.
  - intros q n a s Hkey Hrefuse.
    destruct (Hrefuse (world s)) as (e & Hclient).
    pose proof (get_search_results_cases P q n a s) as H. cbv zeta in H.
    rewrite Hkey, Hclient in H. now exists e.
  - intros question max_iterations w e w1 e' w2 Hmax Hplan Hsynth.
    destruct (Z.to_nat max_iterations) as [| fuel] eqn:Hfuel; [lia |].
    assert (Hloop :
      research_loop P (Z.to_nat max_iterations) max_iterations (ready question w)
      = (Ok StoppedOnError,
         observed (entered (ready question w)) w1
           [PlannerCalled (first_context question); Printed (PlanningError e)])).
    { rewrite Hfuel. apply research_loop_planner_raises; [simpl; lia |].
      exact Hplan. }
    pose proof (run_cases P question max_iterations w Hloop) as Hrun.
    cbn [observed context world entered moved ready new_ResearchContext
         query search_history key_findings unanswered_questions
         search_iterations] in Hrun.
    change (0 + 1)%Z with 1%Z in Hrun. fold (first_context question) in Hrun.
    rewrite Hsynth in Hrun. rewrite Hrun. reflexivity.
Qed.

(** The two scripts without a credential. *)
Lemma missing_credentials_are_not_checked_first_witness :
  (exists e,
     exa_Exa (scripted no_search_key) 0%nat None = Raise e /\
     get_search_results (scripted no_search_key) (lit "q") 10 true
       (ready (lit "X") 0%nat) =
     (Ok [], observed (ready (lit "X") 0%nat) 0%nat
               [Printed (ErrorInSearch e)])) /\
  fst (run_deep_research_agent (scripted no_model_key) (lit "X") 2 (start 0%nat))
  = Raise (ExternalError (lit "api key missing")).
Proof.
  split.
  - apply (proj1 (missing_credentials_are_not_checked_first
                    (scripted no_search_key))).
    + reflexivity.
    + intros w. now exists (ExternalError (lit "API key must be provided")).
  - rewrite (proj2 (missing_credentials_are_not_checked_first
                      (scripted no_model_key))
               (lit "X") 2%Z 0%nat (ExternalError (lit "api key missing")) 1%nat
               (ExternalError (lit "api key missing")) 2%nat
               ltac:(lia) eq_refl eq_refl).
    reflexivity.
Defined.

(* ================================================================== *)
(** * A failing planner (C7) *)
(* ================================================================== *)

(** C7. A planner that raises in any iteration ends the loop in that
    iteration, without an exception: the run goes on to the synthesizer.
    When it raises in iteration 1 of a run with [max_iterations >= 1], the
    loop ends with [search_iterations = 1] and an empty history, the
    synthesizer is called exactly once, on that minimal context, and with
    its report the run returns [iterations = 1]. *)
Theorem planner_failure_goes_to_synthesis (World : Type) (P : Platform World) :
  (forall fuel max_iterations (s : State World) e w,
     (search_iterations (context s) < max_iterations)%Z ->
     llm_plan_searches P (context (entered s)) (world s) = (Raise e, w) ->
     fst (research_loop P (S fuel) max_iterations s) = Ok StoppedOnError /\
     context (snd (research_loop P (S fuel) max_iterations s)) =
       context (entered s)) /\
  (forall question max_iterations (w : World) e w1,
     (1 <= max_iterations)%Z ->
     llm_plan_searches P (first_context question) w = (Raise e, w1) ->
     let out := run_deep_research_agent P question max_iterations (start w) in
     context (snd out) = first_context question /\
     planning_rounds (trace (snd out)) = 1%nat /\
     executed_plans (trace (snd out)) = [] /\
     synthesized_contexts (trace (snd out)) = [first_context question] /\
     match llm_synthesize_research P (first_context question) w1 with
     | (Ok report, _) =>
         fst out = Ok {| final_report := report;
                         research_context := first_context question;
                         iterations := 1 |}
     | (Raise e', _) => fst out = Raise e'
     end).
Proof.
  split.
  - intros fuel max_iterations s e w Hlt Hplan.
    rewrite (research_loop_planner_raises P fuel s Hlt Hplan). now split.
  - intros question max_iterations w e w1 Hmax Hplan. cbv zeta.
    destruct (Z.to_nat max_iterations) as [| fuel] eqn:Hfuel; [lia |].
    assert (Hloop :
      research_loop P (Z.to_nat max_iterations) max_iterations (ready question w)
      = (Ok StoppedOnError,
         observed (entered (ready question w)) w1
           [PlannerCalled (first_context question); Printed (PlanningError e)])).
    { rewrite Hfuel. apply research_loop_planner_raises; [simpl; lia |].
      exact Hplan. }
    pose proof (run_cases P question max_iterations w Hloop) as Hrun.
    cbn [observed context world entered moved ready new_ResearchContext
         query search_history key_findings unanswered_questions
         search_iterations] in Hrun.
    change (0 + 1)%Z with 1%Z in Hrun. fold (first_context question) in Hrun.
    destruct (llm_synthesize_research P (first_context question) w1)
      as [[report | e'] w2]; rewrite Hrun; cbn [fst snd context trace];
      repeat split; reflexivity.
Qed.

(** A planner that is down from the start: one round, no plan executed, one
    call of the synthesizer, and the run returns its report. *)
Lemma planner_failure_goes_to_synthesis_witness :
  let out :=
    run_deep_research_agent (scripted planner_down) (lit "X") 3 (start 0%nat) in
  context (snd out) = first_context (lit "X") /\
  planning_rounds (trace (snd out)) = 1%nat /\
  executed_plans (trace (snd out)) = [] /\
  synthesized_contexts (trace (snd out)) = [first_context (lit "X")] /\
  fst out = Ok {| final_report := lit "report";
                  research_context := first_context (lit "X");
                  iterations := 1 |}.
Proof.
  exact (proj2 (planner_failure_goes_to_synthesis (scripted planner_down))
           (lit "X") 3%Z 0%nat (ExternalError (lit "model unavailable")) 1%nat
           ltac:(lia) eq_refl).
Defined.

(* ================================================================== *)
(** * Scores by position (C8) *)
(* ================================================================== *)

(** With every title present the structuring loop raises at no position:
    each score passes the validation. *)
Lemma structure_results_total (World : Type) (P : Platform World)
    (results : list ExaResult) :
  Forall (fun result => res_title result <> None) results ->
  forall i acc (s : State World),
  exists rs,
    structure_results P i results acc s = (Ok (acc ++ rs), s) /\
    structured_from i results rs.
Proof.
  induction 1 as [| result results Htitle _ IH]; intros i acc s.
  - exists []. simpl. unfold ret. rewrite app_nil_r. split; constructor.
  - destruct (res_title result) as [t |] eqn:Ht; [| contradiction].
    set (r := {| title := t; url := res_url result;
                 content := take 2000 (res_text result);
                 relevance_score := position_score i;
                 search_intent := INITIAL_EXPLORATION;
                 timestamp := datetime_now P (world s) |}).
    destruct (IH (S i) (acc ++ [r]) s) as (rs & Hrest & Hrs).
    exists (r :: rs). split.
    + cbn [structure_results]. erewrite run_bind.
      * rewrite Hrest, <- app_assoc. reflexivity.
      * unfold new_SearchResult. rewrite Ht.
        fold (relevance i). fold (position_score i).
        rewrite position_score_in_range. reflexivity.
    + constructor; [| exact Hrs]. repeat split; auto.
Qed.

(** C8. The result that [get_search_results] returns at zero-based position
    [i] has [relevance_score = max(0.1, 1.0 - i*0.1)], in binary64 as the
    program computes it; the score is never below [0.1], and it does not
    increase with the position. When the client is built and the provider
    answers with items that all have a title, one result is returned for
    each item. *)
Theorem relevance_score_by_position (World : Type) (P : Platform World)
    (q : str) (n : Z) (a : bool) (s : State World) :
  (forall rs,
     fst (get_search_results P q n a s) = Ok rs ->
     (forall i r,
        nth_error rs i = Some r ->
        relevance_score r =
          py_max tenth (1 - float_of_int (Z.of_nat i) * tenth)%float /\
        PrimFloat.leb tenth (relevance_score r) = true) /\
     (forall i j ri rj,
        (i <= j)%nat ->
        nth_error rs i = Some ri -> nth_error rs j = Some rj ->
        PrimFloat.leb (relevance_score rj) (relevance_score ri) = true)) /\
  (forall results w,
     exa_Exa P (world s) (os_getenv P (world s) (lit "EXA_API_KEY")) = Ok tt ->
     exa_search_and_contents P (os_getenv P (world s) (lit "EXA_API_KEY"))
       q n a (world s) = (Ok results, w) ->
     Forall (fun result => res_title result <> None) results ->
     exists rs,
       fst (get_search_results P q n a s) = Ok rs /\
       List.length rs = List.length results).
Proof.
  pose proof (get_search_results_cases P q n a s) as Hcases. cbv zeta in Hcases.
  split.
  - intros rs Hrs.
    assert (Hat : forall i r, nth_error rs i = Some r ->
                              relevance_score r = position_score i).
    { destruct (exa_Exa P (world s) _) as [[] | e0].
      - destruct (exa_search_and_contents P _ q n a (world s))
          as [[results | e] w].
        + destruct Hcases as [(rs' & Hfrom & Heq) | (e & Heq)];
            rewrite Heq in Hrs; injection Hrs as <-.
          * intros i r Hi.
            destruct (structured_from_nth Hfrom _ Hi) as (result & _ & Hr).
            apply Hr.
          * intros [| i] r Hi; discriminate.
        + rewrite Hcases in Hrs. injection Hrs as <-.
          intros [| i] r Hi; discriminate.
      - rewrite Hcases in Hrs. injection Hrs as <-.
        intros [| i] r Hi; discriminate. }
    split.
    + intros i r Hi. rewrite (Hat i r Hi). split; [reflexivity |].
      apply py_max_floor.
    + intros i j ri rj Hij Hi Hj. rewrite (Hat i ri Hi), (Hat j rj Hj).
      now apply position_score_antitone.
  - intros results w Hclient Hexa Htitles.
    unfold get_search_results, try_except.
    erewrite run_bind by reflexivity.
    erewrite run_bind by (rewrite Hclient; reflexivity).
    erewrite run_bind by (unfold external; rewrite Hexa; reflexivity).
    destruct (structure_results_total P Htitles 0 []
                {| context := context s; world := w;
                   trace := trace s ++
                     [ProviderCalled
                        (os_getenv P (world s) (lit "EXA_API_KEY")) q n a] |})
      as (rs & Hrun & Hfrom).
    rewrite Hrun. exists rs. split; [reflexivity |].
    exact (structured_from_length Hfrom).
Qed.

#[local] Set Warnings "-inexact-float".

(** Twelve items: the scores go down by tenths, as binary64 has them, to
    the floor reached at position 9. *)
Lemma relevance_score_by_position_witness :
  let out :=
    get_search_results (scripted twelve_items) (lit "q") 12 true
      (ready (lit "X") 0%nat) in
  exists rs,
    fst out = Ok rs /\
    List.map relevance_score rs =
      [1; 0.9; 0.8; 0.7; 0.6; 0.5; 0.39999999999999991;
       0.29999999999999993; 0.19999999999999996; 0.1; 0.1; 0.1]%float /\
    (forall i r,
       nth_error rs i = Some r ->
       relevance_score r =
         py_max tenth (1 - float_of_int (Z.of_nat i) * tenth)%float /\
       PrimFloat.leb tenth (relevance_score r) = true).
Proof.
  cbv zeta. eexists. split; [vm_compute; reflexivity |].
  split; [vm_compute; reflexivity |].
  apply (proj1 (relevance_score_by_position (scripted twelve_items) (lit "q")
                  12%Z true (ready (lit "X") 0%nat))).
  vm_compute. reflexivity.
Defined.

(* ================================================================== *)
(** * The extraction of findings (C9) *)
(* ================================================================== *)

(** C9 as stated fails on a marker that follows blanks: the line
    ["  🔍 finding"] begins with the marker once trimmed, so the selection
    of C9 leaves it out; the program tests the marker on the untrimmed line
    and stores ["🔍 finding"]. *)
Lemma marker_after_blanks_is_stored :
  let out :=
    extract_from_analysis (scripted healthy) indented_marker_line
      (start 0%nat) in
  key_findings (context (snd out)) = [magnifier ++ lit " finding"] /\
  findings_of unicode_isspace
    (claimed_finding_line unicode_isspace ascii_lower) indented_marker_line = [] /\
  key_findings (context (snd out)) <>
  key_findings (context (start 0%nat)) ++
  findings_of unicode_isspace
    (claimed_finding_line unicode_isspace ascii_lower) indented_marker_line.
Proof.
  cbv zeta.
  assert (E1 : key_findings
                 (context (snd (extract_from_analysis (scripted healthy)
                                  indented_marker_line (start 0%nat))))
               = [magnifier ++ lit " finding"]) by (vm_compute; reflexivity).
  assert (E2 : findings_of unicode_isspace
                 (claimed_finding_line unicode_isspace ascii_lower)
                 indented_marker_line = []) by (vm_compute; reflexivity).
  rewrite E1, E2. repeat split. simpl. discriminate.
Qed.

(** C9, amended. For every narrative text the extraction appends to
    [key_findings], in order and trimmed, exactly the lines whose trimmed
    form is non-empty, which do not begin with the marker as they stand
    (before trimming), and whose lower-cased form contains ["finding"] or
    ["discovered"]; it changes nothing else and does not raise. *)
Theorem findings_are_the_selected_lines (World : Type) (P : Platform World)
    (text : str) (s : State World) :
  let out := extract_from_analysis P text s in
  fst out = Ok tt /\
  key_findings (context (snd out)) =
    key_findings (context s) ++
    findings_of (isspace P) (selected_finding_line (isspace P) (lower P)) text /\
  context (snd out) =
    with_findings (context s)
      (findings_of (isspace P) (selected_finding_line (isspace P) (lower P))
         text) /\
  world (snd out) = world s /\ trace (snd out) = trace s.
Proof.
  cbv zeta. rewrite extract_from_analysis_eq.
  cbn [fst snd moved context world trace with_findings key_findings].
  rewrite app_nil_r. repeat split.
Qed.

(* ================================================================== *)
(** * Stored findings are trimmed (C10) *)
(* ================================================================== *)

Lemma grows_key_findings (World : Type) (isspace : N -> bool) (g : Growth)
    (s s' : State World) :
  grows g s s' -> sound isspace g ->
  Forall (trimmed isspace) (key_findings (context s)) ->
  Forall (trimmed isspace) (key_findings (context s')).
Proof.
  intros [w ->] (_ & _ & Hfound & _) H. cbn [moved context grown key_findings].
  apply Forall_app. now split.
Qed.

(** C10. Every string in [key_findings] is non-empty and has no white space
    at either end: after any number of iterations of the loop of a run, in
    the state the run leaves, and in the context a run returns. The same
    holds from any state whose findings are clean already. *)
Theorem key_findings_are_trimmed (World : Type) (P : Platform World)
    (question : str) (max_iterations : Z) (w : World) :
  let clean := Forall (trimmed (isspace P)) in
  (forall fuel,
     clean (key_findings
              (context (snd (research_loop P fuel max_iterations
                               (ready question w)))))) /\
  (forall fuel (s : State World),
     clean (key_findings (context s)) ->
     clean (key_findings (context (snd (research_iteration P s)))) /\
     clean (key_findings
              (context (snd (research_loop P fuel max_iterations s))))) /\
  clean (key_findings
           (context (snd (run_deep_research_agent P question max_iterations
                            (start w))))) /\
  match fst (run_deep_research_agent P question max_iterations (start w)) with
  | Ok result => clean (key_findings (research_context result))
  | Raise _ => True
  end.
Proof.
  cbv zeta.
  assert (Hstep : forall fuel (s : State World),
            Forall (trimmed (isspace P)) (key_findings (context s)) ->
            Forall (trimmed (isspace P))
              (key_findings (context (snd (research_iteration P s)))) /\
            Forall (trimmed (isspace P))
              (key_findings
                 (context (snd (research_loop P fuel max_iterations s))))).
  { intros fuel s Hs. split.
    - destruct (research_iteration_grows P s)
        as (control & g & s' & -> & Hg & Hsound & _).
      exact (grows_key_findings Hg Hsound Hs).
    - destruct (research_loop_grows P max_iterations fuel s)
        as (exit & g & s' & -> & Hg & Hsound & _).
      exact (grows_key_findings Hg Hsound Hs). }
  split; [| split; [exact Hstep |]].
  - intros fuel. apply Hstep. constructor.
  - destruct (run_summary P question max_iterations w)
      as (exit & g & s & w' & tail & _ & _ & Hg & Hsound & _ & _ & Hsnd & _
          & Hfst).
    assert (Hs : Forall (trimmed (isspace P)) (key_findings (context s))).
    { apply (grows_key_findings Hg Hsound). constructor. }
    rewrite Hsnd. split; [exact Hs |].
    destruct (fst (run_deep_research_agent P question max_iterations (start w)));
      [| exact I].
    destruct Hfst as [-> _]. exact Hs.
Qed.

(** Three rounds with every service answering: twelve findings, the lines
    ["Key finding: x"] and ["We discovered y"] six times over, the second
    without the blanks it had in the narrative. *)
Lemma key_findings_are_trimmed_witness :
  let s := ready (lit "X") 0%nat in
  let final := snd (research_loop (scripted healthy) 5 5 s) in
  firstn 2 (key_findings (context final)) =
    [lit "Key finding: x"; lit "We discovered y"] /\
  List.length (key_findings (context final)) = 12%nat /\
  Forall (trimmed unicode_isspace) (key_findings (context final)).
Proof.
  cbv zeta. split; [vm_compute; reflexivity |].
  split; [vm_compute; reflexivity |].
  refine (proj2 (proj1 (proj2 (key_findings_are_trimmed (scripted healthy)
                                 (lit "X") 5 0%nat))
                   5%nat (ready (lit "X") 0%nat) _)).
  constructor.
Defined.

(* ================================================================== *)
(** * Lines and their pieces *)
(* ================================================================== *)

(** No piece of [split] contains the separator. *)
Lemma split_pieces (sep : N) (s : str) :
  Forall (fun piece => ~ In sep piece) (split sep s).
Proof.
  induction s as [| c s IH]; simpl.
  - constructor; [intros [] | constructor].
  - destruct (N.eqb c sep) eqn:Hc.
    + constructor; [intros [] | exact IH].
    + apply N.eqb_neq in Hc.
      destruct (split sep s) as [| piece pieces].
      * constructor; [| constructor]. intros [E | []]. now apply Hc.
      * inversion IH as [| ? ? Hpiece Hpieces]; subst.
        constructor; [| exact Hpieces].
        intros [E | Hin]; [now apply Hc | now apply Hpiece].
Qed.

(** A string without the separator is one piece. *)
Lemma split_no_sep (sep : N) (s : str) : ~ In sep s -> split sep s = [s].
Proof.
  induction s as [| c s IH]; intros Hs; simpl; [reflexivity |].
  destruct (N.eqb c sep) eqn:Hc.
  - apply N.eqb_eq in Hc. exfalso. apply Hs. now left.
  - rewrite IH; [reflexivity |]. intros Hin. apply Hs. now right.
Qed.

(** A first piece, up to the first separator. *)
Lemma split_app_sep (sep : N) (piece rest : str) :
  ~ In sep piece ->
  split sep (piece ++ sep :: rest) = piece :: split sep rest.
Proof.
  induction piece as [| c piece IH]; intros Hp; simpl.
  - now rewrite N.eqb_refl.
  - destruct (N.eqb c sep) eqn:Hc.
    + apply N.eqb_eq in Hc. exfalso. apply Hp. now left.
    + rewrite IH; [reflexivity |]. intros Hin. apply Hp. now right.
Qed.

(** Joining pieces that hold no separator, then splitting, gives them
    back; the empty list is joined to the empty string, which splits into
    one empty piece. *)
Lemma split_join (sep : N) (pieces : list str) :
  pieces <> [] ->
  Forall (fun piece => ~ In sep piece) pieces ->
  split sep (join [sep] pieces) = pieces.
Proof.
  induction pieces as [| piece rest IH]; intros Hne Hall; [now elim Hne |].
  inversion Hall as [| ? ? Hpiece Hrest]; subst.
  destruct rest as [| piece' rest'].
  - simpl. now apply split_no_sep.
  - change (join [sep] (piece :: piece' :: rest'))
      with (piece ++ sep :: join [sep] (piece' :: rest')).
    rewrite split_app_sep by exact Hpiece.
    f_equal. apply IH; [discriminate | exact Hrest].
Qed.

(** [strip] only drops code points. *)
Lemma strip_incl (isspace : N -> bool) (s : str) (c : N) :
  In c (strip isspace s) -> In c s.
Proof.
  unfold strip. intros H.
  destruct (rstrip_prefix isspace (lstrip isspace s)) as [dropped Hr].
  destruct (lstrip_suffix isspace s) as [dropped' Hl].
  rewrite Hl. apply in_or_app. right.
  rewrite Hr. apply in_or_app. now left.
Qed.

(** Every finding taken from a narrative is a single line. *)
Lemma findings_of_single_line (isspace : N -> bool) (select : str -> bool)
    (text : str) :
  Forall single_line (findings_of isspace select text).
Proof.
  unfold findings_of. apply Forall_map.
  apply Forall_forall. intros line Hline.
  apply filter_In in Hline. destruct Hline as [Hline _].
  pose proof (split_pieces newline text) as Hpieces.
  rewrite Forall_forall in Hpieces.
  intros Hin. apply (Hpieces line Hline).
  exact (strip_incl _ _ _ Hin).
Qed.

(* ================================================================== *)
(** * Relations kept by computations *)
(* ================================================================== *)

Section Keeping.

Variable St : Type.
Variable R : St -> St -> Prop.
Hypothesis R_refl : forall s, R s s.
Hypothesis R_trans : forall s s1 s2, R s s1 -> R s1 s2 -> R s s2.

Lemma keeps_ret {A : Type} (a : A) : keeps R (ret a).
Proof. intros s. apply R_refl. Qed.

Lemma keeps_bind {A B : Type} (m : M St A) (k : A -> M St B) :
  keeps R m -> (forall a, keeps R (k a)) -> keeps R (bind m k).
Proof.
  intros Hm Hk s. unfold bind. specialize (Hm s).
  destruct (m s) as [[a | e] s1]; simpl in Hm.
  - apply R_trans with s1; [exact Hm | apply Hk].
  - exact Hm.
Qed.

Lemma keeps_try_except {A : Type} (body : M St A)
    (handler : Exception -> M St A) :
  keeps R body -> (forall e, keeps R (handler e)) ->
  keeps R (try_except body handler).
Proof.
  intros Hbody Hhandler s. unfold try_except. specialize (Hbody s).
  destruct (body s) as [[a | e] s1]; simpl in Hbody.
  - exact Hbody.
  - apply R_trans with s1; [exact Hbody | apply Hhandler].
Qed.

Lemma keeps_for_each {X : Type} (xs : list X) (body : X -> M St unit) :
  (forall x, keeps R (body x)) -> keeps R (for_each xs body).
Proof.
  intros Hbody. induction xs as [| x xs IH]; simpl.
  - apply keeps_ret.
  - apply keeps_bind; [apply Hbody | intros _; exact IH].
Qed.

Lemma keeps_for_enumerate {X : Type} (xs : list X)
    (body : nat -> X -> M St unit) :
  (forall i x, keeps R (body i x)) ->
  forall i, keeps R (for_enumerate i xs body).
Proof.
  intros Hbody. induction xs as [| x xs IH]; intros i; simpl.
  - apply keeps_ret.
  - apply keeps_bind; [apply Hbody | intros _; apply IH].
Qed.

End Keeping.

(* ================================================================== *)
(** * What every stretch of a run keeps *)
(* ================================================================== *)

Lemma found_total_app (a b : list Event) :
  found_total (a ++ b) = (found_total a + found_total b)%nat.
Proof. unfold found_total. now rewrite map_app, list_sum_app. Qed.

Lemma provider_calls_app (a b : list Event) :
  provider_calls (a ++ b) = (provider_calls a + provider_calls b)%nat.
Proof. unfold provider_calls. now rewrite filter_app, length_app. Qed.

Lemma quiet_asked_about (q : str) (evs : list Event) :
  quiet evs -> Forall (asked_about q) evs.
Proof.
  apply Forall_impl. intros ev H. destruct ev; simpl in *; auto; destruct H.
Qed.

Lemma advanced_nothing (ctx : ResearchContext) : advanced ctx [] [] 0 = ctx.
Proof.
  destruct ctx. unfold advanced. simpl.
  now rewrite !app_nil_r, Z.add_0_r.
Qed.

Lemma advanced_advanced (ctx : ResearchContext) (rs rs' : list SearchResult)
    (fs fs' : list str) (k k' : nat) :
  advanced (advanced ctx rs fs k) rs' fs' k' =
  advanced ctx (rs ++ rs') (fs ++ fs') (k + k').
Proof.
  unfold advanced. simpl. rewrite !app_assoc, Nat2Z.inj_add, Z.add_assoc.
  reflexivity.
Qed.

(** What the structuring loop builds is well formed: the content is cut at
    2000 code points and the score lies between 0.1 and 1. *)
Lemma structured_at_well_formed (i : nat) (result : ExaResult)
    (r : SearchResult) :
  structured_at i result r -> well_formed_result r.
Proof.
  intros (_ & _ & Hc & Hscore & _). unfold well_formed_result.
  rewrite Hc, Hscore. split; [| split].
  - unfold take. rewrite length_firstn. apply Nat.le_min_l.
  - apply py_max_floor.
  - pose proof (position_score_in_range i) as H.
    apply andb_true_iff in H. apply H.
Qed.

Lemma structured_from_well_formed (i : nat) (results : list ExaResult)
    (rs : list SearchResult) :
  structured_from i results rs -> Forall well_formed_result rs.
Proof.
  induction 1 as [| i result results r rs Hat _ IH]; constructor;
    [exact (structured_at_well_formed Hat) | exact IH].
Qed.

Section AdvanceFacts.

Variable World : Type.
Variable P : Platform World.

Lemma advances_refl (s : State World) : advances s s.
Proof.
  exists [], [], [], 0%nat, (world s).
  rewrite advanced_nothing, moved_nowhere.
  repeat split; constructor.
Qed.

Lemma settled_advanced (q : str) (ctx : ResearchContext)
    (rs : list SearchResult) (fs : list str) (k : nat) :
  settled q ctx -> Forall well_formed_result rs -> Forall single_line fs ->
  settled q (advanced ctx rs fs k).
Proof.
  intros (Hq & Hu & Hh & Hf) Hrs Hfs. unfold settled, advanced. simpl.
  split; [exact Hq |]. split; [exact Hu |].
  split; apply Forall_app; now split.
Qed.

Lemma advances_trans (s s1 s2 : State World) :
  advances s s1 -> advances s1 s2 -> advances s s2.
Proof.
  intros (rs & fs & evs & k & w & -> & Hrs & Hfs & Hfound & Hasked)
         (rs' & fs' & evs' & k' & w' & -> & Hrs' & Hfs' & Hfound' & Hasked').
  exists (rs ++ rs'), (fs ++ fs'), (evs ++ evs'), (k + k')%nat, w'.
  rewrite moved_moved. cbn [moved context] in *.
  rewrite advanced_advanced.
  split; [reflexivity |].
  split; [apply Forall_app; now split |].
  split; [apply Forall_app; now split |].
  split; [rewrite found_total_app, length_app; lia |].
  intros q Hq. apply Forall_app. split; [now apply Hasked |].
  apply Hasked'. now apply settled_advanced.
Qed.

(** Events alone advance a state when they hold no ["Found"] line and
    their model calls are about the query. *)
Lemma advances_observed (s : State World) (w : World) (evs : list Event) :
  found_total evs = 0%nat ->
  (forall q, settled q (context s) -> Forall (asked_about q) evs) ->
  advances s (observed s w evs).
Proof.
  intros Hfound Hasked. exists [], [], evs, 0%nat, w.
  rewrite advanced_nothing.
  split; [reflexivity |]. repeat split; try constructor; assumption.
Qed.

Lemma print_advances (m : Message) :
  found_count (Printed m) = 0%nat -> keeps (@advances World) (@print World m).
Proof.
  intros Hm s.
  change (snd (print m s)) with (observed s (world s) [Printed m]).
  apply advances_observed.
  - change (found_total [Printed m]) with (found_count (Printed m) + 0)%nat.
    lia.
  - intros q _. repeat constructor.
Qed.

Lemma get_context_advances : keeps (@advances World) (@get_context World).
Proof. intros s. apply advances_refl. Qed.

Lemma increment_advances :
  keeps (@advances World) (@increment_search_iterations World).
Proof.
  intros s. exists [], [], [], 1%nat, (world s).
  split; [| repeat split; constructor].
  unfold increment_search_iterations, bind, get_context, put_context, moved,
    advanced. simpl. now rewrite !app_nil_r.
Qed.

Lemma plan_searches_advances : keeps (@advances World) (plan_searches P).
Proof.
  intros s. unfold plan_searches, bind, get_context, external.
  destruct (llm_plan_searches P (context s) (world s)) as [r w].
  change (snd (r, _)) with (observed s w [PlannerCalled (context s)]).
  apply advances_observed; [reflexivity |].
  intros q Hq. constructor; [exact Hq | constructor].
Qed.

Lemma execute_search_advances (plan : SearchPlan) :
  keeps (@advances World) (execute_search P plan).
Proof.
  intros s. unfold execute_search, bind, get_context, external.
  destruct (llm_execute_search P plan (context s) (world s)) as [r w].
  change (snd (r, _)) with (observed s w [ExecutorCalled plan (context s)]).
  apply advances_observed; [reflexivity |].
  intros q Hq. constructor; [exact Hq | constructor].
Qed.

(** The search wrapper: no ["Found"] line, and results that are well
    formed. *)
Lemma get_search_results_well_formed (q : str) (n : Z) (a : bool)
    (s : State World) :
  exists rs w evs,
    get_search_results P q n a s = (Ok rs, observed s w evs) /\
    quiet evs /\ found_total evs = 0%nat /\
    Forall well_formed_result rs.
Proof.
  pose proof (get_search_results_cases P q n a s) as H. simpl in H.
  destruct (exa_Exa P (world s) _) as [[] | e0].
  - destruct (exa_search_and_contents P _ q n a (world s))
      as [[results | e] w].
    + destruct H as [(rs & Hrs & ->) | (e & ->)].
      * exists rs, w. eexists. split; [reflexivity |].
        split; [repeat constructor |]. split; [reflexivity |].
        exact (structured_from_well_formed Hrs).
      * exists [], w. eexists. split; [reflexivity |].
        split; [repeat constructor |]. repeat split. constructor.
    + rewrite H. exists [], w. eexists. split; [reflexivity |].
      split; [repeat constructor |]. repeat split. constructor.
  - rewrite H. exists [], (world s). eexists. split; [reflexivity |].
    split; [repeat constructor |]. repeat split. constructor.
Qed.

Lemma process_tool_advances (plan : SearchPlan) (tool : Tool) :
  keeps (@advances World) (process_tool P plan tool).
Proof.
  intros s. destruct tool as [q n a | e].
  - destruct (get_search_results_well_formed q n a s)
      as (rs & w & evs & Hget & Hq & Hfound & Hrs).
    rewrite (process_tool_search P plan _ _ _ _ Hget).
    exists (List.map (fun r => set_search_intent r (intent plan)) rs), [].
    exists (evs ++ [Printed (FoundResults (List.length rs))]), 0%nat, w.
    split; [| split; [| split; [| split]]].
    + cbn [snd]. rewrite observed_moved, moved_moved.
      unfold moved, advanced, with_results. cbn [context world trace].
      now rewrite app_nil_r, Z.add_0_r.
    + apply Forall_map. revert Hrs. apply Forall_impl.
      intros r Hr. exact Hr.
    + constructor.
    + rewrite found_total_app, Hfound, length_map. unfold found_total.
      simpl. lia.
    + intros question _. apply Forall_app. split.
      * now apply quiet_asked_about.
      * repeat constructor.
  - rewrite process_tool_faulty. apply advances_observed; [reflexivity |].
    intros q _. repeat constructor.
Qed.

Lemma process_tools_advances (plan : SearchPlan)
    (search_result : CallResponse) :
  keeps (@advances World) (process_tools P plan search_result).
Proof.
  intros s. destruct (tools search_result) as [built | e] eqn:Hbuilt.
  - rewrite (process_tools_built P plan _ s Hbuilt).
    apply keeps_for_each;
      [exact advances_refl | exact advances_trans |].
    intros tool. apply process_tool_advances.
  - rewrite (process_tools_unbuilt P plan _ s Hbuilt). apply advances_refl.
Qed.

Lemma extract_from_analysis_advances (text : str) :
  keeps (@advances World) (extract_from_analysis P text).
Proof.
  intros s. rewrite extract_from_analysis_eq.
  exists [].
  exists (findings_of (isspace P)
            (selected_finding_line (isspace P) (lower P)) text).
  exists [], 0%nat, (world s).
  split; [| split; [| split; [| split]]].
  - cbn [snd]. unfold moved, advanced, with_findings. cbn [context].
    now rewrite !app_nil_r, Z.add_0_r.
  - constructor.
  - apply findings_of_single_line.
  - reflexivity.
  - intros q _. constructor.
Qed.

End AdvanceFacts.

Section LoopAdvances.

Variable World : Type.
Variable P : Platform World.

(** One step of a proof that a computation advances the state: through a
    sequence, a handler or a loop, down to the calls treated above. *)
Ltac advance_step :=
  lazymatch goal with
  | |- keeps _ (bind _ _) =>
      apply keeps_bind; [exact (@advances_trans World) | | intros ?]
  | |- keeps _ (try_except _ _) =>
      apply keeps_try_except; [exact (@advances_trans World) | | intros ?]
  | |- keeps _ (ret _) => apply keeps_ret; exact (@advances_refl World)
  | |- keeps _ (print _) => apply print_advances; reflexivity
  | |- keeps _ (@get_context _) => apply get_context_advances
  | |- keeps _ (@increment_search_iterations _) => apply increment_advances
  | |- keeps _ (plan_searches _) => apply plan_searches_advances
  | |- keeps _ (execute_search _ _) => apply execute_search_advances
  | |- keeps _ (process_tools _ _ _) => apply process_tools_advances
  | |- keeps _ (extract_from_analysis _ _) =>
      apply extract_from_analysis_advances
  end.

Lemma execute_plan_advances (i : nat) (plan : SearchPlan) :
  keeps (@advances World) (execute_plan P i plan).
Proof. unfold execute_plan. repeat advance_step. Qed.

Lemma plan_and_execute_advances :
  keeps (@advances World) (plan_and_execute P).
Proof.
  unfold plan_and_execute. repeat advance_step.
  apply keeps_for_enumerate;
    [exact (@advances_refl World) | exact (@advances_trans World) |].
  intros i plan. apply execute_plan_advances.
Qed.

Lemma research_iteration_advances :
  keeps (@advances World) (research_iteration P).
Proof.
  unfold research_iteration. repeat advance_step.
  - apply plan_and_execute_advances.
  - match goal with failed : bool |- _ => destruct failed end;
      repeat advance_step.
    match goal with
    | |- context [enough_information ?ctx] =>
        destruct (enough_information ctx)
    end; repeat advance_step.
Qed.

Lemma research_loop_advances (max_iterations : Z) (fuel : nat) :
  keeps (@advances World) (research_loop P fuel max_iterations).
Proof.
  induction fuel as [| fuel IH]; intros s; rewrite research_loop_unroll;
    destruct (search_iterations (context s) <? max_iterations)%Z;
    try apply advances_refl.
  pose proof (research_iteration_advances s) as Hiter.
  destruct (research_iteration P s) as [[[] | e] s1]; cbn [snd] in *;
    try exact Hiter.
  exact (advances_trans Hiter (IH s1)).
Qed.

(** Every run, in outline: the loop returns, the state it leaves is the
    start of the loop advanced, and the rest is the synthesizer's. *)
Lemma run_outline (question : str) (max_iterations : Z) (w : World) :
  exists exit s,
    research_loop P (Z.to_nat max_iterations) max_iterations
      (ready question w) = (Ok exit, s) /\
    advances (ready question w) s /\
    match llm_synthesize_research P (context s) (world s) with
    | (Ok report, w') =>
        run_deep_research_agent P question max_iterations (start w) =
        (Ok {| final_report := report; research_context := context s;
               iterations := search_iterations (context s) |},
         observed s w' (synthesis_events (context s) ++
                        closing_events (context s)))
    | (Raise e, w') =>
        run_deep_research_agent P question max_iterations (start w) =
        (Raise e, observed s w' (synthesis_events (context s)))
    end.
Proof.
  destruct (research_loop_grows P max_iterations (Z.to_nat max_iterations)
              (ready question w)) as (exit & g & s & Hloop & _).
  exists exit, s. split; [exact Hloop |]. split.
  - pose proof (research_loop_advances max_iterations
                  (Z.to_nat max_iterations) (ready question w)) as H.
    now rewrite Hloop in H.
  - exact (run_cases P question max_iterations w Hloop).
Qed.

End LoopAdvances.

Section RunAdvances.

Variable World : Type.
Variable P : Platform World.

(** Every run, from its end: what was observed between the banner and the
    synthesis, and the context the run ends with. *)
Lemma run_final (question : str) (max_iterations : Z) (w : World) :
  let out := run_deep_research_agent P question max_iterations (start w) in
  let final := snd out in
  exists evs tail,
    trace final =
      trace (ready question w) ++ evs ++
      synthesis_events (context final) ++ tail /\
    settled question (context final) /\
    Forall (asked_about question) evs /\
    found_total evs = List.length (search_history (context final)) /\
    synthesized_contexts evs = [] /\
    search_iterations (context final) = Z.of_nat (planning_rounds evs) /\
    match fst out with
    | Ok result =>
        tail = closing_events (context final) /\
        research_context result = context final /\
        iterations result = search_iterations (context final)
    | Raise _ => tail = []
    end.
Proof.
  intros out final.
  destruct (run_outline P question max_iterations w)
    as (exit & s & Hloop & Hadv & Hrun).
  destruct (research_loop_grows P max_iterations (Z.to_nat max_iterations)
              (ready question w))
    as (exit' & g & s' & Hloop' & Hg & Hsound & Hp & _).
  rewrite Hloop in Hloop'. injection Hloop' as <- <-.
  destruct Hadv as (rs & fs & evs & k & w1 & Hs & Hrs & Hfs & Hfound & Hasked).
  destruct Hg as [w2 Hs2].
  assert (Hseen : seen g = evs).
  { pose proof (f_equal (@trace World) Hs) as H1.
    rewrite Hs2 in H1. cbn [moved trace] in H1.
    exact (app_inv_head _ _ _ H1). }
  assert (Hk : rounds g = k).
  { pose proof (f_equal (fun x => search_iterations (context x)) Hs) as H1.
    rewrite Hs2 in H1.
    cbn [moved context grown advanced search_iterations] in H1. lia. }
  assert (Hsettled : settled question (context s)).
  { rewrite Hs. cbn [moved context]. apply settled_advanced; auto.
    repeat split; constructor. }
  assert (Hfinal : context final = context s /\
                   exists tail,
                     trace final = trace s ++ synthesis_events (context s) ++ tail /\
                     match fst out with
                     | Ok result =>
                         tail = closing_events (context s) /\
                         research_context result = context s /\
                         iterations result = search_iterations (context s)
                     | Raise _ => tail = []
                     end).
  { unfold final, out.
    destruct (llm_synthesize_research P (context s) (world s))
      as [[report | e] w']; rewrite Hrun; cbn [fst snd observed context trace].
    - split; [reflexivity |]. eexists. split; [reflexivity |]. now split.
    - split; [reflexivity |]. exists []. now rewrite app_nil_r. }
  destruct Hfinal as (Hctx & tail & Htrace & Hout).
  exists evs, tail. rewrite Hctx.
  split; [| split; [exact Hsettled | split; [| split; [| split; [| split]]]]].
  - rewrite Htrace, Hs. cbn [moved trace]. now rewrite <- app_assoc.
  - apply Hasked. repeat split; constructor.
  - rewrite Hfound, Hs. reflexivity.
  - rewrite <- Hseen. apply Hsound.
  - rewrite <- Hseen, Hp, Hk, Hs. reflexivity.
  - exact Hout.
Qed.

(** Every model call of a run is made on a settled context. *)
Lemma run_calls_settled (question : str) (max_iterations : Z) (w : World) :
  Forall (asked_about question)
    (trace (snd (run_deep_research_agent P question max_iterations
                   (start w)))).
Proof.
  destruct (run_final question max_iterations w)
    as (evs & tail & Htrace & Hsettled & Hasked & _ & _ & _ & Hout).
  rewrite Htrace. apply Forall_app. split; [repeat constructor |].
  apply Forall_app. split; [exact Hasked |].
  apply Forall_app. split.
  { unfold synthesis_events. constructor; [exact I |].
    constructor; [exact I |]. constructor; [exact Hsettled | constructor]. }
  destruct (fst _); [destruct Hout as [-> _] | subst tail];
    repeat constructor.
Qed.

End RunAdvances.

(* ================================================================== *)
(** * The search wrapper, all or nothing *)
(* ================================================================== *)

Lemma structured_from_fields (i : nat) (results : list ExaResult)
    (rs : list SearchResult) :
  structured_from i results rs ->
  List.map res_title results = List.map (fun r => Some (title r)) rs /\
  List.map url rs = List.map res_url results /\
  List.map content rs = List.map (fun x => take 2000 (res_text x)) results /\
  Forall (fun r => search_intent r = INITIAL_EXPLORATION) rs.
Proof.
  induction 1 as [| i result results r rs (Ht & Hu & Hc & _ & Hi) _
                   (IHt & IHu & IHc & IHi)]; simpl.
  - repeat split; constructor.
  - rewrite Ht, Hu, Hc, IHt, IHu, IHc. repeat split. now constructor.
Qed.

(** X1. [get_search_results] never touches the research context and calls
    the provider at most once. When the client cannot be built from the
    key read from the environment, nothing is sent to the provider: the
    refusal is printed and the empty list returned. When the client is
    built, the provider is called exactly once, with the arguments
    [get_search_results] was given, and the answer is returned all or
    nothing: either the empty list, with the error printed, or one result
    for every item of the provider's answer, in order, with the item's
    title and URL, the first 2000 code points of its text, and the
    placeholder intent [INITIAL_EXPLORATION]. *)
Theorem search_is_all_or_nothing (World : Type) (P : Platform World)
    (q : str) (n : Z) (a : bool) (s : State World) :
  let api_key := os_getenv P (world s) (lit "EXA_API_KEY") in
  let call := ProviderCalled api_key q n a in
  let answer := exa_search_and_contents P api_key q n a (world s) in
  let out := get_search_results P q n a s in
  context (snd out) = context s /\
  (provider_calls (trace (snd out)) <= S (provider_calls (trace s)))%nat /\
  match exa_Exa P (world s) api_key with
  | Raise e =>
      out = (Ok [], observed s (world s) [Printed (ErrorInSearch e)]) /\
      provider_calls (trace (snd out)) = provider_calls (trace s)
  | Ok _ =>
      world (snd out) = snd answer /\
      provider_calls (trace (snd out)) = S (provider_calls (trace s)) /\
      exists rs,
        fst out = Ok rs /\
        ((rs = [] /\
          exists e,
            trace (snd out) = trace s ++ [call; Printed (ErrorInSearch e)])
         \/
         (trace (snd out) = trace s ++ [call] /\
          exists results,
            fst answer = Ok results /\
            List.length rs = List.length results /\
            List.map res_title results =
              List.map (fun r => Some (title r)) rs /\
            List.map url rs = List.map res_url results /\
            List.map content rs =
              List.map (fun x => take 2000 (res_text x)) results /\
            Forall (fun r => search_intent r = INITIAL_EXPLORATION) rs))
  end.
Proof.
  intros api_key call answer out.
  pose proof (get_search_results_cases P q n a s) as H. simpl in H.
  fold api_key in H. fold call in H. fold answer in H. fold out in H.
  assert (H1 : provider_calls [call] = 1%nat) by reflexivity.
  assert (H2 : forall e, provider_calls [call; Printed (ErrorInSearch e)]
                         = 1%nat) by reflexivity.
  assert (H3 : forall e, provider_calls [Printed (ErrorInSearch e)] = 0%nat)
    by reflexivity.
  destruct (exa_Exa P (world s) api_key) as [[] | e0].
  - destruct answer as [[results | e] w] eqn:Hanswer.
    + destruct H as [(rs & Hrs & H) | (e & H)]; rewrite H;
        cbn [fst snd observed context world trace].
      * split; [reflexivity |].
        split; [rewrite provider_calls_app, ?H1, ?H2; lia |].
        split; [reflexivity |].
        split; [rewrite provider_calls_app, ?H1, ?H2; lia |].
        exists rs. split; [reflexivity |]. right.
        split; [reflexivity |]. exists results.
        split; [reflexivity |].
        split; [exact (structured_from_length Hrs) |].
        exact (structured_from_fields Hrs).
      * split; [reflexivity |].
        split; [rewrite provider_calls_app, ?H1, ?H2; lia |].
        split; [reflexivity |].
        split; [rewrite provider_calls_app, ?H1, ?H2; lia |].
        exists []. split; [reflexivity |]. left. split; [reflexivity |].
        now exists e.
    + rewrite H. cbn [fst snd observed context world trace].
      split; [reflexivity |].
      split; [rewrite provider_calls_app, ?H1, ?H2; lia |].
      split; [reflexivity |].
      split; [rewrite provider_calls_app, ?H1, ?H2; lia |].
      exists []. split; [reflexivity |]. left. split; [reflexivity |].
      now exists e.
  - rewrite H. cbn [fst snd observed context world trace].
    split; [reflexivity |].
    split; [rewrite provider_calls_app, H3; lia |].
    split; [reflexivity |]. rewrite provider_calls_app, H3. lia.
Qed.

(* ================================================================== *)
(** * What a run keeps of its context *)
(* ================================================================== *)

(** X2. At the end of every run, every result of [search_history] has a
    content of at most 2000 code points and a relevance score between 0.1
    and 1, whatever the provider returned and whatever intent the agent
    wrote over the placeholder. *)
Theorem stored_results_are_well_formed (World : Type) (P : Platform World)
    (question : str) (max_iterations : Z) (w : World) :
  let final :=
    snd (run_deep_research_agent P question max_iterations (start w)) in
  Forall (fun r =>
            (List.length (content r) <= 2000)%nat /\
            PrimFloat.leb tenth (relevance_score r) = true /\
            PrimFloat.leb (relevance_score r) 1 = true)
    (search_history (context final)).
Proof.
  intros final.
  destruct (run_final P question max_iterations w)
    as (evs & tail & _ & (_ & _ & Hh & _) & _).
  exact Hh.
Qed.

(** The planner's prompt on a settled context. *)
Lemma settled_planner_fields (format_intent : SearchIntent -> str)
    (today q : str) (ctx : ResearchContext) :
  settled q ctx ->
  pf_original_query (plan_searches_fields format_intent today ctx) = q /\
  pf_unanswered_questions (plan_searches_fields format_intent today ctx) =
    lit "None identified".
Proof.
  intros (Hq & Hu & _). unfold plan_searches_fields. simpl.
  now rewrite Hq, Hu.
Qed.

(** X3. The question of a run is never rewritten and no unanswered
    question is ever recorded: every call of the planner, the executor and
    the synthesizer is made on a context whose query is the run's question
    and whose list of unanswered questions is empty, and so is the context
    the run ends with. The planner's prompt therefore always shows
    ["None identified"] for the unanswered questions. *)
Theorem no_question_is_ever_left_unanswered (World : Type)
    (P : Platform World) (question : str) (max_iterations : Z) (w : World) :
  let final :=
    snd (run_deep_research_agent P question max_iterations (start w)) in
  query (context final) = question /\
  unanswered_questions (context final) = [] /\
  Forall (fun ev =>
            match ev with
            | PlannerCalled ctx | ExecutorCalled _ ctx
            | SynthesizerCalled ctx =>
                query ctx = question /\ unanswered_questions ctx = []
            | _ => True
            end) (trace final) /\
  Forall (fun ev =>
            match ev with
            | PlannerCalled ctx =>
                forall format_intent today,
                  pf_unanswered_questions
                    (plan_searches_fields format_intent today ctx) =
                  lit "None identified"
            | _ => True
            end) (trace final).
Proof.
  intros final.
  destruct (run_final P question max_iterations w)
    as (evs & tail & _ & Hsettled & _).
  pose proof (run_calls_settled P question max_iterations w) as Hall.
  fold final in Hsettled, Hall.
  split; [apply Hsettled |]. split; [apply Hsettled |].
  split; revert Hall; apply Forall_impl; intros ev Hev;
    destruct ev; simpl in *; auto.
  - split; apply Hev.
  - split; apply Hev.
  - split; apply Hev.
  - intros format_intent today.
    destruct Hev as (_ & -> & _). reflexivity.
Qed.

(** X4. The ["Found n results"] lines of a run add up to the length of
    [search_history]; so the ["Total Searches"] line that closes a run
    which returns shows the sum of those lines, the number of results
    stored and not of searches made, next to the number of planning
    rounds and of key findings. *)
Theorem found_lines_add_up (World : Type) (P : Platform World)
    (question : str) (max_iterations : Z) (w : World) :
  let out := run_deep_research_agent P question max_iterations (start w) in
  let final := snd out in
  found_total (trace final) = List.length (search_history (context final)) /\
  match fst out with
  | Ok _ =>
      exists before,
        trace final =
        before ++
        [Printed Separator; Printed ResearchComplete;
         Printed (TotalIterations (Z.of_nat (planning_rounds (trace final))));
         Printed (TotalSearches (found_total (trace final)));
         Printed (KeyFindings (List.length (key_findings (context final))))]
  | Raise _ =>
      exists before,
        trace final = before ++ [SynthesizerCalled (context final)]
  end.
Proof.
  intros out final. subst final out.
  destruct (run_final P question max_iterations w)
    as (evs & tail & Htrace & _ & _ & Hfound & _ & Hk & Hout).
  set (out := run_deep_research_agent P question max_iterations (start w))
    in *.
  set (final := snd out) in *.
  assert (Htail : found_total tail = 0%nat /\ planning_rounds tail = 0%nat).
  { destruct (fst out); [destruct Hout as [-> _] | subst tail];
      split; reflexivity. }
  assert (Htotal : found_total (trace final) =
                   List.length (search_history (context final))).
  { rewrite Htrace, !found_total_app, Hfound.
    destruct Htail as [-> _]. simpl. lia. }
  assert (Hrounds : search_iterations (context final) =
                    Z.of_nat (planning_rounds (trace final))).
  { rewrite Hk, Htrace, !planning_rounds_app.
    destruct Htail as [_ ->]. simpl. f_equal. lia. }
  split; [exact Htotal |].
  destruct (fst out).
  - destruct Hout as (-> & _). rewrite Htotal, <- Hrounds.
    eexists. rewrite Htrace at 1. rewrite !app_assoc. reflexivity.
  - subst tail. eexists. rewrite Htrace at 1.
    unfold synthesis_events.
    change [Printed Synthesizing; Printed (debug_line (context final));
            SynthesizerCalled (context final)]
      with ([Printed Synthesizing; Printed (debug_line (context final))] ++
            [SynthesizerCalled (context final)]).
    rewrite app_nil_r, !app_assoc. reflexivity.
Qed.

(* ================================================================== *)
(** * The plans of a round *)
(* ================================================================== *)

Section RoundFacts.

Variable World : Type.
Variable P : Platform World.

(** The loop over the plans hands a prefix of them to the executor, in
    order: all of them when it returns. *)
Lemma for_enumerate_prefix (plans : list SearchPlan) :
  forall (i : nat) (s : State World),
  exists evs rest,
    trace (snd (for_enumerate i plans (execute_plan P) s)) = trace s ++ evs /\
    planning_rounds evs = 0%nat /\
    plans = executed_plans evs ++ rest /\
    (fst (for_enumerate i plans (execute_plan P) s) = Ok tt -> rest = []).
Proof.
  induction plans as [| plan plans IH]; intros i s.
  - exists [], []. simpl. now rewrite app_nil_r.
  - simpl. unfold bind.
    destruct (execute_plan_grows P i plan s)
      as (o & g & s1 & -> & [w Hs1] & (Hexec & _) & _ & Hp & rs & Hseg).
    rewrite Hseg in Hexec. simpl in Hexec.
    assert (Htrace : trace s1 = trace s ++ seen g) by now rewrite Hs1.
    clear Hs1.
    destruct o as [[] | e].
    + destruct (IH (S i) s1) as (evs & rest & Ht & Hp' & Hplans & Hok).
      exists (seen g ++ evs), rest.
      rewrite Ht, Htrace, planning_rounds_app, executed_plans_app, Hexec, Hp,
        Hp', <- app_assoc.
      simpl. repeat split; [now f_equal | exact Hok].
    + exists (seen g), plans. rewrite Hexec. cbn [snd fst].
      repeat split; [exact Htrace | exact Hp | discriminate].
Qed.

(** The loop hands the executor at most two plans for each call of the
    planner. *)
Lemma research_loop_plan_bound (max_iterations : Z) (fuel : nat) :
  forall s : State World,
  exists evs,
    trace (snd (research_loop P fuel max_iterations s)) = trace s ++ evs /\
    (List.length (executed_plans evs) <= 2 * planning_rounds evs)%nat.
Proof.
  induction fuel as [| fuel IH]; intros s; rewrite research_loop_unroll;
    destruct (search_iterations (context s) <? max_iterations)%Z;
    try (exists []; simpl; rewrite app_nil_r; split; [reflexivity | lia]).
  destruct (research_iteration_grows P s)
    as (control & g & s1 & -> & [w Hs1] & (Hexec & _) & _ & Hp & Hl & _).
  assert (Hbound : (List.length (executed_plans (seen g)) <=
                    2 * planning_rounds (seen g))%nat)
    by (rewrite Hexec, length_map, Hp; lia).
  assert (Htrace : trace s1 = trace s ++ seen g) by now rewrite Hs1.
  destruct control; cbn [snd]; try (exists (seen g); now split).
  destruct (IH s1) as (evs & Ht & Hb).
  exists (seen g ++ evs). rewrite Ht, Htrace, <- app_assoc.
  split; [reflexivity |].
  rewrite executed_plans_app, planning_rounds_app, length_app. lia.
Qed.

End RoundFacts.

(** X5. Of the plans the planner returns in an iteration, only the first
    two are ever used: the iteration makes one call of the planner and
    hands the executor a prefix of the first two plans, in order, the whole
    of it unless the iteration ended in the planning-error [break]; a
    planner that raises leaves no plan to execute. Over a whole run the
    executor is therefore called at most twice per planning round. *)
Theorem a_round_executes_at_most_two_plans (World : Type)
    (P : Platform World) :
  (forall s : State World,
     let out := research_iteration P s in
     exists evs,
       trace (snd out) = trace s ++ evs /\
       planning_rounds evs = 1%nat /\
       match fst (llm_plan_searches P (context (entered s)) (world s)) with
       | Ok search_plans =>
           exists rest,
             firstn 2 search_plans = executed_plans evs ++ rest /\
             (fst out <> Ok BreakOnError -> rest = [])
       | Raise _ => executed_plans evs = [] /\ fst out = Ok BreakOnError
       end) /\
  (forall question max_iterations (w : World),
     let final :=
       snd (run_deep_research_agent P question max_iterations (start w)) in
     (List.length (executed_plans (trace final)) <=
      2 * planning_rounds (trace final))%nat).
Proof.
  split.
  - intros s out. subst out.
    pose proof (research_iteration_cases P s) as Hiter.
    pose proof (plan_and_execute_cases P (entered s)) as Hbody.
    change (world (entered s)) with (world s) in Hbody.
    set (first_line :=
           Printed (ResearchIteration (search_iterations (context s) + 1))).
    assert (Hentered : trace (entered s) = trace s ++ [first_line])
      by reflexivity.
    destruct (llm_plan_searches P (context (entered s)) (world s))
      as [[search_plans | e] w1]; cbn [fst].
    + set (s1 := observed (entered s) w1
                   [PlannerCalled (context (entered s));
                    Printed (GeneratedPlans (List.length search_plans))])
        in *.
      destruct (for_enumerate_prefix P (firstn 2 search_plans) 0 s1)
        as (evs & rest & Ht & Hp & Hplans & Hok).
      rewrite <- Hbody in Ht, Hok.
      destruct (plan_and_execute P (entered s)) as [[[] | e] s2];
        cbn [fst snd] in *.
      * assert (Hs2 : trace s2 =
                      trace s ++ first_line ::
                        PlannerCalled (context (entered s)) ::
                        Printed (GeneratedPlans (List.length search_plans)) ::
                        evs).
        { rewrite Ht. unfold s1. cbn [observed trace].
          rewrite Hentered, <- !app_assoc. reflexivity. }
        rewrite (Hok eq_refl), app_nil_r in Hplans.
        destruct (enough_information (context s2)); rewrite Hiter;
          cbn [fst snd observed trace]; rewrite Hs2.
        -- eexists. rewrite <- app_assoc. split; [reflexivity |].
           cbn [app]. split.
           ++ change (planning_rounds (first_line :: PlannerCalled _ :: Printed _ :: ?l))
                 with (S (planning_rounds l)).
              rewrite planning_rounds_app, Hp. reflexivity.
           ++ exists []. split; [| reflexivity].
              change (executed_plans (first_line :: PlannerCalled _ :: Printed _ :: ?l))
                with (executed_plans l).
              rewrite executed_plans_app, !app_nil_r. exact Hplans.
        -- eexists. split; [reflexivity |]. split.
           ++ change (planning_rounds (first_line :: PlannerCalled _ :: Printed _ :: ?l))
                 with (S (planning_rounds l)).
              now rewrite Hp.
           ++ exists []. split; [| reflexivity].
              rewrite app_nil_r. exact Hplans.
      * rewrite Hiter. cbn [fst snd observed trace].
        rewrite Ht. unfold s1. cbn [observed trace].
        rewrite Hentered, <- !app_assoc. eexists. split; [reflexivity |].
        cbn [app]. split.
        -- change (planning_rounds (first_line :: PlannerCalled _ :: Printed _ :: ?l))
             with (S (planning_rounds l)).
           rewrite planning_rounds_app, Hp. reflexivity.
        -- exists rest. split; [| intros H; now elim H].
           change (executed_plans (first_line :: PlannerCalled _ :: Printed _ :: ?l))
             with (executed_plans l).
           rewrite executed_plans_app. simpl. rewrite app_nil_r. exact Hplans.
    + rewrite Hbody in Hiter. rewrite Hiter. cbn [fst snd observed trace].
      rewrite Hentered, <- !app_assoc. eexists. split; [reflexivity |].
      repeat split.
  - intros question max_iterations w final. subst final.
    destruct (run_summary P question max_iterations w)
      as (exit & g & s & w' & tail & Hloop & _ & _ & _ & _ & _ & -> & Hq & _).
    destruct (research_loop_plan_bound P max_iterations
                (Z.to_nat max_iterations) (ready question w))
      as (evs & Ht & Hb).
    rewrite Hloop in Ht. cbn [snd] in Ht.
    cbn [observed trace]. rewrite Ht.
    rewrite !executed_plans_app, !planning_rounds_app, !length_app.
    rewrite (quiet_executed_plans Hq), (quiet_planning_rounds Hq).
    simpl. lia.
Qed.

(* ================================================================== *)
(** * How a run ends *)
(* ================================================================== *)

(** X6. Every run calls the synthesizer exactly once, whatever happened in
    the loop and even when no iteration was made; the call is made on the
    context the run ends with, after every call of the planner and of the
    executor, and no model call follows it. *)
Theorem the_synthesizer_is_called_once_at_the_end (World : Type)
    (P : Platform World) (question : str) (max_iterations : Z) (w : World) :
  let final :=
    snd (run_deep_research_agent P question max_iterations (start w)) in
  synthesized_contexts (trace final) = [context final] /\
  exists before after,
    trace final = before ++ SynthesizerCalled (context final) :: after /\
    synthesized_contexts before = [] /\
    quiet after.
Proof.
  intros final. subst final.
  destruct (run_final P question max_iterations w)
    as (evs & tail & Htrace & _ & _ & _ & Hsynth & _ & Hout).
  set (final := snd (run_deep_research_agent P question max_iterations
                       (start w))) in *.
  assert (Hq : quiet tail).
  { destruct (fst _); [destruct Hout as [-> _] | subst tail];
      repeat constructor. }
  split.
  - rewrite Htrace, !synthesized_contexts_app, Hsynth,
      (quiet_synthesized_contexts Hq).
    reflexivity.
  - exists (trace (ready question w) ++ evs ++
            [Printed Synthesizing; Printed (debug_line (context final))]).
    exists tail. split; [| split; [| exact Hq]].
    + rewrite Htrace. unfold synthesis_events.
      rewrite <- !app_assoc. reflexivity.
    + rewrite !synthesized_contexts_app, Hsynth. reflexivity.
Qed.

(** X7. No exception leaves the loop: an iteration always ends in one of
    its three ways and the loop always returns, whatever the planner, the
    executor, the tools and the provider do. A run therefore raises only
    what the synthesizer's call raises; otherwise it returns the
    synthesizer's report with the final context and its counter. *)
Theorem only_the_synthesizer_can_fail_a_run (World : Type)
    (P : Platform World) :
  (forall s : State World,
     exists control, fst (research_iteration P s) = Ok control) /\
  (forall fuel max_iterations (s : State World),
     exists exit, fst (research_loop P fuel max_iterations s) = Ok exit) /\
  (forall question max_iterations (w : World),
     let out := run_deep_research_agent P question max_iterations (start w) in
     exists w0,
       match llm_synthesize_research P (context (snd out)) w0 with
       | (Ok report, w') =>
           fst out =
           Ok {| final_report := report;
                 research_context := context (snd out);
                 iterations := search_iterations (context (snd out)) |} /\
           world (snd out) = w'
       | (Raise e, w') => fst out = Raise e /\ world (snd out) = w'
       end).
Proof.
  split; [| split].
  - intros s.
    destruct (research_iteration_grows P s) as (control & g & s' & -> & _).
    now exists control.
  - intros fuel max_iterations s.
    destruct (research_loop_grows P max_iterations fuel s)
      as (exit & g & s' & -> & _).
    now exists exit.
  - intros question max_iterations w out. subst out.
    destruct (run_outline P question max_iterations w)
      as (exit & s & _ & _ & Hrun).
    exists (world s).
    destruct (llm_synthesize_research P (context s) (world s))
      as [[report | e] w'] eqn:Hllm; rewrite Hrun;
      cbn [fst snd observed context world]; rewrite Hllm; now split.
Qed.

(** X8. The loop ends in one of three ways, and each says where the
    counter stands: the [while] condition became false, with the counter at
    [max_iterations] or, when the loop was not entered, where it was; the
    planning-error [break], after at least one iteration and at most
    [max_iterations]; or the [break] of the stopping rule, with the counter
    at least 3 and at most [max_iterations] and at least five findings. *)
Theorem the_loop_ends_in_one_of_three_ways (World : Type)
    (P : Platform World) (max_iterations : Z) (s : State World) :
  let out :=
    research_loop P (iterations_left max_iterations (context s))
      max_iterations s in
  let before := search_iterations (context s) in
  let after := search_iterations (context (snd out)) in
  (fst out = Ok ConditionFalse /\ after = Z.max before max_iterations) \/
  (fst out = Ok StoppedOnError /\ (before < after <= max_iterations)%Z) \/
  (fst out = Ok StoppedSufficient /\
   (before < after <= max_iterations)%Z /\ (3 <= after)%Z /\
   (5 <= List.length (key_findings (context (snd out))))%nat).
Proof.
  intros out before after. subst out before after.
  destruct (research_loop_grows P max_iterations
              (iterations_left max_iterations (context s)) s)
    as (exit & g & s' & -> & [w Hs'] & _ & _ & _ & Hleft & Hc & Hs & He & Ho).
  cbn [fst snd].
  assert (Hafter : search_iterations (context s') =
                   (search_iterations (context s) + Z.of_nat (rounds g))%Z)
    by now rewrite Hs'.
  unfold iterations_left in *.
  destruct exit.
  - left. split; [reflexivity |]. specialize (Hc eq_refl). lia.
  - right. left. split; [reflexivity |]. specialize (He eq_refl). lia.
  - right. right. split; [reflexivity |].
    destruct (Hs eq_refl) as [Henough Hpos].
    apply enough_information_spec in Henough. lia.
  - specialize (Ho eq_refl). lia.
Qed.

(** With the planner answering, and the executor answering with tools
    that can be built, the loop never takes the planning-error [break]. *)
Lemma research_loop_no_error (World : Type) (P : Platform World) :
  (forall ctx w, exists plans w',
     llm_plan_searches P ctx w = (Ok plans, w')) ->
  (forall plan ctx w, exists response w' built,
     llm_execute_search P plan ctx w = (Ok response, w') /\
     tools response = Ok built) ->
  forall fuel max_iterations (s : State World),
    fst (research_loop P fuel max_iterations s) <> Ok StoppedOnError.
Proof.
  intros Hplan Hexec fuel max_iterations.
  induction fuel as [| fuel IH]; intros s; rewrite research_loop_unroll;
    destruct (search_iterations (context s) <? max_iterations)%Z;
    try discriminate.
  pose proof (@research_iteration_returns _ P Hplan Hexec s) as Hiter.
  destruct (research_iteration P s) as [[[] | e] s1]; cbn [fst] in *;
    try discriminate; [apply IH | now elim Hiter].
Qed.

(** X9. When the planner answers every call, and the executor answers
    every call with a response whose tools can be built, a run uses every
    iteration it is allowed unless the stopping rule ends it earlier: the
    counter ends at [max(0, max_iterations)], or below [max_iterations]
    with at least 3 iterations made and at least five findings. A run
    allowed at most three iterations always makes them all. *)
Theorem answering_models_use_every_iteration (World : Type)
    (P : Platform World) :
  (forall ctx w, exists plans w',
     llm_plan_searches P ctx w = (Ok plans, w')) ->
  (forall plan ctx w, exists response w' built,
     llm_execute_search P plan ctx w = (Ok response, w') /\
     tools response = Ok built) ->
  forall question max_iterations (w : World),
    let final :=
      snd (run_deep_research_agent P question max_iterations (start w)) in
    let n := search_iterations (context final) in
    (n = Z.max 0 max_iterations \/
     ((3 <= n < max_iterations)%Z /\
      (5 <= List.length (key_findings (context final)))%nat)) /\
    ((max_iterations <= 3)%Z -> n = Z.max 0 max_iterations).
Proof.
  intros Hplan Hexec question max_iterations w final n. subst n final.
  destruct (run_summary P question max_iterations w)
    as (exit & g & s & w' & tail & Hloop & _ & _ & _ & _ & _ & -> & _).
  cbn [observed context].
  pose proof (the_loop_cases := research_loop_grows P max_iterations
                (Z.to_nat max_iterations) (ready question w)).
  destruct the_loop_cases
    as (exit' & g' & s' & Hloop' & [w1 Hs'] & _ & _ & _ & Hleft & Hc & Hs
        & _ & Ho).
  rewrite Hloop in Hloop'. injection Hloop' as <- <-.
  pose proof (@research_loop_no_error _ P Hplan Hexec (Z.to_nat max_iterations)
                max_iterations (ready question w)) as Herr.
  rewrite Hloop in Herr. cbn [fst] in Herr.
  assert (Hafter : search_iterations (context s) = Z.of_nat (rounds g'))
    by now rewrite Hs'.
  unfold iterations_left in *.
  cbn [ready context new_ResearchContext search_iterations] in *.
  destruct exit.
  - specialize (Hc eq_refl). split; [left |]; lia.
  - now elim Herr.
  - destruct (Hs eq_refl) as [Henough Hpos].
    apply enough_information_spec in Henough.
    split; [| lia].
    destruct (Z.eq_dec (search_iterations (context s)) max_iterations);
      [left | right]; lia.
  - specialize (Ho eq_refl). lia.
Qed.

(** Two iterations allowed, every service answering: both are made. *)
Lemma answering_models_use_every_iteration_witness :
  search_iterations
    (context
       (snd (run_deep_research_agent (scripted healthy) (lit "X") 2
               (start 0%nat)))) = 2%Z.
Proof.
  refine (proj2 (@answering_models_use_every_iteration _ (scripted healthy)
                   _ _ (lit "X") 2%Z 0%nat) _).
  - intros ctx w. eexists. eexists. reflexivity.
  - intros plan ctx w. eexists. eexists. eexists. split; reflexivity.
  - lia.
Defined.

(* ================================================================== *)
(** * What the prompts are built from *)
(* ================================================================== *)

(** The findings field of the planner's and of the executor's prompt,
    split at its line breaks. *)
Lemma findings_field_split (fs : list str) :
  Forall single_line fs ->
  split newline (if truthy fs then join [newline] fs else lit "None yet") =
  if truthy fs then fs else [lit "None yet"].
Proof.
  intros Hfs. destruct fs as [| f fs]; [reflexivity |].
  cbn [truthy]. apply split_join; [discriminate | exact Hfs].
Qed.

(** X10. The key findings can be read back from every prompt of a run:
    each stored finding is a single line, so the findings field of the
    planner's and of the executor's prompt, split at its line breaks, is
    the list of findings, or the one line ["None yet"] when there is none;
    the synthesizer's field has no such fallback, and splits into one empty
    line when there is no finding. *)
Theorem findings_can_be_read_back_from_the_prompts (World : Type)
    (P : Platform World) (question : str) (max_iterations : Z) (w : World) :
  let final :=
    snd (run_deep_research_agent P question max_iterations (start w)) in
  Forall (fun ev =>
            match ev with
            | PlannerCalled ctx =>
                forall format_intent today,
                  split newline
                    (pf_key_findings
                       (plan_searches_fields format_intent today ctx)) =
                  if truthy (key_findings ctx) then key_findings ctx
                  else [lit "None yet"]
            | ExecutorCalled plan ctx =>
                forall today,
                  split newline
                    (ef_key_findings (execute_search_fields today plan ctx)) =
                  if truthy (key_findings ctx) then key_findings ctx
                  else [lit "None yet"]
            | SynthesizerCalled ctx =>
                split newline
                  (sf_key_findings (synthesize_research_fields ctx)) =
                if truthy (key_findings ctx) then key_findings ctx else [[]]
            | _ => True
            end) (trace final) /\
  Forall single_line (key_findings (context final)).
Proof.
  intros final. split.
  - pose proof (run_calls_settled P question max_iterations w) as Hall.
    revert Hall. apply Forall_impl. intros ev Hev.
    destruct ev as [m | ctx | plan ctx | k q n a | ctx]; try exact I;
      destruct Hev as (_ & _ & _ & Hfs).
    + intros format_intent today. now apply findings_field_split.
    + intros today. now apply findings_field_split.
    + cbn [synthesize_research_fields sf_key_findings].
      destruct (key_findings ctx) as [| f fs] eqn:E; [reflexivity |].
      cbn [truthy]. apply split_join; [discriminate | exact Hfs].
  - destruct (run_final P question max_iterations w)
      as (evs & tail & _ & (_ & _ & _ & Hfs) & _).
    exact Hfs.
Qed.





(* ================================================================== *)
(** * The context only grows *)
(* ================================================================== *)

(** What a state that advanced has kept. *)
Lemma advances_only_appends (World : Type) (s s' : State World) :
  advances s s' ->
  query (context s') = query (context s) /\
  unanswered_questions (context s') = unanswered_questions (context s) /\
  (exists rs,
     search_history (context s') = search_history (context s) ++ rs) /\
  (exists fs, key_findings (context s') = key_findings (context s) ++ fs) /\
  (search_iterations (context s) <= search_iterations (context s'))%Z /\
  (exists evs, trace s' = trace s ++ evs).
Proof.
  intros (rs & fs & evs & k & w & -> & _). cbn [moved context advanced trace
    query unanswered_questions search_history key_findings search_iterations].
  split; [reflexivity |]. split; [reflexivity |].
  split; [now exists rs |]. split; [now exists fs |].
  split; [lia | now exists evs].
Qed.

(** X12. From any state, and whether they return or raise, one plan's
    execution, one iteration and the whole loop only ever append: the
    history and the findings they leave extend those they found, nothing
    is removed or reordered, the query and the unanswered questions are
    untouched, the counter does not go down, and what was observed is
    kept. *)
Theorem the_context_only_grows (World : Type) (P : Platform World)
    (s : State World) :
  let kept (s' : State World) :=
    query (context s') = query (context s) /\
    unanswered_questions (context s') = unanswered_questions (context s) /\
    (exists rs,
       search_history (context s') = search_history (context s) ++ rs) /\
    (exists fs, key_findings (context s') = key_findings (context s) ++ fs) /\
    (search_iterations (context s) <= search_iterations (context s'))%Z /\
    (exists evs, trace s' = trace s ++ evs) in
  (forall i plan, kept (snd (execute_plan P i plan s))) /\
  kept (snd (research_iteration P s)) /\
  (forall fuel max_iterations,
     kept (snd (research_loop P fuel max_iterations s))).
Proof.
  intros kept. unfold kept. split; [| split].
  - intros i plan. apply advances_only_appends.
    apply execute_plan_advances.
  - apply advances_only_appends. apply research_iteration_advances.
  - intros fuel max_iterations. apply advances_only_appends.
    apply research_loop_advances.
Qed.

(* ================================================================== *)
(** * The counter the models are shown *)
(* ================================================================== *)

Lemma planner_counters_app (a b : list Event) :
  planner_counters (a ++ b) = planner_counters a ++ planner_counters b.
Proof. unfold planner_counters. apply flat_map_app. Qed.

Lemma quiet_called_at (n : Z) (evs : list Event) :
  quiet evs -> Forall (called_at n) evs.
Proof.
  apply Forall_impl. intros ev H. destruct ev; simpl in *; auto; destruct H.
Qed.

Lemma quiet_planner_counters (evs : list Event) :
  quiet evs -> planner_counters evs = [].
Proof.
  induction 1 as [| ev evs Hev _ IH]; [reflexivity |].
  destruct ev; simpl in *; auto; destruct Hev.
Qed.

(** Calls that all saw the counter [n]: the planner saw it once for each
    of its calls. *)
Lemma called_at_planner_counters (n : Z) (evs : list Event) :
  Forall (called_at n) evs ->
  planner_counters evs = List.repeat n (planning_rounds evs).
Proof.
  induction 1 as [| ev evs Hev _ IH]; [reflexivity |].
  destruct ev; simpl in *; try exact IH.
  unfold planning_rounds in *. simpl. now rewrite Hev, IH.
Qed.

Section SteadyFacts.

Variable World : Type.
Variable P : Platform World.

Lemma steady_refl (s : State World) : steady s s.
Proof. exists []. rewrite app_nil_r. repeat split. constructor. Qed.

Lemma steady_trans (s s1 s2 : State World) :
  steady s s1 -> steady s1 s2 -> steady s s2.
Proof.
  intros (evs & Ht & Hn & Hev) (evs' & Ht' & Hn' & Hev').
  exists (evs ++ evs'). rewrite Ht', Ht, Hn', Hn, <- app_assoc.
  repeat split. apply Forall_app. split; [exact Hev |].
  now rewrite <- Hn.
Qed.

Lemma steady_moved (s : State World) (ctx : ResearchContext) (w : World)
    (evs : list Event) :
  search_iterations ctx = search_iterations (context s) ->
  Forall (called_at (search_iterations (context s))) evs ->
  steady s (moved s ctx w evs).
Proof. intros Hn Hev. exists evs. now repeat split. Qed.

Lemma print_steady (m : Message) : keeps (@steady World) (@print World m).
Proof.
  intros s. apply (@steady_moved s (context s) (world s) [Printed m]);
    [reflexivity | repeat constructor].
Qed.

Lemma plan_searches_steady : keeps (@steady World) (plan_searches P).
Proof.
  intros s. unfold plan_searches, bind, get_context, external.
  destruct (llm_plan_searches P (context s) (world s)) as [r w].
  apply (@steady_moved s (context s) w [PlannerCalled (context s)]);
    [reflexivity | repeat constructor].
Qed.

Lemma execute_search_steady (plan : SearchPlan) :
  keeps (@steady World) (execute_search P plan).
Proof.
  intros s. unfold execute_search, bind, get_context, external.
  destruct (llm_execute_search P plan (context s) (world s)) as [r w].
  apply (@steady_moved s (context s) w [ExecutorCalled plan (context s)]);
    [reflexivity | repeat constructor].
Qed.

Lemma process_tools_steady (plan : SearchPlan)
    (search_result : CallResponse) :
  keeps (@steady World) (process_tools P plan search_result).
Proof.
  intros s. destruct (tools search_result) as [built | e] eqn:Hbuilt.
  - destruct (process_tools_summary P plan search_result s Hbuilt)
      as (rs & w & evs & -> & Hq & _).
    apply steady_moved; [reflexivity | now apply quiet_called_at].
  - rewrite (process_tools_unbuilt P plan _ s Hbuilt). apply steady_refl.
Qed.

Lemma extract_from_analysis_steady (text : str) :
  keeps (@steady World) (extract_from_analysis P text).
Proof.
  intros s. rewrite extract_from_analysis_eq.
  apply steady_moved; [reflexivity | constructor].
Qed.

Lemma execute_plan_steady (i : nat) (plan : SearchPlan) :
  keeps (@steady World) (execute_plan P i plan).
Proof.
  unfold execute_plan.
  repeat lazymatch goal with
         | |- keeps _ (bind _ _) =>
             apply keeps_bind; [exact steady_trans | | intros ?]
         | |- keeps _ (print _) => apply print_steady
         | |- keeps _ (execute_search _ _) => apply execute_search_steady
         | |- keeps _ (process_tools _ _ _) => apply process_tools_steady
         | |- keeps _ (extract_from_analysis _ _) =>
             apply extract_from_analysis_steady
         end.
Qed.

Lemma plan_and_execute_steady : keeps (@steady World) (plan_and_execute P).
Proof.
  unfold plan_and_execute.
  apply keeps_bind; [exact steady_trans | apply plan_searches_steady |].
  intros search_plans.
  apply keeps_bind; [exact steady_trans | apply print_steady |]. intros _.
  apply keeps_for_enumerate; [exact steady_refl | exact steady_trans |].
  intros i plan. apply execute_plan_steady.
Qed.

(** One iteration: the counter goes up by one, first, and every model
    call of the iteration sees the new value. *)
Lemma research_iteration_paced (s : State World) :
  let n := (search_iterations (context s) + 1)%Z in
  exists evs,
    trace (snd (research_iteration P s)) = trace s ++ evs /\
    search_iterations (context (snd (research_iteration P s))) = n /\
    Forall (called_at n) evs /\
    planning_rounds evs = 1%nat.
Proof.
  intros n.
  pose proof (research_iteration_cases P s) as Hiter.
  destruct (plan_and_execute_steady (entered s)) as (evs & Ht & Hn & Hev).
  change (search_iterations (context (entered s))) with n in Hn, Hev.
  change (trace (entered s))
    with (trace s ++ [Printed (ResearchIteration n)]) in Ht.
  destruct (research_iteration_grows P s)
    as (control & g & s' & Hrun & [w Hs'] & _ & _ & Hp & _).
  assert (Hrounds : forall evs', trace s' = trace s ++ evs' ->
                                 planning_rounds evs' = 1%nat).
  { intros evs' H. rewrite Hs' in H. cbn [moved trace] in H.
    apply app_inv_head in H. now subst evs'. }
  rewrite Hrun in *. cbn [snd] in *.
  destruct (plan_and_execute P (entered s)) as [[[] | e] s1];
    cbn [snd] in *.
  - destruct (enough_information (context s1));
      injection Hiter as _ ->; cbn [observed trace context].
    + eexists. rewrite Ht, <- !app_assoc. split; [reflexivity |].
      split; [exact Hn |]. split.
      * apply Forall_app. split; [repeat constructor |].
        apply Forall_app. split; [exact Hev | repeat constructor].
      * apply Hrounds. cbn [observed trace].
        now rewrite Ht, <- !app_assoc.
    + eexists. rewrite Ht, <- !app_assoc. split; [reflexivity |].
      split; [exact Hn |]. split.
      * apply Forall_app. split; [repeat constructor | exact Hev].
      * apply Hrounds. now rewrite Ht, <- !app_assoc.
  - injection Hiter as _ ->. cbn [observed trace context].
    eexists. rewrite Ht, <- !app_assoc. split; [reflexivity |].
    split; [exact Hn |]. split.
    + apply Forall_app. split; [repeat constructor |].
      apply Forall_app. split; [exact Hev | repeat constructor].
    + apply Hrounds. cbn [observed trace]. now rewrite Ht, <- !app_assoc.
Qed.

(** The loop: the planner is shown the counters that follow the one the
    loop started from, one after the other. *)
Lemma research_loop_counters (max_iterations : Z) (fuel : nat) :
  forall s : State World,
  exists evs,
    trace (snd (research_loop P fuel max_iterations s)) = trace s ++ evs /\
    planner_counters evs =
      count_from (search_iterations (context s) + 1) (planning_rounds evs).
Proof.
  induction fuel as [| fuel IH]; intros s; rewrite research_loop_unroll;
    destruct (search_iterations (context s) <? max_iterations)%Z;
    try (exists []; simpl; rewrite app_nil_r; split; reflexivity).
  destruct (research_iteration_paced s) as (evs & Ht & Hn & Hev & Hp).
  assert (Hone : planner_counters evs =
                 count_from (search_iterations (context s) + 1)
                   (planning_rounds evs)).
  { rewrite (called_at_planner_counters Hev), Hp. reflexivity. }
  destruct (research_iteration P s) as [[[] | e] s1]; cbn [snd] in *;
    try (exists evs; now split).
  destruct (IH s1) as (evs' & Ht' & Hc).
  exists (evs ++ evs'). rewrite Ht', Ht, <- app_assoc.
  split; [reflexivity |].
  rewrite planner_counters_app, planning_rounds_app, Hone, Hc, Hp, Hn.
  reflexivity.
Qed.

End SteadyFacts.

(** X13. The counter is incremented before anything else in an iteration:
    every call of the planner and of the executor in an iteration that
    starts with [search_iterations = n] is made on a context that shows
    [n + 1], the iteration in progress and not the iterations completed.
    Over a run, the planner is shown 1, 2, 3, ... in the order of its
    calls, and the synthesizer the number of planning rounds made. *)
Theorem the_models_see_the_iteration_in_progress (World : Type)
    (P : Platform World) :
  (forall s : State World,
     let n := (search_iterations (context s) + 1)%Z in
     exists evs,
       trace (snd (research_iteration P s)) = trace s ++ evs /\
       search_iterations (context (snd (research_iteration P s))) = n /\
       Forall (fun ev =>
                 match ev with
                 | PlannerCalled ctx | ExecutorCalled _ ctx =>
                     search_iterations ctx = n
                 | _ => True
                 end) evs) /\
  (forall question max_iterations (w : World),
     let final :=
       snd (run_deep_research_agent P question max_iterations (start w)) in
     planner_counters (trace final) =
       count_from 1 (planning_rounds (trace final)) /\
     List.map search_iterations (synthesized_contexts (trace final)) =
       [Z.of_nat (planning_rounds (trace final))]).
Proof.
  split.
  - intros s n.
    destruct (research_iteration_paced P s) as (evs & Ht & Hn & Hev & _).
    exists evs. split; [exact Ht |]. split; [exact Hn |].
    revert Hev. apply Forall_impl. intros ev Hev.
    destruct ev; simpl in *; auto.
  - intros question max_iterations w final. subst final.
    destruct (run_summary P question max_iterations w)
      as (exit & g & s & w' & tail & Hloop & _ & [w1 Hs] & (_ & _ & _ & Hsy)
          & Hp & _ & -> & Hq & _).
    destruct (research_loop_counters P max_iterations
                (Z.to_nat max_iterations) (ready question w))
      as (evs & Ht & Hc).
    rewrite Hloop in Ht. cbn [snd] in Ht.
    assert (Hseen : seen g = evs).
    { rewrite Hs in Ht. cbn [moved trace] in Ht.
      exact (app_inv_head _ _ _ Ht). }
    assert (Hn : search_iterations (context s) =
                 Z.of_nat (planning_rounds evs)).
    { rewrite <- Hseen, Hp, Hs. reflexivity. }
    cbn [observed trace]. rewrite Ht.
    rewrite !planner_counters_app, !planning_rounds_app,
      !synthesized_contexts_app.
    rewrite (quiet_planner_counters Hq), (quiet_planning_rounds Hq),
      (quiet_synthesized_contexts Hq), <- Hseen, Hsy, Hseen, Hc.
    cbn [ready context new_ResearchContext search_iterations trace].
    simpl. rewrite !app_nil_r, Nat.add_0_r, Hn. split; reflexivity.
Qed.

(* ================================================================== *)
(** * Results and findings are kept apart *)
(* ================================================================== *)

(** X14. The two halves of a plan's processing do not interfere.
    Processing the tools of a response raises only when the tools cannot
    be built, and then with nothing done; with tools that were built it
    never raises, and it changes nothing of the context but
    [search_history], to which it appends. Extracting the findings of the
    narrative never raises, calls nothing outside and prints nothing, and
    changes nothing of the context but [key_findings]; an empty narrative
    and a narrative without a finding line leave the state exactly as it
    was. *)
Theorem results_and_findings_are_kept_apart (World : Type)
    (P : Platform World) (s : State World) :
  (forall plan response,
     let out := process_tools P plan response s in
     match tools response with
     | Ok _ => fst out = Ok tt
     | Raise e => out = (Raise e, s)
     end /\
     query (context (snd out)) = query (context s) /\
     key_findings (context (snd out)) = key_findings (context s) /\
     unanswered_questions (context (snd out)) =
       unanswered_questions (context s) /\
     search_iterations (context (snd out)) = search_iterations (context s) /\
     exists rs,
       search_history (context (snd out)) = search_history (context s) ++ rs) /\
  (forall text,
     let out := extract_from_analysis P text s in
     let fs :=
       findings_of (isspace P) (selected_finding_line (isspace P) (lower P))
         text in
     fst out = Ok tt /\
     world (snd out) = world s /\ trace (snd out) = trace s /\
     context (snd out) = with_findings (context s) fs /\
     search_history (context (snd out)) = search_history (context s)) /\
  extract_from_analysis P [] s = (Ok tt, s) /\
  (forall text,
     findings_of (isspace P) (selected_finding_line (isspace P) (lower P))
       text = [] ->
     extract_from_analysis P text s = (Ok tt, s)).
Proof.
  split; [| split; [| split]].
  - intros plan response out. subst out.
    destruct (tools response) as [built | e] eqn:Hbuilt.
    + destruct (process_tools_summary P plan response s Hbuilt)
        as (rs & w & evs & -> & _).
      cbn [fst snd moved context with_results query key_findings
           unanswered_questions search_iterations search_history].
      repeat split. now exists rs.
    + rewrite (process_tools_unbuilt P plan response s Hbuilt). cbn [snd].
      repeat split. exists []. now rewrite app_nil_r.
  - intros text out fs. subst out fs.
    rewrite extract_from_analysis_eq.
    cbn [fst snd moved context world trace with_findings search_history].
    rewrite app_nil_r. repeat split.
  - destruct s. reflexivity.
  - intros text Hnone. rewrite extract_from_analysis_eq, Hnone.
    now rewrite with_findings_nil, moved_nowhere.
Qed.

(** A narrative without a line about a finding leaves the state as it
    was. *)
Lemma results_and_findings_are_kept_apart_witness :
  extract_from_analysis (scripted healthy) (lit "nothing to report")
    (ready (lit "X") 0%nat) =
  (Ok tt, ready (lit "X") 0%nat).
Proof.
  refine (proj2 (proj2 (proj2 (results_and_findings_are_kept_apart
                                 (scripted healthy)
                                 (ready (lit "X") 0%nat))))
            (lit "nothing to report") _).
  vm_compute. reflexivity.
Defined.

(* ================================================================== *)
(** * The size of the synthesis prompt *)
(* ================================================================== *)

Lemma join_length (sep : str) (pieces : list str) :
  (List.length (join sep pieces) <=
   list_sum (List.map (fun piece => List.length piece + List.length sep)
               pieces))%nat.
Proof.
  induction pieces as [| piece rest IH]; [apply Nat.le_refl |].
  destruct rest as [| piece' rest'].
  - simpl. lia.
  - change (join sep (piece :: piece' :: rest'))
      with (piece ++ sep ++ join sep (piece' :: rest')).
    rewrite !length_app. cbn [List.map list_sum fold_right] in *. lia.
Qed.

Lemma join_nil (sep : str) (pieces : list str) :
  Forall (fun piece => piece <> []) pieces ->
  join sep pieces = [] -> pieces = [].
Proof.
  intros Hall. destruct Hall as [| piece rest Hpiece _]; [reflexivity |].
  destruct rest as [| piece' rest'].
  - simpl. intros E. now elim Hpiece.
  - change (join sep (piece :: piece' :: rest'))
      with (piece ++ sep ++ join sep (piece' :: rest')).
    intros E. apply app_eq_nil in E. now elim Hpiece.
Qed.

Lemma result_text_length (r : SearchResult) :
  (List.length (result_text r) <=
   List.length (title r) + List.length (url r) + 537)%nat.
Proof.
  unfold result_text, take. rewrite !length_app, length_firstn.
  assert (Hi : (List.length (intent_value (search_intent r)) <= 19)%nat)
    by (destruct (search_intent r); vm_compute; lia).
  change (List.length (lit "[")) with 1%nat.
  change (List.length (lit "] Source: ")) with 10%nat.
  change (List.length (lit " (")) with 2%nat.
  change (List.length (lit ")")) with 1%nat.
  change (List.length (lit "...")) with 3%nat.
  change (List.length [newline]) with 1%nat.
  lia.
Qed.

(** X15. The synthesis prompt takes at most 500 code points of content
    from each stored result: the text of all results is at most
    [len(title) + len(url) + 539] code points per result, whatever the
    length of the contents, and it is empty exactly when the history is.
    The line [synthesize_research] prints for debugging shows the fields
    of that prompt and these two lengths. *)
Theorem the_synthesis_prompt_is_bounded (ctx : ResearchContext) :
  let fields := synthesize_research_fields ctx in
  (List.length (sf_all_results fields) <=
   list_sum (List.map (fun r => List.length (title r) + List.length (url r) + 539)
               (search_history ctx)))%nat /\
  (sf_all_results fields = [] <-> search_history ctx = []) /\
  debug_line ctx =
    DebugSynthesize (sf_query fields) (sf_total_searches fields)
      (sf_key_findings fields) (List.length (search_history ctx))
      (List.length (sf_all_results fields)).
Proof.
  intros fields. subst fields.
  cbn [synthesize_research_fields sf_all_results sf_query sf_total_searches
       sf_key_findings].
  split; [| split; [split |]].
  - eapply Nat.le_trans; [apply join_length |].
    rewrite map_map. change (List.length [newline; newline]) with 2%nat.
    induction (search_history ctx) as [| r rs IH]; [apply Nat.le_refl |].
    cbn [List.map list_sum fold_right] in *. unfold list_sum in IH.
    pose proof (result_text_length r). lia.
  - intros E. apply join_nil in E.
    + now apply map_eq_nil in E.
    + apply Forall_map, Forall_forall. intros r _. discriminate.
  - intros ->. reflexivity.
  - reflexivity.
Qed.
